(** * Academic Apex: document ingestion, generation client and prompt curator

    A shallow embedding of
      - [src/backend/ingestion_pipeline.py]   (class [IngestionPipeline]),
      - [src/agentforge_academic_apex/ollama_adapter.py] (class [OllamaAdapter]),
      - [src/agentforge_academic_apex/curator_service.py] ([curate_prompt]),
    followed by the properties the specification states about them.

    Python values are modelled as follows: a [str] is the list of its code
    points, [bytes] is a list of [Byte.byte], a [dict] with literal keys is a
    [gmap string pyval], a parsed JSON object is a [gmap pystr pyval].
    Exceptions are explicit: a computation is a [res A], either [Ret a] or
    [Raise e], and [try]/[except]/[finally] are combinators on it.  What the
    operating system, PyMuPDF, Tesseract and the HTTP backend answer is input
    data of the model ([document], [reply]); a float is the rational it
    stands for. *)

From Stdlib Require Import ZArith NArith QArith String Ascii List Bool Lia Sorted.
From stdpp Require Import base option list strings gmap pretty.

#[local] Set Warnings "-register-all".
#[local] Open Scope string_scope.
#[local] Open Scope list_scope.

(* ===================================================================== *)
(** ** Python strings, values and exceptions *)
(* ===================================================================== *)

Module Py.

(** A [str] is a sequence of Unicode code points; [len] is [length]. *)
Definition pystr := list N.

(** A literal of the source text (ASCII only), as a [str]. *)
Definition lit (s : string) : pystr :=
  map N_of_ascii (list_ascii_of_string s).

(** [str.isspace] for one character: the code points CPython treats as
    whitespace. *)
Definition isspace (c : N) : bool :=
  (((0x09 <=? c) && (c <=? 0x0D)) || ((0x1C <=? c) && (c <=? 0x20))
   || (c =? 0x85) || (c =? 0xA0) || (c =? 0x1680)
   || ((0x2000 <=? c) && (c <=? 0x200A))
   || (c =? 0x2028) || (c =? 0x2029) || (c =? 0x202F) || (c =? 0x205F)
   || (c =? 0x3000))%N.

Fixpoint lstrip (s : pystr) : pystr :=
  match s with
  | c :: rest => if isspace c then lstrip rest else s
  | [] => []
  end.

Definition rstrip (s : pystr) : pystr := rev (lstrip (rev s)).

(** [s.strip()] *)
Definition strip (s : pystr) : pystr := rstrip (lstrip s).

(** Truth value of a [str]: non-empty. *)
Definition truthy (s : pystr) : bool :=
  match s with [] => false | _ :: _ => true end.

(** [sep.join(parts)] *)
Fixpoint join (sep : pystr) (parts : list pystr) : pystr :=
  match parts with
  | [] => []
  | [p] => p
  | p :: rest => p ++ sep ++ join sep rest
  end.

(** [needle in hay] for two strings. *)
Fixpoint starts_with (needle hay : pystr) : bool :=
  match needle, hay with
  | [], _ => true
  | _ :: _, [] => false
  | a :: needle', b :: hay' => (a =? b)%N && starts_with needle' hay'
  end.

Fixpoint is_substring (needle hay : pystr) : bool :=
  starts_with needle hay ||
  match hay with
  | [] => false
  | _ :: hay' => is_substring needle hay'
  end.

(** [str(n)] for a non-negative integer. *)
Definition str_of_nat (n : nat) : pystr := lit (pretty (N.of_nat n)).
Definition str_of_N (n : N) : pystr := lit (pretty n).

(** Python values: what [json.loads] produces, which is also all the result
    dictionaries of this program hold. *)
Inductive pyval :=
| PyNone
| PyBool (b : bool)
| PyInt (z : Z)
| PyFloat (q : Q)
| PyStr (s : pystr)
| PyList (l : list pyval)
| PyDict (m : gmap pystr pyval).

(** Exception classes that occur in the three modules. *)
Inductive exn_class :=
| UnicodeDecodeError | LookupError | OSError | FileNotFoundError
| CalledProcessError
| RequestsConnectionError | RequestsHTTPError | RequestsTimeout
| RequestsJSONDecodeError | RequestException
| JSONDecodeError | ValueError | TypeError | AttributeError | KeyError
| ConnectionError | ImportError | RuntimeError | OverflowError.

#[global] Instance exn_class_eq_dec : EqDecision exn_class.
Proof. solve_decision. Defined.

(** An exception object: its class and [str(e)]. *)
Record exn := Exn { exn_cls : exn_class; exn_msg : pystr }.

(** [isinstance(e, UnicodeDecodeError)] *)
Definition is_UnicodeDecodeError (e : exn) : bool :=
  bool_decide (exn_cls e = UnicodeDecodeError).

(** [isinstance(e, subprocess.CalledProcessError)] *)
Definition is_CalledProcessError (e : exn) : bool :=
  bool_decide (exn_cls e = CalledProcessError).

(** [isinstance(e, requests.exceptions.ConnectionError)] *)
Definition is_requests_ConnectionError (e : exn) : bool :=
  bool_decide (exn_cls e = RequestsConnectionError).

(** [isinstance(e, requests.exceptions.RequestException)]: the base class
    of every exception [requests] raises, its own [JSONDecodeError]
    included. *)
Definition is_RequestException (e : exn) : bool :=
  match exn_cls e with
  | RequestsConnectionError | RequestsHTTPError | RequestsTimeout
  | RequestsJSONDecodeError | RequestException => true
  | _ => false
  end.

(** [isinstance(e, (json.JSONDecodeError, ValueError))] *)
Definition is_ValueError (e : exn) : bool :=
  match exn_cls e with
  | JSONDecodeError | RequestsJSONDecodeError | UnicodeDecodeError
  | ValueError => true
  | _ => false
  end.

(** [isinstance(e, Exception)]: every class above derives from
    [Exception]. *)
Definition is_Exception (e : exn) : bool := true.

(** A computation that returns or raises. *)
Inductive res (A : Type) :=
| Ret (a : A)
| Raise (e : exn).
Arguments Ret {A} a.
Arguments Raise {A} e.

#[global] Instance res_ret : MRet res := fun _ a => Ret a.
#[global] Instance res_bind : MBind res := fun _ _ f m =>
  match m with
  | Ret a => f a
  | Raise e => Raise e
  end.

(** [try: body / except C as e: handler e] where [catches] decides
    [isinstance(e, C)]. *)
Definition try_except {A} (body : res A) (catches : exn -> bool)
    (handler : exn -> res A) : res A :=
  match body with
  | Ret a => Ret a
  | Raise e => if catches e then handler e else Raise e
  end.

(** [try: body / finally: final]: an exception of [final] replaces the
    outcome of [body]. *)
Definition try_finally {A} (body : res A) (final : res unit) : res A :=
  match body, final with
  | _, Raise e => Raise e
  | r, Ret _ => r
  end.

(** [needle in v] *)
Definition py_contains (needle : pystr) (v : pyval) : res bool :=
  match v with
  | PyDict m => Ret (bool_decide (is_Some (m !! needle)))
  | PyList l =>
      Ret (existsb (fun x => match x with
                             | PyStr s => bool_decide (s = needle)
                             | _ => false
                             end) l)
  | PyStr s => Ret (is_substring needle s)
  | PyNone | PyBool _ | PyInt _ | PyFloat _ =>
      Raise (Exn TypeError (lit "argument is not iterable"))
  end.

(** [v[key]] for a string key *)
Definition py_getitem (v : pyval) (key : pystr) : res pyval :=
  match v with
  | PyDict m =>
      match m !! key with
      | Some x => Ret x
      | None => Raise (Exn KeyError key)
      end
  | PyList _ | PyStr _ =>
      Raise (Exn TypeError (lit "indices must be integers"))
  | PyNone | PyBool _ | PyInt _ | PyFloat _ =>
      Raise (Exn TypeError (lit "object is not subscriptable"))
  end.

(** [v.get(key, default)] *)
Definition py_get (v : pyval) (key : pystr) (dflt : pyval) : res pyval :=
  match v with
  | PyDict m => Ret (default dflt (m !! key))
  | _ => Raise (Exn AttributeError (lit "object has no attribute 'get'"))
  end.

End Py.

(* ===================================================================== *)
(** ** Text codecs used by [open(path, 'r', encoding=...)] *)
(* ===================================================================== *)

Module Codec.
Import Py.

Definition in_range (b lo hi : N) : bool := ((lo <=? b) && (b <=? hi))%N.

(** Continuation byte [10xxxxxx]. *)
Definition is_cont (b : N) : bool := in_range b 0x80 0xBF.

(** Strict UTF-8 over byte values: shortest form only, no surrogates,
    nothing above U+10FFFF. *)
Fixpoint utf8_units (bs : list N) : option pystr :=
  match bs with
  | [] => Some []
  | b0 :: r0 =>
      if (b0 <? 0x80)%N then cons b0 <$> utf8_units r0
      else if in_range b0 0xC2 0xDF then
        match r0 with
        | b1 :: r1 =>
            if is_cont b1
            then cons ((b0 - 0xC0) * 0x40 + (b1 - 0x80))%N <$> utf8_units r1
            else None
        | _ => None
        end
      else if in_range b0 0xE0 0xEF then
        match r0 with
        | b1 :: b2 :: r2 =>
            if in_range b1 (if (b0 =? 0xE0)%N then 0xA0 else 0x80)%N
                           (if (b0 =? 0xED)%N then 0x9F else 0xBF)%N
               && is_cont b2
            then cons ((b0 - 0xE0) * 0x1000 + (b1 - 0x80) * 0x40
                       + (b2 - 0x80))%N <$> utf8_units r2
            else None
        | _ => None
        end
      else if in_range b0 0xF0 0xF4 then
        match r0 with
        | b1 :: b2 :: b3 :: r3 =>
            if in_range b1 (if (b0 =? 0xF0)%N then 0x90 else 0x80)%N
                           (if (b0 =? 0xF4)%N then 0x8F else 0xBF)%N
               && is_cont b2 && is_cont b3
            then cons ((b0 - 0xF0) * 0x40000 + (b1 - 0x80) * 0x1000
                       + (b2 - 0x80) * 0x40 + (b3 - 0x80))%N
                 <$> utf8_units r3
            else None
        | _ => None
        end
      else None
  end.

Definition utf8_decode (bs : list Byte.byte) : option pystr :=
  utf8_units (map Byte.to_N bs).

(** ISO-8859-1: byte [b] is code point [b]. *)
Definition latin1_decode (bs : list Byte.byte) : option pystr :=
  Some (map Byte.to_N bs).

(** Windows-1252: as latin-1 outside [0x80..0x9F]; five bytes of that
    range are unassigned. *)
Definition cp1252_char (b : N) : option N :=
  if in_range b 0x80 0x9F then
    nth (N.to_nat (b - 0x80))
      [Some 0x20AC; None; Some 0x201A; Some 0x0192; Some 0x201E; Some 0x2026;
       Some 0x2020; Some 0x2021; Some 0x02C6; Some 0x2030; Some 0x0160;
       Some 0x2039; Some 0x0152; None; Some 0x017D; None;
       None; Some 0x2018; Some 0x2019; Some 0x201C; Some 0x201D; Some 0x2022;
       Some 0x2013; Some 0x2014; Some 0x02DC; Some 0x2122; Some 0x0161;
       Some 0x203A; Some 0x0153; None; Some 0x017E; Some 0x0178]%N None
  else Some b.

Definition cp1252_decode (bs : list Byte.byte) : option pystr :=
  mapM cp1252_char (map Byte.to_N bs).

(** The codec registry, for the names the pipeline passes. *)
Definition lookup_codec (encoding : string)
    : option (list Byte.byte -> option pystr) :=
  if String.eqb encoding "utf-8" then Some utf8_decode
  else if String.eqb encoding "latin-1" then Some latin1_decode
  else if String.eqb encoding "cp1252" then Some cp1252_decode
  else None.

(** [bytes.decode(encoding)] with [errors='strict']. *)
Definition decode (encoding : string) (bs : list Byte.byte) : res pystr :=
  match lookup_codec encoding with
  | None => Raise (Exn LookupError (lit "unknown encoding: " ++ lit encoding))
  | Some codec =>
      match codec bs with
      | Some text => Ret text
      | None =>
          Raise (Exn UnicodeDecodeError
                   (lit "'" ++ lit encoding ++ lit "' codec can't decode bytes"))
      end
  end.

(** Text mode reads with universal newlines: ["\r\n"] and a lone ["\r"]
    both become ["\n"]. *)
Fixpoint universal_newlines (s : pystr) : pystr :=
  match s with
  | [] => []
  | c :: rest =>
      if (c =? 13)%N then
        match rest with
        | c' :: rest' =>
            if (c' =? 10)%N then 10%N :: universal_newlines rest'
            else 10%N :: universal_newlines rest
        | [] => [10%N]
        end
      else c :: universal_newlines rest
  end.

End Codec.

(* ===================================================================== *)
(** ** [backend/ingestion_pipeline.py] *)
(* ===================================================================== *)

Module Ingestion.
Import Py Codec.

(** A result dictionary: literal keys, Python values. *)
Abbreviation dict := (gmap string pyval).

(** What [subprocess.run([...], check=True)] does for a command whose
    output is not read as text (the probe of [_check_tesseract]). *)
Inductive proc_outcome :=
| Completed (stdout : pystr)      (* exit status 0 *)
| NonZeroExit (returncode : Z)    (* raises [CalledProcessError] *)
| SpawnFailed (e : exn).          (* e.g. [FileNotFoundError]: no binary *)

(** One captured stream of a command run in text mode, as
    [communicate()] hands it over: the bytes decoded with the locale's
    encoding ([errors='strict'], universal newlines), or the message of the
    [UnicodeDecodeError] that decoding them raises. *)
Inductive captured :=
| Decoded (text : pystr)
| Undecodable (msg : pystr).

(** What [subprocess.run([...], capture_output=True, text=True,
    check=True)] meets: the command cannot be started, or it runs to its
    end with an exit status and its two captured streams. *)
Inductive text_outcome :=
| Exited (returncode : Z) (stdout stderr : captured)
| NotStarted (e : exn).           (* e.g. [FileNotFoundError]: no binary *)

(** One page of an opened PDF, as PyMuPDF and Tesseract answer for it. *)
Record pdf_page := {
  (* [doc.load_page(n).get_text()] *)
  page_text : res pystr;
  (* [get_pixmap], [tobytes], writing the temporary image; then what
     Tesseract does on that image *)
  page_raster : res text_outcome;
  (* [tmp_path.unlink()] *)
  page_unlink : res unit;
}.

(** Opening a path and reading its bytes: the content, or an [OSError]
    (missing, unreadable, a directory). *)
Inductive read_outcome :=
| ReadBytes (raw : list Byte.byte)
| ReadFailed (msg : pystr).

(** A path, as the file system and the external tools answer for it during
    one call.  The fields are separate observations: the model does not
    derive what PyMuPDF or Tesseract make of a file from its bytes.
    [exists()] and [is_file()] answer, or raise the [OSError] that
    [pathlib] does not take for "no such file" (a name that is too long,
    for one). *)
Record document := {
  doc_suffix : string;                (* [file_path.suffix] *)
  doc_exists : res bool;              (* [file_path.exists()] *)
  doc_is_file : res bool;             (* [file_path.is_file()] *)
  doc_stat : res N;                   (* [file_path.stat().st_size] *)
  doc_read : read_outcome;            (* [open(file_path)] and reading it *)
  doc_fitz : res (list pdf_page);     (* [fitz.open(file_path)] *)
  doc_tesseract : text_outcome;       (* Tesseract run on [file_path] *)
}.

(** The two capability flags [__init__] caches. *)
Record Pipeline := {
  tesseract_available : bool;
  pymupdf_available : bool;
}.

Definition run (o : proc_outcome) : res pystr :=
  match o with
  | Completed stdout => Ret stdout
  | NonZeroExit code =>
      Raise (Exn CalledProcessError (lit "Command returned non-zero exit status"))
  | SpawnFailed e => Raise e
  end.

(** Decoding one captured stream. *)
Definition decoded (stream : captured) : res pystr :=
  match stream with
  | Decoded text => Ret text
  | Undecodable msg => Raise (Exn UnicodeDecodeError msg)
  end.

(** [subprocess.run] with [capture_output=True, text=True, check=True],
    returning [result.stdout].  [communicate()] decodes stdout, then
    stderr, when the process has ended; [check] looks at the exit status
    only after that, so output that does not decode raises
    [UnicodeDecodeError] whatever the exit status. *)
Definition run_text (o : text_outcome) : res pystr :=
  match o with
  | NotStarted e => Raise e
  | Exited returncode stdout stderr =>
      out ← decoded stdout;
      _ ← decoded stderr;
      if (returncode =? 0)%Z then Ret out
      else Raise (Exn CalledProcessError
                    (lit "Command returned non-zero exit status"))
  end.

(** [_check_tesseract]: [tesseract --version] with [check=True]. *)
Definition _check_tesseract (probe : proc_outcome) : res bool :=
  try_except
    (_ ← run probe; mret true)
    (fun e => is_CalledProcessError e
              || bool_decide (exn_cls e = FileNotFoundError))
    (fun _ => mret false).

(** [_check_pymupdf]: [import fitz]. *)
Definition _check_pymupdf (import_fitz : res unit) : res bool :=
  try_except
    (_ ← import_fitz; mret true)
    (fun e => bool_decide (exn_cls e = ImportError))
    (fun _ => mret false).

(** [__init__]: both probes run once and their answers are kept. *)
Definition new_pipeline (probe : proc_outcome) (import_fitz : res unit)
    : res Pipeline :=
  tesseract ← _check_tesseract probe;
  pymupdf ← _check_pymupdf import_fitz;
  mret {| tesseract_available := tesseract; pymupdf_available := pymupdf |}.

(** [str.lower] on the ASCII letters (no other character lowers to a
    letter of a known suffix). *)
Definition lower_ascii (c : ascii) : ascii :=
  let n := nat_of_ascii c in
  if (65 <=? n)%nat && (n <=? 90)%nat then ascii_of_nat (n + 32) else c.

Fixpoint lower (s : string) : string :=
  match s with
  | EmptyString => EmptyString
  | String c rest => String (lower_ascii c) (lower rest)
  end.

Definition type_map : gmap string string :=
  list_to_map
    [(".pdf", "application/pdf"); (".txt", "text/plain");
     (".md", "text/plain"); (".jpg", "image/jpeg"); (".jpeg", "image/jpeg");
     (".png", "image/png"); (".gif", "image/gif")].

Definition _detect_content_type (d : document) : string :=
  let suffix := lower (doc_suffix d) in
  default "application/octet-stream" (type_map !! suffix).

(** [open(file_path, 'r', encoding=encoding)] followed by [f.read()]. *)
Definition read_raw (d : document) : res (list Byte.byte) :=
  match doc_read d with
  | ReadBytes raw => Ret raw
  | ReadFailed msg => Raise (Exn OSError msg)
  end.

Definition open_read (d : document) (encoding : string) : res pystr :=
  raw ← read_raw d;
  text ← decode encoding raw;
  mret (universal_newlines text).

Definition text_result (text : pystr) : dict :=
  list_to_map
    [("success", PyBool true); ("text", PyStr text);
     ("text_length", PyInt (Z.of_nat (length text)));
     ("confidence", PyFloat 1); ("method", PyStr (lit "direct_text"))].

Definition text_fallback_result (encoding : string) (text : pystr) : dict :=
  list_to_map
    [("success", PyBool true); ("text", PyStr text);
     ("text_length", PyInt (Z.of_nat (length text)));
     ("confidence", PyFloat (9 # 10));
     ("method", PyStr (lit "text_" ++ lit encoding));
     ("warning", PyStr (lit "Used " ++ lit encoding ++ lit " encoding"))].

Definition failure (error : pystr) : dict :=
  list_to_map [("success", PyBool false); ("error", PyStr error)].

Definition undecodable : dict :=
  failure (lit "Unable to decode text file with any supported encoding").

(** The [for encoding in [...]] loop of [_process_text]. *)
Fixpoint try_encodings (d : document) (encodings : list string) : res dict :=
  match encodings with
  | [] => Ret undecodable
  | encoding :: rest =>
      try_except
        (text ← open_read d encoding;
         mret (text_fallback_result encoding text))
        is_UnicodeDecodeError
        (fun _ => try_encodings d rest)
  end.

Definition _process_text (self : Pipeline) (d : document) : res dict :=
  try_except
    (text ← open_read d "utf-8";
     mret (text_result text))
    is_UnicodeDecodeError
    (fun _ => try_encodings d ["latin-1"; "cp1252"]).

(** [_ocr_image]: Tesseract's trimmed output, or the empty string when
    [subprocess.run] raises [CalledProcessError]. *)
Definition _ocr_image (tesseract : text_outcome) : res pystr :=
  try_except
    (stdout ← run_text tesseract;
     mret (strip stdout))
    is_CalledProcessError
    (fun _ => mret []).

Definition _process_image (self : Pipeline) (d : document) : res dict :=
  if negb (tesseract_available self) then
    Ret (failure (lit "OCR requires Tesseract (install tesseract-ocr)"))
  else
    try_except
      (text ← _ocr_image (doc_tesseract d);
       mret (list_to_map
               [("success", PyBool true); ("text", PyStr text);
                ("text_length", PyInt (Z.of_nat (length text)));
                ("confidence", PyFloat (8 # 10));
                ("method", PyStr (lit "tesseract_ocr"))] : dict))
      is_Exception
      (fun e => Ret (failure (lit "OCR processing failed: " ++ exn_msg e))).

Definition nl : pystr := [10%N].

Definition page_marker (page_num : nat) : pystr :=
  lit "--- Page " ++ str_of_nat (page_num + 1) ++ lit " ---".

Definition page_marker_ocr (page_num : nat) : pystr :=
  lit "--- Page " ++ str_of_nat (page_num + 1) ++ lit " (OCR) ---".

(** The [for page_num in range(page_count)] loop of
    [_process_pdf_pymupdf]; [pages] are the pages from [page_num] on.
    ([doc.close()] after the loop is taken not to raise.) *)
Fixpoint pages_loop (self : Pipeline) (page_num : nat)
    (pages : list pdf_page) (text_parts : list pystr) : res (list pystr) :=
  match pages with
  | [] => Ret text_parts
  | page :: rest =>
      text ← page_text page;
      if truthy (strip text) then
        pages_loop self (S page_num) rest
          (text_parts ++ [page_marker page_num ++ nl ++ text])
      else if tesseract_available self then
        tesseract ← page_raster page;
        ocr_text ← try_finally (_ocr_image tesseract) (page_unlink page);
        if truthy (strip ocr_text) then
          pages_loop self (S page_num) rest
            (text_parts ++ [page_marker_ocr page_num ++ nl ++ ocr_text])
        else pages_loop self (S page_num) rest text_parts
      else pages_loop self (S page_num) rest text_parts
  end.

Definition _process_pdf_pymupdf (self : Pipeline) (d : document) : res dict :=
  try_except
    (doc ← doc_fitz d;
     let page_count := length doc in
     text_parts ← pages_loop self 0 doc [];
     let full_text := join (nl ++ nl) text_parts in
     mret (list_to_map
             [("success", PyBool true); ("text", PyStr full_text);
              ("text_length", PyInt (Z.of_nat (length full_text)));
              ("confidence", PyFloat (9 # 10));
              ("method", PyStr (lit "pymupdf"));
              ("pages", PyInt (Z.of_nat page_count))] : dict))
    is_Exception
    (fun e => Ret (failure (lit "PyMuPDF processing failed: " ++ exn_msg e))).

Definition _process_pdf_fallback (self : Pipeline) (d : document) : res dict :=
  Ret (failure (lit "PDF processing requires PyMuPDF (pip install PyMuPDF)")).

Definition _process_pdf (self : Pipeline) (d : document) : res dict :=
  if pymupdf_available self then _process_pdf_pymupdf self d
  else _process_pdf_fallback self d.

(** An extractor, as registered in [supported_types]. *)
Abbreviation extractor := (Pipeline -> document -> res dict).

(** The items of [self.supported_types], in insertion order. *)
Definition supported_items : list (string * extractor) :=
  [("application/pdf", _process_pdf); ("image/jpeg", _process_image);
   ("image/png", _process_image); ("image/gif", _process_image);
   ("text/plain", _process_text)].

Definition supported_types : gmap string extractor :=
  list_to_map supported_items.

Definition get_supported_types : list string := supported_items.*1.

(** [process_document].  [start_time] is the first reading of
    [time.time()], [now] the later reading that the returned dictionary
    uses.  Logging is left out. *)
Definition process_document (self : Pipeline) (d : document)
    (start_time now : Q) : res dict :=
  try_except (A := dict)
    (let content_type := _detect_content_type d in
     match (supported_types !! content_type : option extractor) with
     | None =>
         Ret (list_to_map
                [("success", PyBool false);
                 ("error", PyStr (lit "Unsupported file type: "
                                  ++ lit content_type));
                 ("processing_time", PyFloat (now - start_time)%Q)] : dict)
     | Some processor =>
         result ← processor self d;
         let result := <["processing_time" := PyFloat (now - start_time)%Q]> result in
         size ← doc_stat d;
         let result := <["file_size" := PyInt (Z.of_N size)]> result in
         let result := <["content_type" := PyStr (lit content_type)]> result in
         mret result
     end)
    is_Exception
    (fun e =>
       Ret (list_to_map
              [("success", PyBool false); ("error", PyStr (exn_msg e));
               ("processing_time", PyFloat (now - start_time)%Q)] : dict)).

(** The integer nearest to [n] among those with at most 53 significant
    bits, ties to even: the value of [float(n)]. *)
Definition nearest53 (n : N) : N :=
  let bits := N.size n in
  if (bits <=? 53)%N then n
  else
    let e := (bits - 53)%N in
    let m := N.shiftr n e in
    let r := (n mod 2 ^ e)%N in
    let half := (2 ^ (e - 1))%N in
    let m := if (half <? r)%N || ((r =? half)%N && N.odd m)
             then (m + 1)%N else m in
    N.shiftl m e.

(** [size / (1024*1024)]: true division of two integers gives the float
    nearest to the quotient.  The divisor is [2^20], so that float is
    [nearest53 size / 2^20]; it is returned as its numerator over [2^20].
    A quotient of [2^1024] or more is no float: [OverflowError]. *)
Definition true_div_mb (size : N) : res N :=
  let numerator := nearest53 size in
  if (1044 <=? N.log2 numerator)%N then
    Raise (Exn OverflowError
             (lit "integer division result too large for a float"))
  else Ret numerator.

(** [f'{x:.1f}'] for the float [x = numerator / 2^20]: its exact value to
    one decimal, ties to even. *)
Definition fmt_1f (numerator : N) : pystr :=
  let q := (10 * numerator / 1048576)%N in
  let r := (10 * numerator mod 1048576)%N in
  let tenths :=
    if (524288 <? r)%N || ((r =? 524288)%N && N.odd q) then (q + 1)%N else q in
  str_of_N (tenths / 10) ++ lit "." ++ str_of_N (tenths mod 10).

(** [f'{size / (1024*1024):.1f}'] *)
Definition fmt_mb (size : N) : res pystr :=
  x ← true_div_mb size;
  mret (fmt_1f x).

Definition max_size : N := 50 * 1024 * 1024.

Definition validate_file (self : Pipeline) (d : document) : res dict :=
  found ← doc_exists d;
  if negb found then
    Ret (list_to_map [("valid", PyBool false);
                      ("error", PyStr (lit "File does not exist"))])
  else
    regular ← doc_is_file d;
    if negb regular then
      Ret (list_to_map [("valid", PyBool false);
                        ("error", PyStr (lit "Path is not a file"))])
    else
      let content_type := _detect_content_type d in
      if negb (bool_decide (is_Some (supported_types !! content_type))) then
        Ret (list_to_map
               [("valid", PyBool false);
                ("error", PyStr (lit "Unsupported file type: "
                                 ++ lit content_type));
                ("supported_types",
                 PyList (map (fun k => PyStr (lit k)) get_supported_types))])
      else
        size ← doc_stat d;
        if (max_size <? size)%N then
          shown ← fmt_mb size;
          Ret (list_to_map
                 [("valid", PyBool false);
                  ("error", PyStr (lit "File too large: " ++ shown
                                   ++ lit "MB (max: 50MB)"))])
        else
          Ret (list_to_map
                 [("valid", PyBool true);
                  ("content_type", PyStr (lit content_type));
                  ("size", PyInt (Z.of_N size))]).

End Ingestion.

(* ===================================================================== *)
(** ** [agentforge_academic_apex/ollama_adapter.py] *)
(* ===================================================================== *)

Module Ollama.
Import Py.

Abbreviation dict := (gmap string pyval).

Record OllamaAdapter := {
  base_url : pystr;
  model : pystr;
}.

(** The POST that one attempt sends. *)
Record request := {
  req_url : pystr;
  req_model : pystr;
  req_prompt : pystr;
  req_num_predict : Z;
  req_temperature : Q;
}.

(** The body of an HTTP reply as [response.json()] sees it: not JSON (the
    library raises its own [JSONDecodeError], a [RequestException], or on
    old versions the standard one), or a parsed value together with its
    rendering [str(value)], which only an error message quotes. *)
Inductive http_body :=
| NotJson (raised_by_requests : bool)
| Json (value : pyval) (shown : pystr).

(** What the backend does with one request. *)
Inductive reply :=
| Unreachable (msg : pystr)          (* [requests] [ConnectionError] *)
| TimedOut (msg : pystr)             (* [requests] [Timeout] *)
| OtherRequestError (msg : pystr)    (* any other [RequestException] *)
| Http (status : Z) (body : http_body).

(** A backend answers the [n]-th request of a call (counted from 0).
    Here every request has an outcome; a request that stays without one
    (the calls of [generate] carry no timeout) is the subject of module
    [Waiting] further down. *)
Abbreviation backend := (request -> nat -> reply).

(** What a call does to the outside, in order. *)
Inductive event :=
| Post (attempt : nat)
| Sleep (seconds : Z).

Definition _exponential_backoff (attempt : nat) : Z :=
  Z.min (2 ^ Z.of_nat attempt) 30.

(** [self.session.post(...)] *)
Definition post (r : reply) : res (Z * http_body) :=
  match r with
  | Unreachable msg => Raise (Exn RequestsConnectionError msg)
  | TimedOut msg => Raise (Exn RequestsTimeout msg)
  | OtherRequestError msg => Raise (Exn RequestException msg)
  | Http status body => Ret (status, body)
  end.

(** [response.raise_for_status()]: an [HTTPError] for 4xx and 5xx. *)
Definition raise_for_status (status : Z) : res unit :=
  if ((400 <=? status) && (status <? 600))%Z
  then Raise (Exn RequestsHTTPError
                (str_of_N (Z.to_N status) ++ lit " Error"))
  else Ret tt.

(** [response.json()] *)
Definition response_json (body : http_body) : res (pyval * pystr) :=
  match body with
  | NotJson true =>
      Raise (Exn RequestsJSONDecodeError (lit "Expecting value"))
  | NotJson false => Raise (Exn JSONDecodeError (lit "Expecting value"))
  | Json value shown => Ret (value, shown)
  end.

(** The body of the [try] of one attempt. *)
Definition attempt_once (model_name : pystr) (r : reply) : res dict :=
  response ← post r;
  _ ← raise_for_status response.1;
  result ← response_json response.2;
  present ← py_contains (lit "response") result.1;
  if negb present then
    Raise (Exn ValueError (lit "Invalid response format: " ++ result.2))
  else
    text ← py_getitem result.1 (lit "response");
    prompt_tokens ← py_get result.1 (lit "prompt_eval_count") (PyInt 0);
    completion_tokens ← py_get result.1 (lit "eval_count") (PyInt 0);
    done_ ← py_get result.1 (lit "done") (PyBool true);
    mret (list_to_map
            [("text", text); ("model", PyStr model_name);
             ("prompt_tokens", prompt_tokens);
             ("completion_tokens", completion_tokens);
             ("done", done_)] : dict).

(** The [for attempt in range(3)] loop.  A call that leaves the loop
    without returning or raising returns [None]. *)
Fixpoint attempts_loop (self : OllamaAdapter) (server : backend)
    (req : request) (attempts : list nat) (trace : list event)
    : res (option dict) * list event :=
  match attempts with
  | [] => (Ret None, trace)
  | attempt :: rest =>
      let trace := trace ++ [Post attempt] in
      match attempt_once (req_model req) (server req attempt) with
      | Ret result => (Ret (Some result), trace)
      | Raise e =>
          if is_requests_ConnectionError e then
            if (attempt =? 2)%nat then
              (Raise (Exn ConnectionError
                        (lit "Could not connect to Ollama at " ++ base_url self
                         ++ lit ". Please ensure Ollama is running and accessible.")),
               trace)
            else
              let delay := _exponential_backoff attempt in
              attempts_loop self server req rest (trace ++ [Sleep delay])
          else if is_RequestException e then
            if (attempt =? 2)%nat then
              (Raise (Exn ConnectionError
                        (lit "Request to Ollama failed: " ++ exn_msg e)),
               trace)
            else
              let delay := _exponential_backoff attempt in
              attempts_loop self server req rest (trace ++ [Sleep delay])
          else if is_ValueError e then
            if (attempt =? 2)%nat then
              (Raise (Exn ValueError
                        (lit "Invalid response from Ollama: " ++ exn_msg e)),
               trace)
            else
              let delay := _exponential_backoff attempt in
              attempts_loop self server req rest (trace ++ [Sleep delay])
          else (Raise e, trace)
      end
  end.

(** [generate(prompt, max_tokens, temperature, model)]; the source's
    defaults are [1024], [0.7] and [None]. *)
Definition generate (self : OllamaAdapter) (server : backend)
    (prompt : pystr) (max_tokens : Z) (temperature : Q)
    (model_override : option pystr) : res (option dict) * list event :=
  let model_name :=
    match model_override with
    | Some m => if truthy m then m else model self
    | None => model self
    end in
  let payload :=
    {| req_url := base_url self ++ lit "/api/generate";
       req_model := model_name; req_prompt := prompt;
       req_num_predict := max_tokens; req_temperature := temperature |} in
  attempts_loop self server payload (seq 0 3) [].

(** How many requests a trace holds, and the seconds it sleeps. *)
Definition posts (trace : list event) : nat :=
  length (omap (fun ev => match ev with Post n => Some n | _ => None end) trace).

Definition sleeps (trace : list event) : list Z :=
  omap (fun ev => match ev with Sleep s => Some s | _ => None end) trace.

End Ollama.

(* ===================================================================== *)
(** ** [agentforge_academic_apex/curator_service.py] *)
(* ===================================================================== *)

Module Curator.
Import Py Ollama.

(** The module-level configuration read from the environment. *)
Record config := {
  CURATOR_MODEL : pystr;
  OLLAMA_HOST : pystr;
}.

(** [base_url.rstrip('/')] of [OllamaAdapter.__init__]. *)
Definition rstrip_slash (s : pystr) : pystr :=
  rev ((fix go (r : pystr) : pystr :=
          match r with
          | c :: r' => if (c =? 47)%N then go r' else r
          | [] => []
          end) (rev s)).

Definition curator_adapter (cfg : config) : OllamaAdapter :=
  {| base_url := rstrip_slash (OLLAMA_HOST cfg); model := CURATOR_MODEL cfg |}.

(** [s.split(sep)] for a non-empty [sep]: [skip] characters of a matched
    separator are still to be passed, [cur] is the current piece
    reversed. *)
Fixpoint split_aux (sep : pystr) (skip : nat) (cur s : pystr) : list pystr :=
  match s with
  | [] => [rev cur]
  | c :: s' =>
      match skip with
      | S k => split_aux sep k cur s'
      | O =>
          if starts_with sep s
          then rev cur :: split_aux sep (length sep - 1) [] s'
          else split_aux sep 0 (c :: cur) s'
      end
  end.

Definition split (sep s : pystr) : list pystr := split_aux sep 0 [] s.

Definition nl : pystr := [10%N].

Definition curation_prompt (prompt instruction : pystr) : pystr :=
  if truthy (strip instruction) then
    lit "You are a prompt curator. Your task is to refine and improve prompts for better clarity and effectiveness."
    ++ nl ++ nl
    ++ lit "INSTRUCTION: " ++ instruction ++ nl ++ nl
    ++ lit "ORIGINAL PROMPT:" ++ nl
    ++ prompt ++ nl ++ nl
    ++ lit "REFINED PROMPT:"
  else
    lit "You are a prompt curator. Your task is to refine and improve prompts for better clarity, specificity, and effectiveness while maintaining the original intent."
    ++ nl ++ nl
    ++ lit "ORIGINAL PROMPT:" ++ nl
    ++ prompt ++ nl ++ nl
    ++ lit "Please provide a refined version that is:" ++ nl
    ++ lit "1. More specific and clear" ++ nl
    ++ lit "2. Better structured" ++ nl
    ++ lit "3. More actionable" ++ nl ++ nl
    ++ lit "REFINED PROMPT:".

(** [result["text"].strip()] on what [generate] returned. *)
Definition text_stripped (result : option dict) : res pystr :=
  match result with
  | None => Raise (Exn TypeError (lit "'NoneType' object is not subscriptable"))
  | Some d =>
      match d !! "text" with
      | None => Raise (Exn KeyError (lit "text"))
      | Some (PyStr s) => Ret (strip s)
      | Some _ => Raise (Exn AttributeError (lit "object has no attribute 'strip'"))
      end
  end.

Definition fallback_result (cfg : config) (prompt : pystr) (e : exn) : dict :=
  list_to_map
    [("refined", PyStr prompt);
     ("original_length", PyInt (Z.of_nat (length prompt)));
     ("refined_length", PyInt (Z.of_nat (length prompt)));
     ("curator_model", PyStr (CURATOR_MODEL cfg));
     ("success", PyBool false);
     ("error", PyStr (exn_msg e));
     ("fallback", PyBool true)].

(** [curate_prompt(prompt, instruction)], with the requests and sleeps of
    the one [generate] call it makes. *)
Definition curate_prompt (cfg : config) (server : backend)
    (prompt instruction : pystr) : res dict * list event :=
  let generated :=
    generate (curator_adapter cfg) server
      (curation_prompt prompt instruction) 2048 (3 # 10) None in
  (try_except (A := dict)
     (result ← generated.1;
      refined_text ← text_stripped result;
      let refined_text :=
        if is_substring (lit "REFINED PROMPT:") refined_text
        then strip (List.last (split (lit "REFINED PROMPT:") refined_text) [])
        else refined_text in
      mret (list_to_map
              [("refined", PyStr refined_text);
               ("original_length", PyInt (Z.of_nat (length prompt)));
               ("refined_length", PyInt (Z.of_nat (length refined_text)));
               ("curator_model", PyStr (CURATOR_MODEL cfg));
               ("success", PyBool true)] : dict))
     is_Exception
     (fun e => Ret (fallback_result cfg prompt e)),
   generated.2).

End Curator.

(* ===================================================================== *)
(** ** Properties of the plain-text extractor *)
(* ===================================================================== *)

Module TextProps.
Import Py Codec Ingestion.

(** A sample file: the single byte [0x81], which is neither UTF-8 nor
    assigned in Windows-1252. *)
Definition stray_byte_file : document :=
  {| doc_suffix := ".txt"; doc_exists := Ret true; doc_is_file := Ret true;
     doc_stat := Ret 1%N; doc_read := ReadBytes [Byte.x81];
     doc_fitz := Raise (Exn RuntimeError (lit "cannot open document"));
     doc_tesseract := Exited 1 (Decoded []) (Decoded []) |}.

(** The word "café" and a Windows line end, in UTF-8. *)
Definition cafe_file : document :=
  {| doc_suffix := ".txt"; doc_exists := Ret true; doc_is_file := Ret true;
     doc_stat := Ret 7%N;
     doc_read := ReadBytes [Byte.x63; Byte.x61; Byte.x66; Byte.xc3; Byte.xa9;
                            Byte.x0d; Byte.x0a];
     doc_fitz := Raise (Exn RuntimeError (lit "cannot open document"));
     doc_tesseract := Exited 1 (Decoded []) (Decoded []) |}.

(** A machine with Tesseract and PyMuPDF installed. *)
Definition full_pipeline : Pipeline :=
  {| tesseract_available := true; pymupdf_available := true |}.

Lemma read_raw_bytes (d : document) (raw : list Byte.byte) :
  doc_read d = ReadBytes raw -> read_raw d = Ret raw.
Proof. unfold read_raw; intros ->; reflexivity. Qed.

Lemma read_raw_not_decode_error (d : document) (e : exn) :
  read_raw d = Raise e -> is_UnicodeDecodeError e = false.
Proof.
  unfold read_raw; destruct (doc_read d); intros H; inversion H; reflexivity.
Qed.

(** What [open_read] does once the bytes are there. *)
Lemma open_read_decoded (d : document) (raw : list Byte.byte)
    (encoding : string) (codec : list Byte.byte -> option pystr) (text : pystr) :
  doc_read d = ReadBytes raw ->
  lookup_codec encoding = Some codec ->
  codec raw = Some text ->
  open_read d encoding = Ret (universal_newlines text).
Proof.
  intros Hread Hcodec Hdec. unfold open_read, decode.
  rewrite (read_raw_bytes _ _ Hread); simpl.
  rewrite Hcodec, Hdec; reflexivity.
Qed.

Lemma open_read_undecodable (d : document) (raw : list Byte.byte)
    (encoding : string) (codec : list Byte.byte -> option pystr) :
  doc_read d = ReadBytes raw ->
  lookup_codec encoding = Some codec ->
  codec raw = None ->
  exists e, open_read d encoding = Raise e /\ is_UnicodeDecodeError e = true.
Proof.
  intros Hread Hcodec Hdec. unfold open_read, decode.
  rewrite (read_raw_bytes _ _ Hread); simpl.
  rewrite Hcodec, Hdec. eexists; split; reflexivity.
Qed.

(** The [success] entry of an outcome, when there is one. *)
Definition success_flag (r : res dict) : option pyval :=
  match r with
  | Ret m => m !! "success"
  | Raise _ => None
  end.

(** An encoding fails on [raw]: it is a known codec and rejects the
    bytes. *)
Definition rejects (raw : list Byte.byte) (encoding : string) : Prop :=
  exists codec, lookup_codec encoding = Some codec /\ codec raw = None.

Lemma try_encodings_exhausted (d : document) (raw : list Byte.byte)
    (encodings : list string) :
  doc_read d = ReadBytes raw ->
  Forall (rejects raw) encodings ->
  try_encodings d encodings = Ret undecodable.
Proof.
  intros Hread Hall. induction Hall as [|enc rest [codec [Hc Hn]] _ IH].
  - reflexivity.
  - simpl.
    destruct (open_read_undecodable d raw enc codec Hread Hc Hn) as [e [-> He]].
    simpl. rewrite He. exact IH.
Qed.

(** The latin-1 attempt never raises a decode error, so the loop ends at
    it whatever follows in the list. *)
Lemma try_encodings_latin1 (d : document) (rest : list string) :
  try_encodings d ("latin-1" :: rest) =
  (text ← open_read d "latin-1";
   mret (text_fallback_result "latin-1" text)).
Proof.
  simpl. unfold open_read, decode.
  destruct (read_raw d) as [raw|e] eqn:Hraw; simpl.
  - reflexivity.
  - rewrite (read_raw_not_decode_error _ _ Hraw). reflexivity.
Qed.

(** The two successful paths of [_process_text]. *)
Lemma process_text_utf8 (self : Pipeline) (d : document)
    (raw : list Byte.byte) (text : pystr) :
  doc_read d = ReadBytes raw ->
  utf8_decode raw = Some text ->
  _process_text self d = Ret (text_result (universal_newlines text)).
Proof.
  intros Hread Hdec. unfold _process_text.
  rewrite (open_read_decoded d raw "utf-8" utf8_decode text Hread eq_refl Hdec).
  reflexivity.
Qed.

Lemma process_text_latin1 (self : Pipeline) (d : document)
    (raw : list Byte.byte) :
  doc_read d = ReadBytes raw ->
  utf8_decode raw = None ->
  _process_text self d =
  Ret (text_fallback_result "latin-1" (universal_newlines (map Byte.to_N raw))).
Proof.
  intros Hread Hnone. unfold _process_text.
  destruct (open_read_undecodable d raw "utf-8" utf8_decode Hread eq_refl Hnone)
    as [e [-> He]].
  simpl. rewrite He.
  rewrite (open_read_decoded d raw "latin-1" latin1_decode _ Hread eq_refl eq_refl).
  reflexivity.
Qed.

(** C6.  A readable text file that is valid UTF-8 is extracted with
    confidence 1.0 by method [direct_text]; one that is not valid UTF-8 but
    decodes under latin-1 is extracted with confidence 0.9, method
    [text_latin-1] and the warning [Used latin-1 encoding]; and when every
    encoding the fallback loop is given rejects the bytes, the outcome is
    the failure result (success false, no text). *)
Theorem C6_text_decoding (self : Pipeline) (d : document)
    (raw : list Byte.byte) (Hread : doc_read d = ReadBytes raw) :
  (forall text, utf8_decode raw = Some text ->
     exists r, _process_text self d = Ret r
       /\ r !! "success" = Some (PyBool true)
       /\ r !! "text" = Some (PyStr (universal_newlines text))
       /\ r !! "confidence" = Some (PyFloat 1)
       /\ r !! "method" = Some (PyStr (lit "direct_text"))
       /\ r !! "warning" = None)
  /\ (utf8_decode raw = None ->
      forall text, latin1_decode raw = Some text ->
      exists r, _process_text self d = Ret r
        /\ r !! "success" = Some (PyBool true)
        /\ r !! "text" = Some (PyStr (universal_newlines text))
        /\ r !! "confidence" = Some (PyFloat (9 # 10))
        /\ r !! "method" = Some (PyStr (lit "text_latin-1"))
        /\ r !! "warning" = Some (PyStr (lit "Used latin-1 encoding")))
  /\ (forall encodings, Forall (rejects raw) encodings ->
      exists r, try_encodings d encodings = Ret r
        /\ r !! "success" = Some (PyBool false)
        /\ r !! "text" = None
        /\ r !! "error" = Some (PyStr (lit
             "Unable to decode text file with any supported encoding"))).
Proof.
  split; [|split].
  - intros text Hdec. rewrite (process_text_utf8 self d raw text Hread Hdec).
    eexists; split; [reflexivity|]. repeat split.
  - intros Hnone text Hdec. injection Hdec as <-.
    rewrite (process_text_latin1 self d raw Hread Hnone).
    eexists; split; [reflexivity|]. repeat split.
  - intros encodings Hall.
    rewrite (try_encodings_exhausted d raw encodings Hread Hall).
    eexists; split; [reflexivity|]. repeat split.
Qed.

(** The three parts of C6: [cafe_file] is UTF-8; the byte of
    [stray_byte_file] is not UTF-8, it is latin-1, and Windows-1252 alone
    rejects it. *)
Lemma C6_text_decoding_witness :
  (exists r, _process_text full_pipeline cafe_file = Ret r
     /\ r !! "text" = Some (PyStr [99; 97; 102; 233; 10]%N)
     /\ r !! "confidence" = Some (PyFloat 1)
     /\ r !! "method" = Some (PyStr (lit "direct_text")))
  /\ (exists r, _process_text full_pipeline stray_byte_file = Ret r
        /\ r !! "confidence" = Some (PyFloat (9 # 10))
        /\ r !! "method" = Some (PyStr (lit "text_latin-1")))
  /\ (exists r, try_encodings stray_byte_file ["cp1252"] = Ret r
        /\ r !! "success" = Some (PyBool false)).
Proof.
  pose proof (C6_text_decoding full_pipeline cafe_file _ eq_refl)
    as [Hutf8 _].
  pose proof (C6_text_decoding full_pipeline stray_byte_file [Byte.x81] eq_refl)
    as [_ [Hlatin Hnone]].
  split; [|split].
  - destruct (Hutf8 [99; 97; 102; 233; 13; 10]%N eq_refl)
      as [r [Hr [_ [Ht [Hc [Hm _]]]]]].
    exists r; repeat split; assumption.
  - destruct (Hlatin eq_refl [129%N] eq_refl) as [r [Hr [_ [_ [Hc [Hm _]]]]]].
    exists r; repeat split; assumption.
  - destruct (Hnone ["cp1252"]) as [r [Hr [Hs _]]].
    + repeat constructor. exists cp1252_decode; split; reflexivity.
    + exists r; split; assumption.
Defined.

(** C10.  Latin-1 decodes every byte sequence; hence the fallback loop of
    [_process_text] always ends at its first encoding (the following
    entries of the list are never tried), a text file that is not valid
    UTF-8 comes out as a success with method [text_latin-1], and
    [_process_text] never returns the "unable to decode" failure. *)
Theorem C10_latin1_total :
  (forall raw, exists text, decode "latin-1" raw = Ret text)
  /\ (forall d rest,
        try_encodings d ("latin-1" :: rest) = try_encodings d ["latin-1"])
  /\ (forall self d raw,
        doc_read d = ReadBytes raw -> utf8_decode raw = None ->
        exists r, _process_text self d = Ret r
          /\ r !! "success" = Some (PyBool true)
          /\ r !! "method" = Some (PyStr (lit "text_latin-1")))
  /\ (forall self d, _process_text self d <> Ret undecodable).
Proof.
  split; [|split; [|split]].
  - intros raw. exists (map Byte.to_N raw). reflexivity.
  - intros d rest. rewrite !try_encodings_latin1. reflexivity.
  - intros self d raw Hread Hnone.
    rewrite (process_text_latin1 self d raw Hread Hnone).
    eexists; split; [reflexivity|]. split; reflexivity.
  - intros self d. unfold _process_text.
    destruct (open_read d "utf-8") as [text|e];
      unfold try_except, mbind, res_bind.
    + intros H; apply (f_equal success_flag) in H; vm_compute in H;
        discriminate H.
    + destruct (is_UnicodeDecodeError e); [|discriminate].
      rewrite try_encodings_latin1.
      destruct (open_read d "latin-1") as [text|e'];
        unfold mbind, res_bind; [|discriminate].
      intros H; apply (f_equal success_flag) in H; vm_compute in H;
        discriminate H.
Qed.

End TextProps.

(* ===================================================================== *)
(** ** Properties of [process_document] and [validate_file] *)
(* ===================================================================== *)

Module PipelineProps.
Import Py Codec Ingestion.

(** The shape every extractor result has: a success carries its text and
    the length of that text, a failure carries no [text] entry at all. *)
Definition consistent (r : dict) : Prop :=
  (r !! "success" = Some (PyBool true)
   /\ exists text, r !! "text" = Some (PyStr text)
        /\ r !! "text_length" = Some (PyInt (Z.of_nat (length text))))
  \/ (r !! "success" = Some (PyBool false) /\ r !! "text" = None).

Lemma failure_consistent (error : pystr) : consistent (failure error).
Proof. right; split; reflexivity. Qed.

Lemma try_encodings_consistent (d : document) (encodings : list string)
    (r : dict) :
  try_encodings d encodings = Ret r -> consistent r.
Proof.
  induction encodings as [|enc rest IH]; simpl.
  - intros [= <-]. apply failure_consistent.
  - destruct (open_read d enc) as [text|e]; unfold mbind, res_bind, try_except.
    + intros [= <-]. left; split; [reflexivity|].
      exists text; split; reflexivity.
    + destruct (is_UnicodeDecodeError e); [exact IH | discriminate].
Qed.

Lemma process_text_consistent (self : Pipeline) (d : document) (r : dict) :
  _process_text self d = Ret r -> consistent r.
Proof.
  unfold _process_text.
  destruct (open_read d "utf-8") as [text|e]; unfold mbind, res_bind, try_except.
  - intros [= <-]. left; split; [reflexivity|].
    exists text; split; reflexivity.
  - destruct (is_UnicodeDecodeError e); [|discriminate].
    apply try_encodings_consistent.
Qed.

Lemma process_image_consistent (self : Pipeline) (d : document) (r : dict) :
  _process_image self d = Ret r -> consistent r.
Proof.
  unfold _process_image.
  destruct (tesseract_available self); simpl.
  - destruct (_ocr_image (doc_tesseract d)) as [text|e];
      unfold mbind, res_bind, try_except; simpl.
    + intros [= <-]. left; split; [reflexivity|].
      exists text; split; reflexivity.
    + intros [= <-]. apply failure_consistent.
  - intros [= <-]. apply failure_consistent.
Qed.

Lemma process_pdf_consistent (self : Pipeline) (d : document) (r : dict) :
  _process_pdf self d = Ret r -> consistent r.
Proof.
  unfold _process_pdf, _process_pdf_pymupdf, _process_pdf_fallback.
  destruct (pymupdf_available self).
  - destruct (doc_fitz d) as [doc|e]; unfold mbind, res_bind, try_except; simpl.
    + destruct (pages_loop self 0 doc []) as [parts|e]; simpl.
      * intros [= <-]. left; split; [reflexivity|].
        eexists; split; reflexivity.
      * intros [= <-]. apply failure_consistent.
    + intros [= <-]. apply failure_consistent.
  - intros [= <-]. apply failure_consistent.
Qed.

(** Every registered extractor returns a consistent result. *)
Lemma registered_consistent (content_type : string)
    (processor : Pipeline -> document -> res dict) :
  supported_types !! content_type = Some processor ->
  forall self d r, processor self d = Ret r -> consistent r.
Proof.
  intros H. apply elem_of_list_to_map_2 in H. unfold supported_items in H.
  repeat (apply elem_of_cons in H as [H|H];
          [injection H as _ ->; intros self d r;
           first [apply process_pdf_consistent
                 |apply process_image_consistent
                 |apply process_text_consistent]|]).
  apply elem_of_nil in H. destruct H.
Qed.

(** The three entries the pipeline adds leave the invariant alone. *)
Lemma annotated_consistent (r : dict) (time size kind : pyval) :
  consistent r ->
  consistent (<["content_type" := kind]>
                (<["file_size" := size]> (<["processing_time" := time]> r))).
Proof.
  unfold consistent.
  rewrite !lookup_insert_ne by discriminate. trivial.
Qed.

(** [process_document] always returns, and what it returns is
    consistent. *)
Lemma process_document_total (self : Pipeline) (d : document)
    (start_time now : Q) :
  exists r, process_document self d start_time now = Ret r /\ consistent r.
Proof.
  unfold process_document.
  destruct (supported_types !! _detect_content_type d) as [processor|] eqn:Hkind.
  - pose proof (registered_consistent _ _ Hkind self d) as Hproc.
    destruct (processor self d) as [r0|e]; unfold mbind, res_bind, try_except.
    + destruct (doc_stat d) as [size|e]; simpl.
      * eexists; split; [reflexivity|].
        apply annotated_consistent, Hproc; reflexivity.
      * eexists; split; [reflexivity|]. right; split; reflexivity.
    + simpl. eexists; split; [reflexivity|]. right; split; reflexivity.
  - unfold try_except. eexists; split; [reflexivity|].
    right; split; reflexivity.
Qed.

(** *** Sample documents *)

(** A truncated PNG (only the 8-byte signature): Tesseract exits with a
    non-zero status on it, PyMuPDF cannot open it. *)
Definition truncated_png : document :=
  {| doc_suffix := ".png"; doc_exists := Ret true; doc_is_file := Ret true;
     doc_stat := Ret 8%N;
     doc_read := ReadBytes [Byte.x89; Byte.x50; Byte.x4e; Byte.x47;
                            Byte.x0d; Byte.x0a; Byte.x1a; Byte.x0a];
     doc_fitz := Raise (Exn RuntimeError (lit "cannot open broken document"));
     doc_tesseract := Exited 1 (Decoded []) (Decoded []) |}.

Definition with_ocr : Pipeline := TextProps.full_pipeline.

Definition without_ocr : Pipeline :=
  {| tesseract_available := false; pymupdf_available := true |}.

(** The [success] and [text] entries of an outcome. *)
Definition success_and_text (r : res dict) : option pyval * option pyval :=
  match r with
  | Ret m => (m !! "success", m !! "text")
  | Raise _ => (None, None)
  end.

(** *** C1 *)

(** C1 as the specification words it: a failure result holds the empty
    string under [text]. *)
Definition C1_as_stated : Prop :=
  forall (self : Pipeline) (d : document) (start_time now : Q),
    is_Some (supported_types !! _detect_content_type d) ->
    exists r, process_document self d start_time now = Ret r
      /\ ((r !! "success" = Some (PyBool true)
           /\ exists text, r !! "text" = Some (PyStr text)
                /\ r !! "text_length" = Some (PyInt (Z.of_nat (length text))))
          \/ (r !! "success" = Some (PyBool false)
              /\ r !! "text" = Some (PyStr []))).

(** An image on a machine without Tesseract: the result is a failure and
    has no [text] entry, so C1 as stated does not hold. *)
Lemma C1_counterexample : ~ C1_as_stated.
Proof.
  intros H.
  destruct (H without_ocr truncated_png 0%Q 1%Q) as [r [Hr Hcases]].
  { eexists; reflexivity. }
  assert (Hc : success_and_text (process_document without_ocr truncated_png 0 1)
               = (Some (PyBool false), None)) by (vm_compute; reflexivity).
  rewrite Hr in Hc. unfold success_and_text in Hc.
  injection Hc as Hs Ht.
  destruct Hcases as [[Hs' _]|[_ Ht']]; congruence.
Qed.

(** C1 (amended).  For every document of a supported kind,
    [process_document] returns a result and raises nothing; the result has
    its [success] flag set; a success carries [text] and
    [text_length == len(text)]; a failure carries no [text] entry, so that
    reading it as [result.get('text', '')] gives the empty string. *)
Theorem C1_process_document_returns (self : Pipeline) (d : document)
    (start_time now : Q)
    (Hkind : is_Some (supported_types !! _detect_content_type d)) :
  exists r, process_document self d start_time now = Ret r
    /\ ((r !! "success" = Some (PyBool true)
         /\ exists text, r !! "text" = Some (PyStr text)
              /\ r !! "text_length" = Some (PyInt (Z.of_nat (length text))))
        \/ (r !! "success" = Some (PyBool false)
            /\ r !! "text" = None
            /\ default (PyStr []) (r !! "text") = PyStr [])).
Proof.
  destruct (process_document_total self d start_time now) as [r [Hr Hc]].
  exists r; split; [exact Hr|].
  destruct Hc as [Hok|[Hs Ht]]; [left; exact Hok|right].
  repeat split; [exact Hs | exact Ht | rewrite Ht; reflexivity].
Qed.

Lemma C1_process_document_returns_witness :
  exists r, process_document without_ocr truncated_png 0 1 = Ret r
    /\ ((r !! "success" = Some (PyBool true)
         /\ exists text, r !! "text" = Some (PyStr text)
              /\ r !! "text_length" = Some (PyInt (Z.of_nat (length text))))
        \/ (r !! "success" = Some (PyBool false)
            /\ r !! "text" = None
            /\ default (PyStr []) (r !! "text") = PyStr [])).
Proof.
  apply (C1_process_document_returns without_ocr truncated_png 0 1).
  eexists; reflexivity.
Defined.

(** *** C9 *)

(** A non-zero exit status is swallowed when both captured streams
    decode. *)
Lemma ocr_image_nonzero_exit (code : Z) (out err : pystr) :
  code <> 0%Z -> _ocr_image (Exited code (Decoded out) (Decoded err)) = Ret [].
Proof.
  intros Hcode. unfold _ocr_image, run_text, decoded, mbind, res_bind.
  apply Z.eqb_neq in Hcode. rewrite Hcode. reflexivity.
Qed.

(** C9 as the claim words it: every non-zero exit of Tesseract on an image
    is reported as a successful empty extraction. *)
Definition C9_as_stated : Prop :=
  forall (self : Pipeline) (d : document) (code : Z)
         (stdout stderr : captured) (size : N) (start_time now : Q),
    tesseract_available self = true ->
    _detect_content_type d = "image/jpeg"
    \/ _detect_content_type d = "image/png"
    \/ _detect_content_type d = "image/gif" ->
    doc_tesseract d = Exited code stdout stderr -> code <> 0%Z ->
    doc_stat d = Ret size ->
    _ocr_image (doc_tesseract d) = Ret []
    /\ exists r, process_document self d start_time now = Ret r
         /\ r !! "success" = Some (PyBool true)
         /\ r !! "text" = Some (PyStr []).

(** A truncated PNG on which Tesseract exits with status 1 after writing
    a byte to stderr that is not valid in the locale's encoding. *)
Definition garbled_png : document :=
  {| doc_suffix := ".png"; doc_exists := Ret true; doc_is_file := Ret true;
     doc_stat := Ret 8%N;
     doc_read := ReadBytes [Byte.x89; Byte.x50; Byte.x4e; Byte.x47;
                            Byte.x0d; Byte.x0a; Byte.x1a; Byte.x0a];
     doc_fitz := Raise (Exn RuntimeError (lit "cannot open broken document"));
     doc_tesseract :=
       Exited 1 (Decoded [])
         (Undecodable (lit "'utf-8' codec can't decode byte 0xff in position 0: invalid start byte")) |}.

(** On [garbled_png] decoding the captured stderr raises before the exit
    status is looked at: [_ocr_image] raises [UnicodeDecodeError], which it
    does not catch, and [process_document] returns a failure without
    text. *)
Lemma C9_counterexample : ~ C9_as_stated.
Proof.
  intros H.
  destruct (H with_ocr garbled_png 1%Z _ _ 8%N 0%Q 1%Q eq_refl
              (or_intror (or_introl eq_refl)) eq_refl ltac:(discriminate)
              eq_refl) as [_ [r [Hr [Hs _]]]].
  assert (Hc : success_and_text (process_document with_ocr garbled_png 0 1)
               = (Some (PyBool false), None)) by (vm_compute; reflexivity).
  rewrite Hr in Hc. unfold success_and_text in Hc.
  injection Hc as Hs' _. congruence.
Qed.

(** C9 (amended).  With Tesseract available, an image on which the
    Tesseract process exits with a non-zero status, and whose captured
    output decodes as text, makes [_ocr_image] return the empty string;
    [_process_image], and [process_document] for an image file it can
    stat, then report success with [text == ""], [text_length == 0],
    confidence 0.8 and no [error] entry. *)
Theorem C9_ocr_exit_status_swallowed (self : Pipeline) (d : document)
    (code : Z) (out err : pystr)
    (Htess : tesseract_available self = true)
    (Hexit : doc_tesseract d = Exited code (Decoded out) (Decoded err))
    (Hcode : code <> 0%Z) :
  _ocr_image (doc_tesseract d) = Ret []
  /\ (exists r, _process_image self d = Ret r
        /\ r !! "success" = Some (PyBool true)
        /\ r !! "text" = Some (PyStr [])
        /\ r !! "text_length" = Some (PyInt 0)
        /\ r !! "confidence" = Some (PyFloat (8 # 10))
        /\ r !! "error" = None)
  /\ (forall (size : N) (start_time now : Q),
        _detect_content_type d = "image/jpeg"
        \/ _detect_content_type d = "image/png"
        \/ _detect_content_type d = "image/gif" ->
        doc_stat d = Ret size ->
        exists r, process_document self d start_time now = Ret r
          /\ r !! "success" = Some (PyBool true)
          /\ r !! "text" = Some (PyStr [])
          /\ r !! "text_length" = Some (PyInt 0)
          /\ r !! "confidence" = Some (PyFloat (8 # 10))
          /\ r !! "error" = None).
Proof.
  pose proof (ocr_image_nonzero_exit code out err Hcode) as Hocr.
  assert (Himg : _process_image self d =
                 Ret (list_to_map
                        [("success", PyBool true); ("text", PyStr []);
                         ("text_length", PyInt 0);
                         ("confidence", PyFloat (8 # 10));
                         ("method", PyStr (lit "tesseract_ocr"))])).
  { unfold _process_image. rewrite Htess, Hexit, Hocr. reflexivity. }
  split; [rewrite Hexit; exact Hocr|]. split.
  - rewrite Himg. eexists; split; [reflexivity|]. repeat split.
  - intros size start_time now Hkind Hstat. unfold process_document.
    assert (Hreg : supported_types !! _detect_content_type d
                   = Some _process_image)
      by (destruct Hkind as [->|[->| ->]]; reflexivity).
    rewrite Hreg, Himg. unfold mbind, res_bind, try_except. rewrite Hstat.
    eexists; split; [reflexivity|]. repeat split.
Qed.

Lemma C9_ocr_exit_status_swallowed_witness :
  exists r, process_document with_ocr truncated_png 0 1 = Ret r
    /\ r !! "success" = Some (PyBool true)
    /\ r !! "text" = Some (PyStr [])
    /\ r !! "text_length" = Some (PyInt 0)
    /\ r !! "confidence" = Some (PyFloat (8 # 10))
    /\ r !! "error" = None.
Proof.
  destruct (C9_ocr_exit_status_swallowed with_ocr truncated_png 1 [] []
              eq_refl eq_refl ltac:(discriminate)) as [_ [_ Hdoc]].
  apply (Hdoc 8%N 0%Q 1%Q); [right; left; reflexivity | reflexivity].
Defined.

(** *** C2 *)

(** A plain-text file of [size] bytes, all of them the letter A. *)
Definition big_text (size : N) : document :=
  {| doc_suffix := ".txt"; doc_exists := Ret true; doc_is_file := Ret true;
     doc_stat := Ret size;
     doc_read := ReadBytes (repeat Byte.x41 (N.to_nat size));
     doc_fitz := Raise (Exn RuntimeError (lit "cannot open broken document"));
     doc_tesseract := Exited 1 (Decoded []) (Decoded []) |}.

Lemma big_text_size (size : N) :
  match doc_read (big_text size) with
  | ReadBytes raw => doc_stat (big_text size) = Ret (N.of_nat (length raw))
  | ReadFailed _ => False
  end.
Proof. simpl. rewrite repeat_length, N2Nat.id. reflexivity. Qed.

Lemma utf8_units_letters (n : nat) :
  utf8_units (repeat 65%N n) = Some (repeat 65%N n).
Proof.
  induction n as [|n IH]; [reflexivity|].
  change (utf8_units (repeat 65%N (S n)))
    with (cons 65%N <$> utf8_units (repeat 65%N n)).
  rewrite IH. reflexivity.
Qed.

Lemma universal_newlines_letters (n : nat) :
  universal_newlines (repeat 65%N n) = repeat 65%N n.
Proof.
  induction n as [|n IH]; [reflexivity|].
  change (universal_newlines (repeat 65%N (S n)))
    with (65%N :: universal_newlines (repeat 65%N n)).
  rewrite IH. reflexivity.
Qed.

Lemma big_text_extracted (self : Pipeline) (size : N) :
  _process_text self (big_text size)
  = Ret (text_result (repeat 65%N (N.to_nat size))).
Proof.
  rewrite (TextProps.process_text_utf8 self (big_text size)
             (repeat Byte.x41 (N.to_nat size)) (repeat 65%N (N.to_nat size))).
  - rewrite universal_newlines_letters. reflexivity.
  - reflexivity.
  - unfold utf8_decode. rewrite map_repeat. apply utf8_units_letters.
Qed.

(** [process_document] runs the text extractor on [big_text size], whatever
    the size. *)
Lemma big_text_processed (self : Pipeline) (size : N) (start_time now : Q) :
  exists r, process_document self (big_text size) start_time now = Ret r
    /\ r !! "success" = Some (PyBool true)
    /\ r !! "method" = Some (PyStr (lit "direct_text"))
    /\ r !! "text_length" = Some (PyInt (Z.of_N size))
    /\ r !! "file_size" = Some (PyInt (Z.of_N size))
    /\ r !! "error" = None.
Proof.
  unfold process_document.
  change (supported_types !! _detect_content_type (big_text size))
    with (Some _process_text).
  cbv beta iota zeta. rewrite big_text_extracted. unfold mbind, res_bind, try_except.
  change (doc_stat (big_text size)) with (Ret (A := N) size).
  eexists; split; [reflexivity|].
  assert (Hlen : Z.of_nat (length (repeat 65%N (N.to_nat size))) = Z.of_N size)
    by (rewrite repeat_length; apply N_nat_Z).
  unfold text_result. rewrite Hlen.
  generalize (repeat 65%N (N.to_nat size)); intros text.
  repeat split.
Qed.

(** *** The size ceiling of [validate_file] *)

(** Below [2^63] bytes, the range of [st_size], the size in MB is a float. *)
Lemma nearest53_small (n : N) : (n < 2 ^ 63)%N -> (nearest53 n <= 2 ^ 73)%N.
Proof.
  intros Hn. unfold nearest53.
  destruct (N.leb_spec (N.size n) 53) as [_|Hbits].
  - etransitivity; [apply N.lt_le_incl, Hn|].
    apply N.pow_le_mono_r; [discriminate|]. apply N.leb_le. reflexivity.
  - assert (Hsize : (N.size n < 64)%N).
    { apply (N.pow_lt_mono_r_iff 2); [reflexivity|].
      eapply N.le_lt_trans; [apply N.size_le|].
      rewrite N.succ_double_spec.
      change (2 ^ 64)%N with (2 * 2 ^ 63)%N. lia. }
    cbv zeta. rewrite N.shiftl_mul_pow2, N.shiftr_div_pow2.
    set (e := (N.size n - 53)%N).
    assert (He : (2 ^ e <= 2 ^ 10)%N)
      by (apply N.pow_le_mono_r; [discriminate|]; unfold e; lia).
    assert (Hm : (n / 2 ^ e <= n)%N).
    { apply N.Div0.div_le_upper_bound.
      assert (1 <= 2 ^ e)%N by (change 1%N with (2 ^ 0)%N;
                                apply N.pow_le_mono_r; [discriminate|lia]).
      nia. }
    change (2 ^ 73)%N with (2 ^ 63 * 2 ^ 10)%N.
    apply N.mul_le_mono; [|exact He].
    destruct (_ || _); lia.
Qed.

Lemma true_div_mb_in_range (size : N) :
  (size < 2 ^ 63)%N -> true_div_mb size = Ret (nearest53 size).
Proof.
  intros Hsize. unfold true_div_mb. cbv zeta.
  assert (Hlog : (N.log2 (nearest53 size) <= 73)%N).
  { etransitivity; [apply N.log2_le_mono, nearest53_small, Hsize|].
    rewrite N.log2_pow2 by discriminate. reflexivity. }
  destruct (N.leb_spec 1044 (N.log2 (nearest53 size))); [lia|reflexivity].
Qed.

Lemma fmt_mb_in_range (size : N) :
  (size < 2 ^ 63)%N -> fmt_mb size = Ret (fmt_1f (nearest53 size)).
Proof.
  intros Hsize. unfold fmt_mb. rewrite (true_div_mb_in_range size Hsize).
  reflexivity.
Qed.

(** What [validate_file] answers for a file over the limit. *)
Definition too_large (shown : pystr) : dict :=
  list_to_map
    [("valid", PyBool false);
     ("error", PyStr (lit "File too large: " ++ shown
                      ++ lit "MB (max: 50MB)"))].

Lemma validate_file_oversized (self : Pipeline) (d : document) (size : N) :
  doc_exists d = Ret true -> doc_is_file d = Ret true ->
  is_Some (supported_types !! _detect_content_type d) ->
  doc_stat d = Ret size -> (max_size < size)%N ->
  validate_file self d = (shown ← fmt_mb size; Ret (too_large shown)).
Proof.
  intros Hexists Hfile Hkind Hstat Hbig.
  unfold validate_file. rewrite Hexists, Hfile.
  unfold mbind at 1 2, res_bind at 1 2. simpl negb. cbv iota.
  rewrite (bool_decide_eq_true_2 _ Hkind). simpl negb. cbv iota.
  rewrite Hstat. unfold mbind at 1, res_bind at 1. cbv beta iota.
  apply N.ltb_lt in Hbig. rewrite Hbig. reflexivity.
Qed.

(** What [validate_file] looks at. *)
Definition same_metadata (d d' : document) : Prop :=
  doc_suffix d = doc_suffix d' /\ doc_exists d = doc_exists d'
  /\ doc_is_file d = doc_is_file d' /\ doc_stat d = doc_stat d'.

Lemma validate_file_metadata_only (self self' : Pipeline) (d d' : document) :
  same_metadata d d' -> validate_file self d = validate_file self' d'.
Proof.
  intros [Hsuffix [Hexists [Hfile Hstat]]].
  unfold validate_file, _detect_content_type.
  rewrite Hsuffix, Hexists, Hfile, Hstat. reflexivity.
Qed.

(** The size of a file of 50 MB and one byte, and of one of 60 MB, as
    the message shows it. *)
Lemma fmt_mb_limit : fmt_mb 52428801 = Ret (lit "50.0").
Proof. vm_compute. reflexivity. Qed.

Lemma fmt_mb_60 : fmt_mb 62914560 = Ret (lit "60.0").
Proof. vm_compute. reflexivity. Qed.

(** The float that [size / (1024*1024)] is differs from the exact
    quotient from [2^53] bytes on, and the message follows the float. *)
Example fmt_mb_rounds_size : fmt_mb 9007199254793421 = Ret (lit "8589934592.0").
Proof. vm_compute. reflexivity. Qed.

(** *** C2 *)

(** C2.  The size ceiling is enforced by [validate_file] only, and
    [process_document] never calls it.  For a plain-text file of 52428801
    bytes, one byte over 50 MB, [validate_file] answers
    ['File too large: 50.0MB (max: 50MB)'], yet [process_document] hands
    the file to the text extractor and returns a success holding all
    52428801 characters: processing does not fail at validation. *)
Theorem C2_oversized_document_is_extracted (self : Pipeline)
    (start_time now : Q) :
  (max_size < 52428801)%N
  /\ validate_file self (big_text 52428801)
     = Ret (too_large (lit "50.0"))
  /\ (exists r,
        process_document self (big_text 52428801) start_time now = Ret r
        /\ r !! "success" = Some (PyBool true)
        /\ r !! "method" = Some (PyStr (lit "direct_text"))
        /\ r !! "text_length" = Some (PyInt 52428801)
        /\ r !! "file_size" = Some (PyInt 52428801)
        /\ r !! "error" = None).
Proof.
  split; [reflexivity|]. split.
  - rewrite (validate_file_oversized self (big_text 52428801) 52428801).
    + rewrite fmt_mb_limit. reflexivity.
    + reflexivity.
    + reflexivity.
    + exists _process_text. reflexivity.
    + reflexivity.
    + reflexivity.
  - exact (big_text_processed self 52428801 start_time now).
Qed.

(** *** Oversized files in [validate_file] *)

(** [validate_file] rejects every existing regular file of a supported
    kind that is larger than 50 MB with
    ['File too large: <size in MB>MB (max: 50MB)'], the size being shown as
    the float [size / (1024*1024)] to one decimal; and it decides from the
    path's metadata alone: neither the capability flags nor what an
    extractor would read take part. *)
Theorem validate_file_rejects_oversized (self : Pipeline) (d : document)
    (size : N)
    (Hexists : doc_exists d = Ret true) (Hfile : doc_is_file d = Ret true)
    (Hkind : is_Some (supported_types !! _detect_content_type d))
    (Hstat : doc_stat d = Ret size) (Hbig : (max_size < size)%N)
    (Hrange : (size < 2 ^ 63)%N) :
  (exists r, validate_file self d = Ret r
     /\ r !! "valid" = Some (PyBool false)
     /\ r !! "error"
        = Some (PyStr (lit "File too large: " ++ fmt_1f (nearest53 size)
                       ++ lit "MB (max: 50MB)"))
     /\ r !! "size" = None)
  /\ ((size < 2 ^ 53)%N -> nearest53 size = size)
  /\ (forall self' d', same_metadata d d' ->
        validate_file self' d' = validate_file self d).
Proof.
  split; [|split].
  - rewrite (validate_file_oversized self d size Hexists Hfile Hkind Hstat Hbig).
    rewrite (fmt_mb_in_range size Hrange).
    eexists; split; [reflexivity|]. repeat split.
  - intros Hexact. unfold nearest53.
    destruct (N.leb_spec (N.size size) 53) as [_|Hbits]; [reflexivity|].
    exfalso.
    assert (Hpow : (2 ^ 54 <= 2 ^ N.size size)%N)
      by (apply N.pow_le_mono_r; [discriminate|lia]).
    pose proof (N.size_le size) as Hle.
    rewrite N.succ_double_spec in Hle.
    change (2 ^ 54)%N with (2 * 2 ^ 53)%N in Hpow. lia.
  - intros self' d' Hsame. symmetry. apply validate_file_metadata_only, Hsame.
Qed.

Lemma validate_file_rejects_oversized_witness :
  exists r, validate_file with_ocr (big_text 62914560) = Ret r
    /\ r !! "valid" = Some (PyBool false)
    /\ r !! "error"
       = Some (PyStr (lit "File too large: " ++ fmt_1f (nearest53 62914560)
                      ++ lit "MB (max: 50MB)")).
Proof.
  destruct (validate_file_rejects_oversized with_ocr (big_text 62914560)
              62914560 eq_refl eq_refl) as [[r [Hr [Hv [He _]]]] _].
  - exists _process_text. reflexivity.
  - reflexivity.
  - reflexivity.
  - reflexivity.
  - exists r. repeat split; assumption.
Defined.

End PipelineProps.

(* ===================================================================== *)
(** ** Properties of the PDF extractor *)
(* ===================================================================== *)

Module PdfProps.
Import Py Codec Ingestion.

(** One entry of [text_parts]: the page it comes from (counted from 0, as
    [page_num]), whether it is OCR output, and the text under the marker. *)
Record section := {
  sec_page : nat;
  sec_ocr : bool;
  sec_body : pystr;
}.

Definition render (s : section) : pystr :=
  (if sec_ocr s then page_marker_ocr (sec_page s) else page_marker (sec_page s))
  ++ nl ++ sec_body s.

(** A page whose text layer is blank. *)
Definition blank_layer (page : pdf_page) : Prop :=
  exists text, page_text page = Ret text /\ truthy (strip text) = false.

(** OCR of the rasterised page gives the non-blank [ocr_text]. *)
Definition ocr_gives (page : pdf_page) (ocr_text : pystr) : Prop :=
  exists tesseract, page_raster page = Ret tesseract
    /\ _ocr_image tesseract = Ret ocr_text
    /\ truthy (strip ocr_text) = true.

(** Where a section's body comes from. *)
Definition section_from (self : Pipeline) (page : pdf_page) (s : section)
    : Prop :=
  if sec_ocr s
  then blank_layer page /\ tesseract_available self = true
       /\ ocr_gives page (sec_body s)
  else page_text page = Ret (sec_body s) /\ truthy (strip (sec_body s)) = true.

Lemma try_finally_ret {A} (body : res A) (final : res unit) (a : A) :
  try_finally body final = Ret a -> body = Ret a.
Proof. destruct body, final; simpl; congruence. Qed.

(** What a page contributes is decided by the page: two sections from
    the same page, under the same pipeline, are the same section. *)
Lemma section_from_unique (self : Pipeline) (page : pdf_page)
    (s s' : section) :
  section_from self page s -> section_from self page s' ->
  sec_page s = sec_page s' -> s = s'.
Proof.
  destruct s as [n ocr body], s' as [n' ocr' body'].
  unfold section_from, blank_layer, ocr_gives. simpl.
  intros H H' <-.
  destruct ocr, ocr'.
  - destruct H as [_ [_ [t [Hr [Ho _]]]]], H' as [_ [_ [t' [Hr' [Ho' _]]]]].
    congruence.
  - destruct H as [[text [Ht Hb]] _], H' as [Ht' Hb']. exfalso. congruence.
  - destruct H as [Ht Hb], H' as [[text [Ht' Hb']] _]. exfalso. congruence.
  - destruct H as [Ht _], H' as [Ht' _]. congruence.
Qed.

(** The loop appends to [text_parts] one section per page that yields
    text, in the order of the pages, and leaves out no such page. *)
Lemma pages_loop_sections (self : Pipeline) (pages : list pdf_page) :
  forall (page_num : nat) (text_parts parts : list pystr),
    pages_loop self page_num pages text_parts = Ret parts ->
    exists sections,
      parts = text_parts ++ map render sections
      /\ StronglySorted lt (map sec_page sections)
      /\ Forall (fun s =>
                   page_num <= sec_page s
                   /\ exists page, pages !! (sec_page s - page_num) = Some page
                        /\ section_from self page s) sections
      /\ (forall i page s,
            pages !! i = Some page -> sec_page s = page_num + i ->
            section_from self page s -> In s sections).
Proof.
  induction pages as [|page rest IH]; intros page_num text_parts parts; simpl.
  - intros [= <-]. exists []. rewrite app_nil_r.
    split; [reflexivity|]. split; [constructor|]. split; [constructor|].
    intros i page s H. discriminate H.
  - destruct (page_text page) as [text|e] eqn:Htext;
      unfold mbind, res_bind; [|discriminate].
    assert (Hshift : forall sections,
              Forall (fun s =>
                        S page_num <= sec_page s
                        /\ exists page', rest !! (sec_page s - S page_num) = Some page'
                             /\ section_from self page' s) sections ->
              Forall (fun s =>
                        page_num <= sec_page s
                        /\ exists page', (page :: rest) !! (sec_page s - page_num)
                                         = Some page'
                             /\ section_from self page' s) sections).
    { intros sections Hall. eapply Forall_impl; [exact Hall|].
      intros s [Hle [page' [Hlook Hfrom]]].
      split; [lia|]. exists page'. split; [|exact Hfrom].
      replace (sec_page s - page_num) with (S (sec_page s - S page_num)) by lia.
      exact Hlook. }
    assert (Hhead : forall sections,
              Forall (fun s =>
                        S page_num <= sec_page s
                        /\ exists page', rest !! (sec_page s - S page_num) = Some page'
                             /\ section_from self page' s) sections ->
              Forall (fun n => page_num < n) (map sec_page sections)).
    { intros sections Hall. apply Forall_map.
      eapply Forall_impl; [exact Hall|].
      intros s [Hle _]. simpl. lia. }
    (* a section of a later page is among those of the rest of the loop *)
    assert (Hlater : forall sections,
              (forall i page' s,
                 rest !! i = Some page' -> sec_page s = S page_num + i ->
                 section_from self page' s -> In s sections) ->
              forall i page' s,
                (page :: rest) !! S i = Some page' ->
                sec_page s = page_num + S i ->
                section_from self page' s -> In s sections).
    { intros sections Hall i page' s Hlook Hnum Hfrom.
      apply (Hall i page' s Hlook); [lia|exact Hfrom]. }
    destruct (truthy (strip text)) eqn:Hlayer.
    + intros Hloop. apply IH in Hloop as [sections [-> [Hsorted [Hall Hfull]]]].
      set (mine := {| sec_page := page_num; sec_ocr := false;
                      sec_body := text |}).
      assert (Hmine : section_from self page mine)
        by (split; assumption).
      exists (mine :: sections).
      split; [rewrite <- app_assoc; reflexivity|]. split; [|split].
      * simpl. constructor; [exact Hsorted | apply Hhead, Hall].
      * constructor; [|apply Hshift, Hall].
        split; [simpl; lia|]. exists page. simpl. rewrite Nat.sub_diag.
        split; [reflexivity|exact Hmine].
      * intros [|i] page' s Hlook Hnum Hfrom.
        -- injection Hlook as <-. left.
           apply (section_from_unique self page mine s Hmine Hfrom).
           simpl. lia.
        -- right. exact (Hlater sections Hfull i page' s Hlook Hnum Hfrom).
    + assert (Hnone : forall s, sec_ocr s = false ->
                                ~ section_from self page s).
      { intros s Hkind Hfrom. unfold section_from in Hfrom.
        rewrite Hkind in Hfrom. destruct Hfrom as [Ht Hb].
        rewrite Htext in Ht. injection Ht as ->. congruence. }
      destruct (tesseract_available self) eqn:Htess.
      * destruct (page_raster page) as [tesseract|e] eqn:Hraster;
          [|discriminate].
        destruct (try_finally (_ocr_image tesseract) (page_unlink page))
          as [ocr_text|e] eqn:Hocr; [|discriminate].
        apply try_finally_ret in Hocr.
        destruct (truthy (strip ocr_text)) eqn:Hfound.
        -- intros Hloop.
           apply IH in Hloop as [sections [-> [Hsorted [Hall Hfull]]]].
           set (mine := {| sec_page := page_num; sec_ocr := true;
                           sec_body := ocr_text |}).
           assert (Hmine : section_from self page mine).
           { split; [exists text; split; assumption|].
             split; [exact Htess|]. exists tesseract.
             repeat split; assumption. }
           exists (mine :: sections).
           split; [rewrite <- app_assoc; reflexivity|]. split; [|split].
           ++ simpl. constructor; [exact Hsorted | apply Hhead, Hall].
           ++ constructor; [|apply Hshift, Hall].
              split; [simpl; lia|]. exists page. simpl. rewrite Nat.sub_diag.
              split; [reflexivity|exact Hmine].
           ++ intros [|i] page' s Hlook Hnum Hfrom.
              ** injection Hlook as <-. left.
                 apply (section_from_unique self page mine s Hmine Hfrom).
                 simpl. lia.
              ** right.
                 exact (Hlater sections Hfull i page' s Hlook Hnum Hfrom).
        -- intros Hloop.
           apply IH in Hloop as [sections [-> [Hsorted [Hall Hfull]]]].
           exists sections.
           split; [reflexivity|]. split; [exact Hsorted|].
           split; [apply Hshift, Hall|].
           intros [|i] page' s Hlook Hnum Hfrom;
             [|exact (Hlater sections Hfull i page' s Hlook Hnum Hfrom)].
           injection Hlook as <-. exfalso.
           destruct (sec_ocr s) eqn:Hkind; [|exact (Hnone s Hkind Hfrom)].
           unfold section_from in Hfrom. rewrite Hkind in Hfrom.
           destruct Hfrom as [_ [_ [t [Hr [Ho Hb]]]]].
           rewrite Hraster in Hr. injection Hr as <-.
           rewrite Hocr in Ho. injection Ho as Ho. rewrite <- Ho in Hb.
           congruence.
      * intros Hloop.
        apply IH in Hloop as [sections [-> [Hsorted [Hall Hfull]]]].
        exists sections.
        split; [reflexivity|]. split; [exact Hsorted|].
        split; [apply Hshift, Hall|].
        intros [|i] page' s Hlook Hnum Hfrom;
          [|exact (Hlater sections Hfull i page' s Hlook Hnum Hfrom)].
        injection Hlook as <-. exfalso.
        destruct (sec_ocr s) eqn:Hkind; [|exact (Hnone s Hkind Hfrom)].
        unfold section_from in Hfrom. rewrite Hkind in Hfrom.
        destruct Hfrom as [_ [Hyes _]]. congruence.
Qed.

(** A page with a blank text layer and usable OCR output leaves its OCR
    section in [text_parts]. *)
Lemma pages_loop_ocr_section (self : Pipeline) (pages : list pdf_page) :
  forall (page_num i : nat) (text_parts parts : list pystr)
         (page : pdf_page) (ocr_text : pystr),
    pages_loop self page_num pages text_parts = Ret parts ->
    pages !! i = Some page ->
    blank_layer page -> tesseract_available self = true ->
    ocr_gives page ocr_text ->
    In (page_marker_ocr (page_num + i) ++ nl ++ ocr_text) parts.
Proof.
  induction pages as [|first rest IH];
    intros page_num i text_parts parts page ocr_text Hloop Hi Hblank Htess Hocr.
  - discriminate Hi.
  - destruct i as [|i].
    + injection Hi as ->.
      destruct Hblank as [text [Htext Hlayer]].
      destruct Hocr as [tesseract [Hraster [Himage Hfound]]].
      simpl in Hloop. rewrite Htext in Hloop. unfold mbind, res_bind in Hloop.
      rewrite Hlayer, Htess, Hraster in Hloop.
      destruct (try_finally (_ocr_image tesseract) (page_unlink page))
        as [seen|e] eqn:Hfinally; [|discriminate].
      apply try_finally_ret in Hfinally. rewrite Himage in Hfinally.
      injection Hfinally as <-. rewrite Hfound in Hloop.
      apply pages_loop_sections in Hloop as [sections [-> _]].
      rewrite Nat.add_0_r. apply in_or_app; left.
      apply in_or_app; right. left; reflexivity.
    + simpl in Hi. replace (page_num + S i) with (S page_num + i) by lia.
      simpl in Hloop.
      destruct (page_text first) as [text|e]; unfold mbind, res_bind in Hloop;
        [|discriminate].
      destruct (truthy (strip text));
        [exact (IH _ _ _ _ _ _ Hloop Hi Hblank Htess Hocr)|].
      destruct (tesseract_available self);
        [|exact (IH _ _ _ _ _ _ Hloop Hi Hblank Htess Hocr)].
      destruct (page_raster first) as [tesseract|e]; [|discriminate].
      destruct (try_finally (_ocr_image tesseract) (page_unlink first))
        as [seen|e]; [|discriminate].
      destruct (truthy (strip seen));
        exact (IH _ _ _ _ _ _ Hloop Hi Hblank Htess Hocr).
Qed.

(** *** Substrings of a joined text *)

Lemma starts_with_app (needle rest : pystr) :
  starts_with needle (needle ++ rest) = true.
Proof.
  induction needle as [|c needle IH]; [reflexivity|].
  simpl. rewrite N.eqb_refl. exact IH.
Qed.

Lemma is_substring_unfold (needle hay : pystr) :
  is_substring needle hay
  = starts_with needle hay
    || match hay with
       | [] => false
       | _ :: hay' => is_substring needle hay'
       end.
Proof. destruct hay; reflexivity. Qed.

Lemma is_substring_app (needle before after : pystr) :
  is_substring needle (before ++ needle ++ after) = true.
Proof.
  induction before as [|c before IH]; rewrite is_substring_unfold.
  - change ([] ++ needle ++ after) with (needle ++ after).
    rewrite starts_with_app. reflexivity.
  - change ((c :: before) ++ needle ++ after)
      with (c :: (before ++ needle ++ after)).
    cbv beta iota. rewrite IH. apply orb_true_r.
Qed.

Lemma join_part (sep part : pystr) (parts : list pystr) :
  In part parts ->
  exists before after, join sep parts = before ++ part ++ after.
Proof.
  induction parts as [|p rest IH]; [intros []|].
  intros [->|Hin].
  - exists []. destruct rest as [|q rest].
    + exists []. simpl. rewrite app_nil_r. reflexivity.
    + exists (sep ++ join sep (q :: rest)). reflexivity.
  - destruct rest as [|q rest]; [destruct Hin|].
    destruct (IH Hin) as [before [after Hjoin]].
    exists (p ++ sep ++ before), after.
    change (join sep (p :: q :: rest)) with (p ++ sep ++ join sep (q :: rest)).
    rewrite Hjoin, <- !app_assoc. reflexivity.
Qed.

(** What a successful result of [_process_pdf_pymupdf] is made of. *)
Lemma pdf_success (self : Pipeline) (d : document) (r : dict) :
  _process_pdf_pymupdf self d = Ret r ->
  r !! "success" = Some (PyBool true) ->
  exists pages parts,
    doc_fitz d = Ret pages
    /\ pages_loop self 0 pages [] = Ret parts
    /\ r !! "text" = Some (PyStr (join (nl ++ nl) parts))
    /\ r !! "pages" = Some (PyInt (Z.of_nat (length pages))).
Proof.
  unfold _process_pdf_pymupdf.
  destruct (doc_fitz d) as [pages|e] eqn:Hfitz;
    unfold mbind, res_bind, try_except; simpl.
  - destruct (pages_loop self 0 pages []) as [parts|e] eqn:Hloop; simpl.
    + intros [= <-] _. exists pages, parts.
      split; [reflexivity|]. split; [exact Hloop|]. split; reflexivity.
    + intros [= <-] Hs. discriminate Hs.
  - intros [= <-] Hs. discriminate Hs.
Qed.

(** *** C7 *)

(** A two-page scan: page 1 has a text layer, page 2 has none and
    Tesseract finds nothing but white space on its image. *)
Definition blank_second_page : document :=
  {| doc_suffix := ".pdf"; doc_exists := Ret true; doc_is_file := Ret true;
     doc_stat := Ret 8%N;
     doc_read := ReadBytes [Byte.x25; Byte.x50; Byte.x44; Byte.x46;
                            Byte.x2d; Byte.x31; Byte.x2e; Byte.x34];
     doc_fitz := Ret
       [ {| page_text := Ret (lit "Chapter 1");
            page_raster := Ret (Exited 0 (Decoded (lit "Chapter 1")) (Decoded []));
            page_unlink := Ret tt |};
         {| page_text := Ret [];
            page_raster := Ret (Exited 0 (Decoded (lit " " ++ nl)) (Decoded []));
            page_unlink := Ret tt |} ];
     doc_tesseract := Exited 1 (Decoded []) (Decoded []) |}.

(** The same scan with a stamp on page 2 that Tesseract reads. *)
Definition stamped_second_page : document :=
  {| doc_suffix := ".pdf"; doc_exists := Ret true; doc_is_file := Ret true;
     doc_stat := Ret 8%N;
     doc_read := ReadBytes [Byte.x25; Byte.x50; Byte.x44; Byte.x46;
                            Byte.x2d; Byte.x31; Byte.x2e; Byte.x34];
     doc_fitz := Ret
       [ {| page_text := Ret (lit "Chapter 1");
            page_raster := Ret (Exited 0 (Decoded (lit "Chapter 1")) (Decoded []));
            page_unlink := Ret tt |};
         {| page_text := Ret [];
            page_raster := Ret (Exited 0 (Decoded (lit "PAID" ++ nl)) (Decoded []));
            page_unlink := Ret tt |} ];
     doc_tesseract := Exited 1 (Decoded []) (Decoded []) |}.

Definition full_pipeline : Pipeline := TextProps.full_pipeline.

(** C7 as the specification words it: a blank second page always shows up
    under its OCR marker. *)
Definition C7_as_stated : Prop :=
  forall (self : Pipeline) (d : document) (pages : list pdf_page)
         (second : pdf_page),
    pymupdf_available self = true -> tesseract_available self = true ->
    doc_fitz d = Ret pages -> pages !! 1 = Some second ->
    blank_layer second ->
    exists r full, _process_pdf self d = Ret r
      /\ r !! "text" = Some (PyStr full)
      /\ is_substring (lit "--- Page 2 (OCR) ---") full = true.

(** The text of an outcome. *)
Definition text_of (r : res dict) : option pyval :=
  match r with
  | Ret m => m !! "text"
  | Raise _ => None
  end.

Lemma C7_counterexample : ~ C7_as_stated.
Proof.
  intros H.
  destruct (H full_pipeline blank_second_page _ _ eq_refl eq_refl eq_refl eq_refl)
    as [r [full [Hr [Htext Hsub]]]].
  { exists []. split; reflexivity. }
  assert (Hc : text_of (_process_pdf full_pipeline blank_second_page)
               = Some (PyStr (lit "--- Page 1 ---" ++ nl ++ lit "Chapter 1")))
    by (vm_compute; reflexivity).
  rewrite Hr in Hc. unfold text_of in Hc. rewrite Htext in Hc.
  injection Hc as ->. vm_compute in Hsub. discriminate Hsub.
Qed.

(** C7 (amended).  In a successful result of the PyMuPDF extractor the
    text is the sections of the pages that yielded text, joined by a blank
    line, in strictly ascending page order: every section is its page's
    marker ([--- Page N ---], or [--- Page N (OCR) ---] for OCR output of a
    page with a blank text layer), a newline and that page's text, and
    every page that yields text has its section there, so that a page
    contributes no section exactly when its text layer is blank and OCR is
    unavailable or finds nothing.  A page with a blank text layer appears
    under its OCR marker whenever Tesseract is available and its output
    for the page is not blank; for the second page that marker is
    [--- Page 2 (OCR) ---]. *)
Theorem C7_pdf_sections_in_page_order (self : Pipeline) (d : document)
    (r : dict)
    (Hr : _process_pdf_pymupdf self d = Ret r)
    (Hok : r !! "success" = Some (PyBool true)) :
  exists pages sections full,
    doc_fitz d = Ret pages
    /\ r !! "text" = Some (PyStr full)
    /\ full = join (nl ++ nl) (map render sections)
    /\ StronglySorted lt (map sec_page sections)
    /\ Forall (fun s => exists page, pages !! sec_page s = Some page
                          /\ section_from self page s) sections
    /\ (forall i page s,
          pages !! i = Some page -> sec_page s = i ->
          section_from self page s -> In s sections)
    /\ (forall i page ocr_text,
          pages !! i = Some page -> blank_layer page ->
          tesseract_available self = true -> ocr_gives page ocr_text ->
          is_substring (page_marker_ocr i) full = true)
    /\ page_marker_ocr 1 = lit "--- Page 2 (OCR) ---".
Proof.
  destruct (pdf_success self d r Hr Hok) as [pages [parts [Hfitz [Hloop [Htext _]]]]].
  destruct (pages_loop_sections self pages 0 [] parts Hloop)
    as [sections [Hparts [Hsorted [Hall Hfull]]]].
  simpl in Hparts.
  exists pages, sections, (join (nl ++ nl) parts).
  split; [exact Hfitz|]. split; [exact Htext|].
  split; [rewrite Hparts; reflexivity|]. split; [exact Hsorted|]. split; [|split].
  - eapply Forall_impl; [exact Hall|].
    intros s [_ [page [Hlook Hfrom]]]. exists page.
    rewrite Nat.sub_0_r in Hlook. split; assumption.
  - intros i page s Hlook Hnum Hfrom.
    exact (Hfull i page s Hlook Hnum Hfrom).
  - split; [|reflexivity].
    intros i page ocr_text Hi Hblank Htess Hocr.
    pose proof (pages_loop_ocr_section self pages 0 i [] parts page ocr_text
                  Hloop Hi Hblank Htess Hocr) as Hin.
    change (0 + i) with i in Hin.
    destruct (join_part (nl ++ nl) _ parts Hin) as [before [after ->]].
    rewrite <- (app_assoc (page_marker_ocr i)).
    apply is_substring_app.
Qed.

(** What the extractor returns for [stamped_second_page]. *)
Definition stamped_result : dict :=
  let full_text :=
    lit "--- Page 1 ---" ++ nl ++ lit "Chapter 1" ++ nl ++ nl
    ++ lit "--- Page 2 (OCR) ---" ++ nl ++ lit "PAID" in
  list_to_map
    [("success", PyBool true); ("text", PyStr full_text);
     ("text_length", PyInt (Z.of_nat (length full_text)));
     ("confidence", PyFloat (9 # 10)); ("method", PyStr (lit "pymupdf"));
     ("pages", PyInt 2)].

Lemma stamped_processed :
  _process_pdf_pymupdf full_pipeline stamped_second_page = Ret stamped_result.
Proof. vm_compute. reflexivity. Qed.

Lemma C7_pdf_sections_in_page_order_witness :
  exists full,
    stamped_result !! "text" = Some (PyStr full)
    /\ is_substring (lit "--- Page 2 (OCR) ---") full = true.
Proof.
  destruct (C7_pdf_sections_in_page_order full_pipeline stamped_second_page
              stamped_result stamped_processed eq_refl)
    as [pages [sections [full [Hfitz [Htext [_ [_ [_ [_ [Hmarker Hname]]]]]]]]]].
  exists full. split; [exact Htext|].
  rewrite <- Hname. injection Hfitz as <-.
  apply (Hmarker 1 _ (lit "PAID") eq_refl).
  - exists []. split; reflexivity.
  - reflexivity.
  - eexists. split; [reflexivity|]. split; reflexivity.
Defined.

End PdfProps.

(* ===================================================================== *)
(** ** Properties of [OllamaAdapter.generate] *)
(* ===================================================================== *)

Module GenerateProps.
Import Py Ollama.

(** An exception one of the three [except] clauses of the retry loop
    handles. *)
Definition handled (e : exn) : bool :=
  is_requests_ConnectionError e || is_RequestException e || is_ValueError e.

(** An attempt that fails with a handled exception. *)
Definition retried (model_name : pystr) (r : reply) : Prop :=
  exists e, attempt_once model_name r = Raise e /\ handled e = true.

(** The class of the error the loop raises after the last attempt. *)
Definition terminal (e : exn) : Prop :=
  exn_cls e = ConnectionError \/ exn_cls e = ValueError.

(** *** One turn of the loop *)


Lemma loop_retries (self : OllamaAdapter) (server : backend) (req : request)
    (attempt : nat) (rest : list nat) (trace : list event) :
  retried (req_model req) (server req attempt) -> attempt <> 2 ->
  attempts_loop self server req (attempt :: rest) trace
  = attempts_loop self server req rest
      ((trace ++ [Post attempt]) ++ [Sleep (_exponential_backoff attempt)]).
Proof.
  intros [e [He Hh]] Hne. simpl. rewrite He.
  apply Nat.eqb_neq in Hne. rewrite Hne.
  unfold handled in Hh.
  destruct (is_requests_ConnectionError e); [reflexivity|].
  destruct (is_RequestException e); [reflexivity|].
  destruct (is_ValueError e); [reflexivity|discriminate Hh].
Qed.

Lemma loop_gives_up (self : OllamaAdapter) (server : backend) (req : request)
    (rest : list nat) (trace : list event) :
  retried (req_model req) (server req 2) ->
  exists e, attempts_loop self server req (2 :: rest) trace
            = (Raise e, trace ++ [Post 2])
    /\ terminal e.
Proof.
  intros [e [He Hh]]. simpl. rewrite He. unfold handled in Hh.
  destruct (is_requests_ConnectionError e);
    [eexists; split; [reflexivity|left; reflexivity]|].
  destruct (is_RequestException e);
    [eexists; split; [reflexivity|left; reflexivity]|].
  destruct (is_ValueError e); [|discriminate Hh].
  eexists; split; [reflexivity|right; reflexivity].
Qed.

(** *** Counting requests *)

Lemma posts_app (t1 t2 : list event) : posts (t1 ++ t2) = posts t1 + posts t2.
Proof. unfold posts. rewrite omap_app, length_app. reflexivity. Qed.

(** The loop sends at most one request per element of [attempts]. *)
Lemma loop_posts_bound (self : OllamaAdapter) (server : backend)
    (req : request) (attempts : list nat) :
  forall trace,
    posts (attempts_loop self server req attempts trace).2
    <= posts trace + length attempts.
Proof.
  induction attempts as [|attempt rest IH]; intros trace; simpl.
  - lia.
  - assert (Hnext : forall delay,
              posts (attempts_loop self server req rest
                       ((trace ++ [Post attempt]) ++ [Sleep delay])).2
              <= posts trace + S (length rest)).
    { intros delay. etransitivity; [apply IH|].
      rewrite !posts_app.
      change (posts [Post attempt]) with 1.
      change (posts [Sleep delay]) with 0. lia. }
    assert (Hstop : posts (trace ++ [Post attempt])
                    <= posts trace + S (length rest))
      by (rewrite posts_app; change (posts [Post attempt]) with 1; lia).
    destruct (attempt_once (req_model req) (server req attempt)) as [result|e];
      [exact Hstop|].
    destruct (is_requests_ConnectionError e);
      [destruct (attempt =? 2)%nat; [exact Hstop|apply Hnext]|].
    destruct (is_RequestException e);
      [destruct (attempt =? 2)%nat; [exact Hstop|apply Hnext]|].
    destruct (is_ValueError e);
      [destruct (attempt =? 2)%nat; [exact Hstop|apply Hnext]|exact Hstop].
Qed.

Lemma generate_posts_bound (self : OllamaAdapter) (server : backend)
    (prompt : pystr) (max_tokens : Z) (temperature : Q)
    (model_override : option pystr) :
  posts (generate self server prompt max_tokens temperature model_override).2
  <= 3.
Proof. unfold generate. apply (loop_posts_bound self server _ (seq 0 3) []). Qed.

(** *** Backends used as examples *)

Definition local_adapter : OllamaAdapter :=
  {| base_url := lit "http://localhost:11434"; model := lit "deepseek-coder" |}.

(** An HTML error page under status 500. *)
Definition internal_error : reply := Http 500 (NotJson true).

Definition greeting : gmap pystr pyval :=
  {[ lit "response" := PyStr (lit "Hello!") ]}.

Definition always_500 : backend := fun _ _ => internal_error.

Definition recovers_on_third : backend := fun _ n =>
  match n with
  | 0 | 1 => internal_error
  | _ => Http 200 (Json (PyDict greeting) (lit "{'response': 'Hello!'}"))
  end.

Lemma internal_error_retried (model_name : pystr) :
  retried model_name internal_error.
Proof. eexists; split; reflexivity. Qed.

(** *** Three handled failures *)

(** X28.  When every attempt fails with an error the retry loop handles (a
    connection error, any other request error such as the [HTTPError] of a
    status 500, or a JSON or validation [ValueError]), [generate] sends
    exactly three requests, sleeping 1 s and 2 s between them, and then
    raises an error of class [ConnectionError] or [ValueError]; and
    whatever the backend answers, one call never sends more than three
    requests. *)
Theorem handled_failures_exhaust_attempts (self : OllamaAdapter) (server : backend)
    (prompt : pystr) (max_tokens : Z) (temperature : Q)
    (model_override : option pystr)
    (Hfail : forall req attempt, retried (req_model req) (server req attempt)) :
  (exists e trace,
     generate self server prompt max_tokens temperature model_override
     = (Raise e, trace)
     /\ trace = [Post 0; Sleep 1; Post 1; Sleep 2; Post 2]
     /\ posts trace = 3
     /\ terminal e)
  /\ (forall server' prompt' max_tokens' temperature' model_override',
        posts (generate self server' prompt' max_tokens' temperature'
                 model_override').2 <= 3).
Proof.
  split; [|intros; apply generate_posts_bound].
  unfold generate. change (seq 0 3) with [0; 1; 2].
  rewrite loop_retries by (auto; lia).
  rewrite loop_retries by (auto; lia).
  edestruct loop_gives_up as [e [-> Hterminal]]; [apply Hfail|].
  exists e. eexists. split; [reflexivity|]. repeat split. exact Hterminal.
Qed.

Lemma handled_failures_exhaust_attempts_witness :
  exists e trace,
    generate local_adapter always_500 (lit "Hello from test") 50 (7 # 10) None
    = (Raise e, trace)
    /\ trace = [Post 0; Sleep 1; Post 1; Sleep 2; Post 2]
    /\ posts trace = 3
    /\ terminal e.
Proof.
  apply (handled_failures_exhaust_attempts local_adapter always_500
           (lit "Hello from test") 50 (7 # 10) None).
  intros req attempt. apply internal_error_retried.
Defined.

(** *** Two handled failures, then a success *)



(** *** C3 and C4: a body that is not an object *)

(** A backend that answers every request with status 200 and the JSON
    body [null]. *)
Definition null_reply : reply := Http 200 (Json PyNone (lit "None")).

Definition always_null : backend := fun _ _ => null_reply.

(** [null] on the first two requests, a well-formed answer on the
    third. *)
Definition null_then_greeting : backend := fun _ n =>
  match n with
  | 0 | 1 => null_reply
  | _ => Http 200 (Json (PyDict greeting) (lit "{'response': 'Hello!'}"))
  end.

(** An attempt answered with [null] fails in the membership test
    ["response" not in result], with a [TypeError]. *)
Lemma null_reply_fails (model_name : pystr) :
  exists e, attempt_once model_name null_reply = Raise e
    /\ exn_cls e = TypeError /\ handled e = false.
Proof. eexists. split; [reflexivity|]. split; reflexivity. Qed.

(** The call ends with the first attempt when that attempt raises an
    exception none of the [except] clauses handles. *)
Lemma first_unhandled_failure_escapes (self : OllamaAdapter)
    (server : backend) (prompt : pystr) (max_tokens : Z) (temperature : Q)
    (model_override : option pystr) (e : exn) :
  (forall model_name req, attempt_once model_name (server req 0) = Raise e) ->
  handled e = false ->
  generate self server prompt max_tokens temperature model_override
  = (Raise e, [Post 0]).
Proof.
  intros Hfirst Hescape. unfold generate. change (seq 0 3) with [0; 1; 2].
  simpl attempts_loop. cbv beta. rewrite Hfirst.
  unfold handled in Hescape.
  destruct (is_requests_ConnectionError e); [discriminate Hescape|].
  destruct (is_RequestException e); [discriminate Hescape|].
  destruct (is_ValueError e); [discriminate Hescape|]. reflexivity.
Qed.

(** C3.  Against the backend that answers every request with status 200
    and the JSON body [null], every attempt fails, and yet [generate] does
    not make three attempts: the [TypeError] of the membership test is
    handled by none of the [except] clauses, so the call ends after a
    single request, without a retry, and the error that reaches the caller
    is a [TypeError], neither a [ConnectionError] nor a [ValueError]. *)
Theorem C3_null_body_single_attempt (self : OllamaAdapter) (prompt : pystr)
    (max_tokens : Z) (temperature : Q) (model_override : option pystr) :
  (forall model_name req attempt,
     exists e, attempt_once model_name (always_null req attempt) = Raise e)
  /\ exists e trace,
       generate self always_null prompt max_tokens temperature model_override
       = (Raise e, trace)
       /\ trace = [Post 0]
       /\ posts trace = 1
       /\ exn_cls e = TypeError
       /\ ~ terminal e.
Proof.
  split.
  - intros model_name req attempt.
    destruct (null_reply_fails model_name) as [e [He _]]. exists e. exact He.
  - exists (Exn TypeError (lit "argument is not iterable")), [Post 0].
    split.
    + apply first_unhandled_failure_escapes; [|reflexivity].
      intros model_name req. reflexivity.
    + repeat split. intros [H|H]; discriminate H.
Qed.

(** C4.  Against the backend that answers the first two requests with
    status 200 and the JSON body [null] and the third with a well-formed
    body, the first two attempts would fail and the third succeed, and yet
    [generate] does not succeed: the [TypeError] of the first attempt is
    handled by none of the [except] clauses, so the call raises it after
    the first request, without waiting and without a second request. *)
Theorem C4_null_body_no_retry (self : OllamaAdapter) (prompt : pystr)
    (max_tokens : Z) (temperature : Q) (model_override : option pystr) :
  (forall model_name req,
     exists e, attempt_once model_name (null_then_greeting req 0) = Raise e)
  /\ (forall model_name req,
        exists e, attempt_once model_name (null_then_greeting req 1) = Raise e)
  /\ (forall model_name req,
        exists result,
          attempt_once model_name (null_then_greeting req 2) = Ret result)
  /\ exists e trace,
       generate self null_then_greeting prompt max_tokens temperature
         model_override
       = (Raise e, trace)
       /\ trace = [Post 0]
       /\ sleeps trace = []
       /\ exn_cls e = TypeError.
Proof.
  split; [|split; [|split]].
  - intros model_name req.
    destruct (null_reply_fails model_name) as [e [He _]]. exists e. exact He.
  - intros model_name req.
    destruct (null_reply_fails model_name) as [e [He _]]. exists e. exact He.
  - intros model_name req. eexists. reflexivity.
  - exists (Exn TypeError (lit "argument is not iterable")), [Post 0].
    split.
    + apply first_unhandled_failure_escapes; [|reflexivity].
      intros model_name req. reflexivity.
    + repeat split.
Qed.

(** *** Which replies an attempt accepts *)

(** The dictionary [generate] returns for an accepted body [m]. *)
Definition accepted_result (model_name : pystr) (m : gmap pystr pyval)
    (text : pyval) : dict :=
  list_to_map
    [("text", text); ("model", PyStr model_name);
     ("prompt_tokens", default (PyInt 0) (m !! lit "prompt_eval_count"));
     ("completion_tokens", default (PyInt 0) (m !! lit "eval_count"));
     ("done", default (PyBool true) (m !! lit "done"))].

(** A status [raise_for_status] lets through. *)
Definition passes (status : Z) : Prop := (status < 400 \/ 600 <= status)%Z.

Lemma raise_for_status_ok (status : Z) :
  passes status -> raise_for_status status = Ret tt.
Proof.
  intros H. unfold raise_for_status, passes in *.
  destruct (400 <=? status)%Z eqn:H1; destruct (status <? 600)%Z eqn:H2;
    try reflexivity. lia.
Qed.

Lemma raise_for_status_inv (status : Z) (u : unit) :
  raise_for_status status = Ret u -> passes status.
Proof.
  unfold raise_for_status, passes.
  destruct (400 <=? status)%Z eqn:H1; destruct (status <? 600)%Z eqn:H2;
    try discriminate; intros _; lia.
Qed.

Lemma attempt_once_object (model_name : pystr) (status : Z)
    (m : gmap pystr pyval) (shown : pystr) :
  passes status ->
  attempt_once model_name (Http status (Json (PyDict m) shown))
  = match m !! lit "response" with
    | Some text => Ret (accepted_result model_name m text)
    | None => Raise (Exn ValueError (lit "Invalid response format: " ++ shown))
    end.
Proof.
  intros Hstatus. unfold attempt_once, post.
  unfold mbind at 1, res_bind at 1. cbv beta iota. cbn [fst snd].
  rewrite (raise_for_status_ok status Hstatus).
  unfold response_json, py_contains, py_getitem, py_get,
    mbind, res_bind, mret, res_ret.
  cbv beta iota. cbn [fst snd].
  destruct (m !! lit "response"); reflexivity.
Qed.

(** Only an object with a [response] entry, under a status that
    [raise_for_status] lets through, makes an attempt return. *)
Lemma attempt_once_inv (model_name : pystr) (r : reply) (result : dict) :
  attempt_once model_name r = Ret result ->
  exists status m shown text,
    r = Http status (Json (PyDict m) shown)
    /\ passes status
    /\ m !! lit "response" = Some text
    /\ result = accepted_result model_name m text.
Proof.
  destruct r as [msg|msg|msg|status body]; try discriminate.
  intros H.
  assert (Hstatus : passes status).
  { unfold attempt_once, post in H.
    unfold mbind at 1, res_bind at 1 in H. cbv beta iota in H.
    cbn [fst snd] in H.
    destruct (raise_for_status status) as [u|e] eqn:Hs; [|discriminate H].
    exact (raise_for_status_inv status u Hs). }
  destruct body as [[|]|value shown].
  - unfold attempt_once, post in H.
    unfold mbind at 1, res_bind at 1 in H. cbv beta iota in H.
    cbn [fst snd] in H. rewrite (raise_for_status_ok _ Hstatus) in H.
    discriminate H.
  - unfold attempt_once, post in H.
    unfold mbind at 1, res_bind at 1 in H. cbv beta iota in H.
    cbn [fst snd] in H. rewrite (raise_for_status_ok _ Hstatus) in H.
    discriminate H.
  - destruct value as [| b | z | q | s | l | m].
    7: { rewrite (attempt_once_object _ _ _ _ Hstatus) in H.
         destruct (m !! lit "response") as [text|] eqn:Hresp;
           [|discriminate H].
         exists status, m, shown, text.
         split; [reflexivity|]. split; [exact Hstatus|].
         split; [exact Hresp|]. congruence. }
    all: unfold attempt_once, post in H;
      unfold mbind at 1, res_bind at 1 in H; cbv beta iota in H;
      cbn [fst snd] in H; rewrite (raise_for_status_ok _ Hstatus) in H;
      unfold response_json, py_contains, py_getitem, mbind, res_bind in H;
      cbv beta iota in H; cbn [fst snd] in H;
      try discriminate H.
    + destruct (is_substring (lit "response") s); discriminate H.
    + destruct (existsb _ l); discriminate H.
Qed.

(** What the loop can return. *)
Lemma loop_returns_inv (self : OllamaAdapter) (server : backend)
    (req : request) (attempts : list nat) :
  forall trace result trace',
    attempts_loop self server req attempts trace = (Ret result, trace') ->
    (exists d attempt,
        result = Some d /\ In attempt attempts
        /\ attempt_once (req_model req) (server req attempt) = Ret d)
    \/ (result = None /\ ~ In 2 attempts).
Proof.
  induction attempts as [|attempt rest IH]; intros trace result trace'; simpl.
  - intros [= <- _]. right. split; [reflexivity|]. intros [].
  - assert (Hnext : forall delay,
              attempt <> 2 ->
              attempts_loop self server req rest
                ((trace ++ [Post attempt]) ++ [Sleep delay])
              = (Ret result, trace') ->
              (exists d attempt0,
                  result = Some d /\ (attempt = attempt0 \/ In attempt0 rest)
                  /\ attempt_once (req_model req) (server req attempt0) = Ret d)
              \/ (result = None /\ ~ (attempt = 2 \/ In 2 rest))).
    { intros delay Hne Hloop.
      destruct (IH _ _ _ Hloop) as [[d [a [Hd [Hin Ha]]]]|[Hnone Hnot]].
      - left. exists d, a. repeat split; [exact Hd | right; exact Hin | exact Ha].
      - right. split; [exact Hnone|]. intros [H|H]; [exact (Hne H)|exact (Hnot H)]. }
    destruct (attempt_once (req_model req) (server req attempt)) as [d|e] eqn:Hd.
    + intros [= <- _]. left. exists d, attempt.
      repeat split; [left; reflexivity | exact Hd].
    + destruct (Nat.eqb_spec attempt 2) as [Heq|Hne];
        destruct (is_requests_ConnectionError e); try discriminate;
        try (apply Hnext; exact Hne);
        destruct (is_RequestException e); try discriminate;
        try (apply Hnext; exact Hne);
        destruct (is_ValueError e); try discriminate;
        try (apply Hnext; exact Hne).
Qed.

Lemma generate_returns_inv (self : OllamaAdapter) (server : backend)
    (prompt : pystr) (max_tokens : Z) (temperature : Q)
    (model_override : option pystr) (result : option dict)
    (trace : list event) :
  generate self server prompt max_tokens temperature model_override
  = (Ret result, trace) ->
  exists d req attempt,
    result = Some d /\ req_prompt req = prompt /\ attempt < 3
    /\ attempt_once (req_model req) (server req attempt) = Ret d.
Proof.
  unfold generate. intros H.
  apply loop_returns_inv in H as [[d [attempt [Hd [Hin Ha]]]]|[_ Hnot]].
  - exists d.
    match type of Ha with
    | context [server ?req attempt] => exists req
    end.
    exists attempt.
    split; [exact Hd|]. split; [reflexivity|]. split; [|exact Ha].
    simpl in Hin. lia.
  - exfalso. apply Hnot. simpl. auto.
Qed.

(** *** C5 *)

(** A reply with status 300 (which [requests] does not follow when it has
    no [Location]) and a well-formed body. *)
Definition multiple_choices : backend := fun _ _ =>
  Http 300 (Json (PyDict greeting) (lit "{'response': 'Hello!'}")).

(** C5 as the specification words it: a result is returned only on a 2xx
    status. *)
Definition C5_as_stated : Prop :=
  forall (self : OllamaAdapter) (server : backend) (prompt : pystr)
         (max_tokens : Z) (temperature : Q) (model_override : option pystr)
         (result : dict) (trace : list event),
    generate self server prompt max_tokens temperature model_override
    = (Ret (Some result), trace) ->
    exists req attempt status body,
      server req attempt = Http status body /\ (200 <= status < 300)%Z.

Lemma C5_counterexample : ~ C5_as_stated.
Proof.
  intros H.
  destruct (H local_adapter multiple_choices (lit "Hello from test") 50%Z
              (7 # 10)%Q None
              (accepted_result (lit "deepseek-coder") greeting
                 (PyStr (lit "Hello!")))
              [Post 0])
    as [req [attempt [status [body [Hreply Hrange]]]]].
  - reflexivity.
  - unfold multiple_choices in Hreply. injection Hreply as <- _. lia.
Qed.

(** C5 (amended).  [generate] returns a result only for a reply whose
    status [raise_for_status] lets through (anything outside 400..599, so
    every 2xx status) and whose JSON body holds a [response] entry, which
    becomes [text].  A JSON object without [response] raises the
    [ValueError] that the loop retries: a backend that keeps sending it
    gets three requests.  An object with [response] is accepted whether or
    not [prompt_eval_count] and [eval_count] are there; absent, they read
    0. *)
Theorem C5_response_validation (model_name : pystr) (status : Z)
    (m : gmap pystr pyval) (shown : pystr) (Hstatus : passes status) :
  (forall text, m !! lit "response" = Some text ->
     exists result,
       attempt_once model_name (Http status (Json (PyDict m) shown))
       = Ret result
       /\ result !! "text" = Some text
       /\ result !! "prompt_tokens"
          = Some (default (PyInt 0) (m !! lit "prompt_eval_count"))
       /\ result !! "completion_tokens"
          = Some (default (PyInt 0) (m !! lit "eval_count")))
  /\ (m !! lit "response" = None ->
      retried model_name (Http status (Json (PyDict m) shown))
      /\ (exists e,
            attempt_once model_name (Http status (Json (PyDict m) shown))
            = Raise e /\ exn_cls e = ValueError)
      /\ forall self prompt max_tokens temperature model_override,
           exists e trace,
             generate self (fun _ _ => Http status (Json (PyDict m) shown))
               prompt max_tokens temperature model_override
             = (Raise e, trace)
             /\ posts trace = 3 /\ exn_cls e = ValueError)
  /\ (forall self server prompt max_tokens temperature model_override
             result trace,
        generate self server prompt max_tokens temperature model_override
        = (Ret result, trace) ->
        exists d req attempt status' m' shown' text,
          result = Some d /\ attempt < 3
          /\ server req attempt = Http status' (Json (PyDict m') shown')
          /\ passes status'
          /\ m' !! lit "response" = Some text
          /\ d !! "text" = Some text).
Proof.
  split; [|split].
  - intros text Hresp. rewrite (attempt_once_object _ _ _ _ Hstatus), Hresp.
    eexists; split; [reflexivity|]. split; [reflexivity|]. split; reflexivity.
  - intros Hresp.
    assert (Hraise :
              attempt_once model_name (Http status (Json (PyDict m) shown))
              = Raise (Exn ValueError (lit "Invalid response format: " ++ shown)))
      by (rewrite (attempt_once_object _ _ _ _ Hstatus), Hresp; reflexivity).
    assert (Hretried : forall model_name',
              retried model_name' (Http status (Json (PyDict m) shown))).
    { intros model_name'.
      exists (Exn ValueError (lit "Invalid response format: " ++ shown)).
      split; [|reflexivity].
      rewrite (attempt_once_object _ _ _ _ Hstatus), Hresp. reflexivity. }
    split; [apply Hretried|]. split; [eexists; split; [exact Hraise|reflexivity]|].
    intros self prompt max_tokens temperature model_override.
    unfold generate. change (seq 0 3) with [0; 1; 2].
    rewrite loop_retries by (auto; lia).
    rewrite loop_retries by (auto; lia).
    simpl attempts_loop. cbv beta.
    rewrite (attempt_once_object _ _ _ _ Hstatus), Hresp.
    eexists. eexists. split; [reflexivity|]. split; reflexivity.
  - intros self server prompt max_tokens temperature model_override result
      trace Hrun.
    apply generate_returns_inv in Hrun as [d [req [attempt [Hd [_ [Hlt Ha]]]]]].
    apply attempt_once_inv in Ha as [status' [m' [shown' [text [Hr [Hp [Hresp ->]]]]]]].
    exists (accepted_result (req_model req) m' text), req, attempt, status', m',
      shown', text.
    repeat split; assumption || reflexivity.
Qed.

(** A body that holds only the generated text. *)
Lemma C5_response_validation_witness :
  exists result,
    attempt_once (lit "deepseek-coder")
      (Http 200 (Json (PyDict greeting) (lit "{'response': 'Hello!'}")))
    = Ret result
    /\ result !! "text" = Some (PyStr (lit "Hello!"))
    /\ result !! "prompt_tokens" = Some (PyInt 0)
    /\ result !! "completion_tokens" = Some (PyInt 0).
Proof.
  destruct (C5_response_validation (lit "deepseek-coder") 200 greeting
              (lit "{'response': 'Hello!'}")) as [Haccept _].
  - left. reflexivity.
  - apply (Haccept (PyStr (lit "Hello!"))). reflexivity.
Defined.

(** A body that is valid JSON but neither an object, an array nor a string
    makes the membership test itself fail; no [except] clause of the loop
    handles that [TypeError], so it leaves [generate] after one request. *)
Lemma null_body_not_retried :
  exists e,
    generate local_adapter (fun _ _ => Http 200 (Json PyNone (lit "None")))
      (lit "Hello from test") 50 (7 # 10) None
    = (Raise e, [Post 0])
    /\ exn_cls e = TypeError /\ handled e = false.
Proof. eexists. split; [reflexivity|]. split; reflexivity. Qed.

End GenerateProps.

(* ===================================================================== *)
(** ** Properties of [curate_prompt] *)
(* ===================================================================== *)

Module CuratorProps.
Import Py Ollama Curator.

Definition local_config : config :=
  {| CURATOR_MODEL := lit "mistral-7b";
     OLLAMA_HOST := lit "http://localhost:11434" |}.

(** Whatever the backend does, [curate_prompt] returns, and a result that
    is not a success holds the original prompt. *)
Lemma curate_prompt_total (cfg : config) (server : backend)
    (prompt instruction : pystr) :
  exists r, (curate_prompt cfg server prompt instruction).1 = Ret r
    /\ (r !! "success" = Some (PyBool true)
        \/ (r !! "success" = Some (PyBool false)
            /\ r !! "refined" = Some (PyStr prompt)
            /\ r !! "fallback" = Some (PyBool true))).
Proof.
  unfold curate_prompt. cbv zeta. cbn [fst].
  destruct (generate (curator_adapter cfg) server
              (curation_prompt prompt instruction) 2048 (3 # 10) None).1
    as [result|e]; unfold mbind, res_bind, try_except.
  - destruct (text_stripped result) as [refined|e].
    + eexists; split; [reflexivity|]. left; reflexivity.
    + eexists; split; [reflexivity|]. right; repeat split.
  - eexists; split; [reflexivity|]. right; repeat split.
Qed.

(** C8.  When the generation call raises, whatever the exception,
    [curate_prompt] returns the fallback result whose [refined] entry is
    the original prompt, unchanged; and for every backend, prompt and
    instruction [curate_prompt] returns a result rather than raising, a
    result that is not a success always holding the original prompt. *)
Theorem C8_curation_falls_back (cfg : config) (server : backend)
    (prompt instruction : pystr) (e : exn)
    (Hfail : (generate (curator_adapter cfg) server
                (curation_prompt prompt instruction) 2048 (3 # 10) None).1
             = Raise e) :
  (exists r, (curate_prompt cfg server prompt instruction).1 = Ret r
     /\ r !! "refined" = Some (PyStr prompt)
     /\ r !! "refined_length" = Some (PyInt (Z.of_nat (length prompt)))
     /\ r !! "success" = Some (PyBool false)
     /\ r !! "fallback" = Some (PyBool true)
     /\ r !! "error" = Some (PyStr (exn_msg e)))
  /\ (forall server' prompt' instruction',
        exists r, (curate_prompt cfg server' prompt' instruction').1 = Ret r
          /\ (r !! "success" = Some (PyBool true)
              \/ (r !! "success" = Some (PyBool false)
                  /\ r !! "refined" = Some (PyStr prompt')
                  /\ r !! "fallback" = Some (PyBool true)))).
Proof.
  split; [|intros; apply curate_prompt_total].
  unfold curate_prompt. cbv zeta. cbn [fst]. rewrite Hfail.
  unfold mbind, res_bind, try_except. cbv beta iota.
  eexists; split; [reflexivity|]. repeat split.
Qed.

Lemma C8_curation_falls_back_witness :
  exists r,
    (curate_prompt local_config GenerateProps.always_500
       (lit "Explain recursion") (lit "Be concise")).1 = Ret r
    /\ r !! "refined" = Some (PyStr (lit "Explain recursion"))
    /\ r !! "success" = Some (PyBool false).
Proof.
  destruct (C8_curation_falls_back local_config GenerateProps.always_500
              (lit "Explain recursion") (lit "Be concise")
              (Exn ConnectionError
                 (lit "Request to Ollama failed: 500 Error")))
    as [[r [Hr [Hrefined [_ [Hsuccess _]]]]] _].
  - vm_compute. reflexivity.
  - exists r. repeat split; assumption.
Defined.

End CuratorProps.

(* ===================================================================== *)
(** ** Further properties of the ingestion pipeline *)
(* ===================================================================== *)

Module IngestionMore.
Import Py Codec Ingestion.

(** The suffixes [type_map] knows. *)
Definition known_suffixes : list string :=
  [".pdf"; ".txt"; ".md"; ".jpg"; ".jpeg"; ".png"; ".gif"].

Lemma known_suffix_supported (suffix : string) :
  In suffix known_suffixes ->
  exists kind processor,
    type_map !! suffix = Some kind /\ supported_types !! kind = Some processor.
Proof.
  unfold known_suffixes. simpl.
  intros [<-|[<-|[<-|[<-|[<-|[<-|[<-|[]]]]]]]];
    eexists; eexists; split; reflexivity.
Qed.

Lemma type_map_known (suffix kind : string) :
  type_map !! suffix = Some kind -> In suffix known_suffixes.
Proof.
  intros H. apply elem_of_list_to_map_2 in H.
  repeat (apply elem_of_cons in H as [H|H];
          [injection H as -> _; simpl; tauto|]).
  apply elem_of_nil in H. destruct H.
Qed.

(** X1.  The detected content type depends on the suffix only through its
    lower-case form; it is a supported kind exactly when the lower-cased
    suffix is one of the seven of [type_map], and it is
    [application/octet-stream] otherwise. *)
Theorem detect_content_type_by_suffix (d : document) :
  (forall d', lower (doc_suffix d') = lower (doc_suffix d) ->
              _detect_content_type d' = _detect_content_type d)
  /\ (is_Some (supported_types !! _detect_content_type d)
      <-> In (lower (doc_suffix d)) known_suffixes)
  /\ (~ In (lower (doc_suffix d)) known_suffixes ->
      _detect_content_type d = "application/octet-stream").
Proof.
  split; [|split].
  - intros d' H. unfold _detect_content_type. rewrite H. reflexivity.
  - unfold _detect_content_type. split.
    + destruct (type_map !! lower (doc_suffix d)) as [kind|] eqn:Hmap.
      * intros _. exact (type_map_known _ _ Hmap).
      * simpl. intros [processor H]. discriminate H.
    + intros Hin.
      destruct (known_suffix_supported _ Hin) as [kind [processor [-> Hs]]].
      simpl. rewrite Hs. eexists; reflexivity.
  - intros Hnot. unfold _detect_content_type.
    destruct (type_map !! lower (doc_suffix d)) as [kind|] eqn:Hmap;
      [|reflexivity].
    destruct (Hnot (type_map_known _ _ Hmap)).
Qed.

(** X2.  [validate_file] answers [valid: True] exactly for an existing
    regular file of a supported kind whose size is at most 50 MB (the
    limit itself included), and then reports the detected content type
    and the size. *)
Theorem validate_file_accepts_iff (self : Pipeline) (d : document) :
  (exists r, validate_file self d = Ret r /\ r !! "valid" = Some (PyBool true))
  <-> (doc_exists d = Ret true /\ doc_is_file d = Ret true
       /\ is_Some (supported_types !! _detect_content_type d)
       /\ exists size, doc_stat d = Ret size /\ (size <= 52428800)%N
            /\ exists r, validate_file self d = Ret r
                 /\ r !! "size" = Some (PyInt (Z.of_N size))
                 /\ r !! "content_type"
                    = Some (PyStr (lit (_detect_content_type d)))).
Proof.
  unfold validate_file, mbind, res_bind.
  destruct (doc_exists d) as [[|]|e0]; simpl negb; cbv beta iota.
  2: { split; [intros [r [[= <-] H]]; discriminate H | intros [H _]; discriminate H]. }
  2: { split; [intros [r [H _]]; discriminate H | intros [H _]; discriminate H]. }
  destruct (doc_is_file d) as [[|]|e1]; simpl negb; cbv beta iota.
  2: { split; [intros [r [[= <-] H]]; discriminate H
              | intros [_ [H _]]; discriminate H]. }
  2: { split; [intros [r [H _]]; discriminate H
              | intros [_ [H _]]; discriminate H]. }
  destruct (decide (is_Some (supported_types !! _detect_content_type d)))
    as [Hkind|Hkind].
  2: { rewrite (bool_decide_eq_false_2 _ Hkind). simpl negb. cbv iota.
       split; [intros [r [[= <-] H]]; discriminate H
              | intros [_ [_ [H _]]]; destruct (Hkind H)]. }
  rewrite (bool_decide_eq_true_2 _ Hkind). simpl negb. cbv iota.
  destruct (doc_stat d) as [size|e]; cbv beta iota.
  2: { split; [intros [r [H _]]; discriminate H
              | intros [_ [_ [_ [size [H _]]]]]; discriminate H]. }
  change (max_size <? size)%N with (52428800 <? size)%N.
  destruct (N.ltb_spec 52428800 size) as [Hbig|Hsmall].
  - split.
    + intros [r [Hr H]]. exfalso.
      destruct (fmt_mb size) as [shown|e]; [|discriminate Hr].
      injection Hr as <-. discriminate H.
    + intros [_ [_ [_ [size' [[= <-] [Hle _]]]]]]. lia.
  - split; [|intros _; eexists; split; reflexivity].
    intros _. repeat split; try assumption.
    exists size. split; [reflexivity|]. split; [exact Hsmall|].
    eexists. split; [reflexivity|]. split; reflexivity.
Qed.

(** X3.  [validate_file] is not exception-safe: it has no [try], so it
    raises whatever one of its file-system calls raises, in the order it
    makes them: [exists()]; [is_file()] on a path that exists; [stat()] on
    a regular file of a supported kind; and past the size limit the
    [OverflowError] of a size too large to show as a float.  A path that
    is missing, not a regular file or of an unsupported kind is answered
    without [stat()] being called. *)
Theorem validate_file_raises_iff (self : Pipeline) (d : document) (e : exn) :
  (validate_file self d = Raise e
   <-> doc_exists d = Raise e
       \/ (doc_exists d = Ret true /\ doc_is_file d = Raise e)
       \/ (doc_exists d = Ret true /\ doc_is_file d = Ret true
           /\ is_Some (supported_types !! _detect_content_type d)
           /\ (doc_stat d = Raise e
               \/ exists size, doc_stat d = Ret size
                    /\ (max_size < size)%N /\ fmt_mb size = Raise e)))
  /\ (doc_exists d = Ret false \/ doc_is_file d = Ret false
      \/ ~ is_Some (supported_types !! _detect_content_type d) ->
      forall d', doc_suffix d' = doc_suffix d ->
                 doc_exists d' = doc_exists d ->
                 doc_is_file d' = doc_is_file d ->
                 validate_file self d' = validate_file self d)
  /\ (forall size, (size < 2 ^ 63)%N -> fmt_mb size <> Raise e).
Proof.
  split; [|split].
  - unfold validate_file, mbind, res_bind.
    destruct (doc_exists d) as [[|]|e0]; simpl negb; cbv beta iota.
    2: { split; [discriminate|].
         intros [H|[[H _]|[H _]]]; discriminate H. }
    2: { split; [intros [= ->]; left; reflexivity|].
         intros [[= ->]|[[H _]|[H _]]]; [reflexivity|discriminate H..]. }
    destruct (doc_is_file d) as [[|]|e1]; simpl negb; cbv beta iota.
    2: { split; [discriminate|].
         intros [H|[[_ H]|[_ [H _]]]]; discriminate H. }
    2: { split; [intros [= ->]; right; left; split; reflexivity|].
         intros [H|[[_ [= ->]]|[_ [H _]]]];
           [discriminate H|reflexivity|discriminate H]. }
    destruct (decide (is_Some (supported_types !! _detect_content_type d)))
      as [Hkind|Hkind].
    2: { rewrite (bool_decide_eq_false_2 _ Hkind). simpl negb. cbv iota.
         split; [discriminate|].
         intros [H|[[_ H]|[_ [_ [H _]]]]];
           [discriminate H..|destruct (Hkind H)]. }
    rewrite (bool_decide_eq_true_2 _ Hkind). simpl negb. cbv iota.
    destruct (doc_stat d) as [size|e2]; cbv beta iota.
    2: { split.
         - intros [= ->]. right; right. repeat split; try assumption.
           left; reflexivity.
         - intros [H|[[_ H]|[_ [_ [_ [[= ->]|[size [H _]]]]]]]];
             [discriminate H..|reflexivity|discriminate H]. }
    destruct (N.ltb_spec max_size size) as [Hbig|Hsmall].
    + destruct (fmt_mb size) as [shown|e3] eqn:Hshown.
      * split; [discriminate|].
        intros [H|[[_ H]|[_ [_ [_ [H|[size' [[= <-] [_ H]]]]]]]]];
          congruence.
      * split.
        -- intros [= ->]. right; right. repeat split; try assumption.
           right. exists size. repeat split; assumption.
        -- intros [H|[[_ H]|[_ [_ [_ [H|[size' [[= <-] [_ H]]]]]]]]];
             congruence.
    + split; [discriminate|].
      intros [H|[[_ H]|[_ [_ [_ [H|[size' [[= <-] [Hbig _]]]]]]]]];
        [discriminate H..|lia].
  - intros Hearly d' Hsuffix Hexists Hfile.
    unfold validate_file, _detect_content_type, mbind, res_bind.
    rewrite Hsuffix, Hexists, Hfile.
    destruct (doc_exists d) as [[|]|e0]; simpl negb; cbv beta iota;
      [|reflexivity..].
    destruct (doc_is_file d) as [[|]|e1]; simpl negb; cbv beta iota;
      [|reflexivity..].
    destruct (decide (is_Some (supported_types
                                 !! default "application/octet-stream"
                                      (type_map !! lower (doc_suffix d)))))
      as [Hkind|Hkind].
    + destruct Hearly as [H|[H|H]]; [discriminate H..|].
      destruct (H Hkind).
    + rewrite (bool_decide_eq_false_2 _ Hkind). reflexivity.
  - intros size Hsize. rewrite (PipelineProps.fmt_mb_in_range size Hsize).
    discriminate.
Qed.

(** *** What [process_document] adds around an extractor *)

(** A Word file: no entry of [type_map] matches its suffix. *)
Definition word_file : document :=
  {| doc_suffix := ".DOCX"; doc_exists := Ret true; doc_is_file := Ret true;
     doc_stat := Ret 4%N;
     doc_read := ReadBytes [Byte.x50; Byte.x4b; Byte.x03; Byte.x04];
     doc_fitz := Raise (Exn RuntimeError (lit "cannot open document"));
     doc_tesseract := Exited 1 (Decoded []) (Decoded []) |}.

(** A text file that is removed after it was read: [stat()] fails. *)
Definition vanishing_file : document :=
  {| doc_suffix := ".md"; doc_exists := Ret true; doc_is_file := Ret true;
     doc_stat := Raise (Exn FileNotFoundError (lit "No such file or directory"));
     doc_read := ReadBytes [Byte.x68; Byte.x69];
     doc_fitz := Raise (Exn RuntimeError (lit "cannot open document"));
     doc_tesseract := Exited 1 (Decoded []) (Decoded []) |}.

(** X4.  For a document whose kind is not supported, [process_document]
    answers with the failure ['Unsupported file type:
    application/octet-stream'] and the elapsed time only: no extractor
    runs, [stat()] is not consulted, and the result has neither
    [file_size] nor [content_type]. *)
Theorem process_document_unsupported (self : Pipeline) (d : document)
    (start_time now : Q)
    (Hkind : supported_types !! _detect_content_type d = None) :
  exists r, process_document self d start_time now = Ret r
    /\ r !! "success" = Some (PyBool false)
    /\ r !! "error" = Some (PyStr (lit
         "Unsupported file type: application/octet-stream"))
    /\ r !! "processing_time" = Some (PyFloat (now - start_time))
    /\ r !! "file_size" = None /\ r !! "content_type" = None
    /\ forall self' d',
         doc_suffix d' = doc_suffix d ->
         process_document self' d' start_time now = Ret r.
Proof.
  assert (Hdetect : _detect_content_type d = "application/octet-stream").
  { unfold _detect_content_type in *.
    destruct (type_map !! lower (doc_suffix d)) as [kind|] eqn:Hmap;
      [|reflexivity].
    destruct (known_suffix_supported _ (type_map_known _ _ Hmap))
      as [kind' [processor [Hk Hs]]].
    rewrite Hmap in Hk. injection Hk as <-. simpl in Hkind.
    rewrite Hs in Hkind. discriminate Hkind. }
  assert (Hrun : forall self' d',
            doc_suffix d' = doc_suffix d ->
            process_document self' d' start_time now
            = Ret (list_to_map
                     [("success", PyBool false);
                      ("error", PyStr (lit "Unsupported file type: "
                                       ++ lit "application/octet-stream"));
                      ("processing_time", PyFloat (now - start_time))])).
  { intros self' d' Hsuffix. unfold process_document.
    assert (Hdetect' : _detect_content_type d' = "application/octet-stream")
      by (unfold _detect_content_type in *; rewrite Hsuffix; exact Hdetect).
    rewrite Hdetect'. reflexivity. }
  eexists. split; [apply Hrun; reflexivity|].
  repeat split. intros self' d' Hsuffix. apply Hrun, Hsuffix.
Qed.

Lemma process_document_unsupported_witness :
  exists r, process_document TextProps.full_pipeline word_file 0 1 = Ret r
    /\ r !! "success" = Some (PyBool false)
    /\ r !! "file_size" = None.
Proof.
  destruct (process_document_unsupported TextProps.full_pipeline word_file
              0 1 eq_refl) as [r [Hr [Hs [_ [_ [Hsize _]]]]]].
  exists r. repeat split; assumption.
Defined.

(** X5.  When the extractor of the document's kind returns and [stat()]
    succeeds, [process_document] returns the extractor's dictionary with
    exactly three entries set: [processing_time], [file_size] (the size
    [stat()] gave) and [content_type] (the detected type); every other
    entry, [success] included, is the extractor's, also when the extractor
    reported a failure. *)
Theorem process_document_annotates (self : Pipeline) (d : document)
    (start_time now : Q) (processor : Pipeline -> document -> res dict)
    (r0 : dict) (size : N)
    (Hkind : supported_types !! _detect_content_type d = Some processor)
    (Hrun : processor self d = Ret r0)
    (Hstat : doc_stat d = Ret size) :
  exists r, process_document self d start_time now = Ret r
    /\ r !! "processing_time" = Some (PyFloat (now - start_time))
    /\ r !! "file_size" = Some (PyInt (Z.of_N size))
    /\ r !! "content_type" = Some (PyStr (lit (_detect_content_type d)))
    /\ forall key, key <> "processing_time" -> key <> "file_size" ->
                   key <> "content_type" -> r !! key = r0 !! key.
Proof.
  unfold process_document. rewrite Hkind. cbv beta iota zeta.
  rewrite Hrun. unfold mbind, res_bind, try_except. rewrite Hstat.
  eexists. split; [reflexivity|].
  split; [rewrite !lookup_insert_ne by discriminate; apply lookup_insert_eq|].
  split; [rewrite lookup_insert_ne by discriminate; apply lookup_insert_eq|].
  split; [apply lookup_insert_eq|].
  intros key H1 H2 H3. rewrite !lookup_insert_ne by congruence. reflexivity.
Qed.

Lemma process_document_annotates_witness :
  exists r, process_document TextProps.full_pipeline TextProps.cafe_file 0 1
            = Ret r
    /\ r !! "file_size" = Some (PyInt 7)
    /\ r !! "content_type" = Some (PyStr (lit "text/plain")).
Proof.
  destruct (process_document_annotates TextProps.full_pipeline
              TextProps.cafe_file 0 1 _process_text
              (text_result [99; 97; 102; 233; 10]%N) 7 eq_refl eq_refl eq_refl)
    as [r [Hr [_ [Hsize [Hkind _]]]]].
  exists r. repeat split; assumption.
Defined.

(** X6.  When [stat()] raises after the extractor has returned, the
    extractor's result is dropped: [process_document] answers with a
    failure whose [error] is the message of that exception, and neither
    [text] nor [file_size]. *)
Theorem process_document_stat_failure (self : Pipeline) (d : document)
    (start_time now : Q) (processor : Pipeline -> document -> res dict)
    (r0 : dict) (e : exn)
    (Hkind : supported_types !! _detect_content_type d = Some processor)
    (Hrun : processor self d = Ret r0)
    (Hstat : doc_stat d = Raise e) :
  exists r, process_document self d start_time now = Ret r
    /\ r !! "success" = Some (PyBool false)
    /\ r !! "error" = Some (PyStr (exn_msg e))
    /\ r !! "text" = None /\ r !! "file_size" = None.
Proof.
  unfold process_document. rewrite Hkind. cbv beta iota zeta.
  rewrite Hrun. unfold mbind, res_bind, try_except. rewrite Hstat.
  eexists. split; [reflexivity|]. repeat split.
Qed.

Lemma process_document_stat_failure_witness :
  exists r, process_document TextProps.full_pipeline vanishing_file 0 1 = Ret r
    /\ r !! "success" = Some (PyBool false)
    /\ r !! "text" = None.
Proof.
  destruct (process_document_stat_failure TextProps.full_pipeline
              vanishing_file 0 1 _process_text (text_result [104; 105]%N)
              (Exn FileNotFoundError (lit "No such file or directory"))
              eq_refl eq_refl eq_refl) as [r [Hr [Hs [_ [Ht _]]]]].
  exists r. repeat split; assumption.
Defined.

(** *** [str.strip] *)

Lemma lstrip_head (s : pystr) (c : N) (rest : pystr) :
  lstrip s = c :: rest -> isspace c = false.
Proof.
  induction s as [|a s IH]; [discriminate|]. simpl.
  destruct (isspace a) eqn:Ha; [exact IH|].
  intros [= <- _]. exact Ha.
Qed.

Lemma lstrip_suffix (s : pystr) : exists before, s = before ++ lstrip s.
Proof.
  induction s as [|a s [before IH]]; [exists []; reflexivity|]. simpl.
  destruct (isspace a).
  - exists (a :: before). simpl. rewrite <- IH. reflexivity.
  - exists []. reflexivity.
Qed.

Lemma lstrip_fixed (s : pystr) :
  (forall c rest, s = c :: rest -> isspace c = false) -> lstrip s = s.
Proof.
  destruct s as [|a s]; [reflexivity|]. intros H. simpl.
  rewrite (H a s eq_refl). reflexivity.
Qed.

(** The first and the last character of a stripped string are not white
    space. *)
Lemma strip_first (s : pystr) (c : N) (rest : pystr) :
  strip s = c :: rest -> isspace c = false.
Proof.
  unfold strip, rstrip. intros H.
  destruct (lstrip_suffix (rev (lstrip s))) as [before Hsplit].
  apply (f_equal (@rev N)) in Hsplit.
  rewrite rev_involutive, rev_app_distr, H in Hsplit.
  apply (lstrip_head s c (rest ++ rev before)). exact Hsplit.
Qed.

Lemma strip_last (s : pystr) (c : N) (init : pystr) :
  strip s = init ++ [c] -> isspace c = false.
Proof.
  unfold strip, rstrip. intros H.
  apply (f_equal (@rev N)) in H.
  rewrite rev_involutive, rev_app_distr in H. simpl in H.
  exact (lstrip_head _ _ _ H).
Qed.

Lemma strip_idempotent (s : pystr) : strip (strip s) = strip s.
Proof.
  assert (Hl : lstrip (strip s) = strip s)
    by (apply lstrip_fixed; intros c rest; apply strip_first).
  unfold strip at 1, rstrip. rewrite Hl.
  unfold strip, rstrip. rewrite rev_involutive.
  rewrite lstrip_fixed; [reflexivity|].
  intros c rest. apply lstrip_head.
Qed.

(** X7.  What [_ocr_image] returns is already stripped: stripping it again
    changes nothing, and it neither starts nor ends with white space.  In
    particular the page loop's test [ocr_text.strip()] is a test for
    [ocr_text] being non-empty. *)
Theorem ocr_image_is_stripped (tesseract : text_outcome) (text : pystr)
    (Hrun : _ocr_image tesseract = Ret text) :
  strip text = text
  /\ (forall c rest, text = c :: rest -> isspace c = false)
  /\ (forall c init, text = init ++ [c] -> isspace c = false)
  /\ truthy (strip text) = truthy text.
Proof.
  assert (Hshape : text = [] \/ exists stdout, text = strip stdout).
  { unfold _ocr_image in Hrun.
    destruct (run_text tesseract) as [stdout|e];
      unfold mbind, res_bind, try_except in Hrun.
    - right. exists stdout. injection Hrun as <-. reflexivity.
    - destruct (is_CalledProcessError e); [|discriminate Hrun].
      left. injection Hrun as <-. reflexivity. }
  destruct Hshape as [->|[stdout ->]].
  - repeat split; try reflexivity; intros c l H;
      [discriminate H | destruct l; discriminate H].
  - rewrite strip_idempotent. repeat split.
    + intros c rest. apply strip_first.
    + intros c init. apply strip_last.
Qed.

Lemma ocr_image_is_stripped_witness :
  _ocr_image (Exited 0 (Decoded (lit "  PAID " ++ nl)) (Decoded []))
  = Ret (lit "PAID")
  /\ strip (lit "PAID") = lit "PAID".
Proof.
  split; [reflexivity|].
  apply (ocr_image_is_stripped
           (Exited 0 (Decoded (lit "  PAID " ++ nl)) (Decoded []))
           (lit "PAID") eq_refl).
Defined.

(** X8.  With Tesseract available, [_process_image] reports success
    unless running Tesseract raises something other than
    [CalledProcessError]: a missing binary (the probe of [__init__] is not
    repeated) gives the failure ['OCR processing failed: ...'], while an
    exit, with whatever status, whose output decodes gives a success. *)
Theorem process_image_success_iff (self : Pipeline) (d : document)
    (Htess : tesseract_available self = true) :
  ((exists r, _process_image self d = Ret r
      /\ r !! "success" = Some (PyBool true))
   <-> (forall e, run_text (doc_tesseract d) = Raise e ->
                  is_CalledProcessError e = true))
  /\ (forall e, run_text (doc_tesseract d) = Raise e ->
                is_CalledProcessError e = false ->
                _process_image self d
                = Ret (failure (lit "OCR processing failed: " ++ exn_msg e)))
  /\ (forall e, doc_tesseract d = NotStarted e ->
                run_text (doc_tesseract d) = Raise e)
  /\ (forall code out err,
        doc_tesseract d = Exited code (Decoded out) (Decoded err) ->
        exists r, _process_image self d = Ret r
          /\ r !! "success" = Some (PyBool true)).
Proof.
  assert (Hmain :
    ((exists r, _process_image self d = Ret r
        /\ r !! "success" = Some (PyBool true))
     <-> (forall e, run_text (doc_tesseract d) = Raise e ->
                    is_CalledProcessError e = true))
    /\ (forall e, run_text (doc_tesseract d) = Raise e ->
                  is_CalledProcessError e = false ->
                  _process_image self d
                  = Ret (failure (lit "OCR processing failed: " ++ exn_msg e)))).
  { unfold _process_image. rewrite Htess. simpl negb. cbv iota.
    unfold _ocr_image.
    destruct (run_text (doc_tesseract d)) as [stdout|e];
      unfold mbind, res_bind, try_except, is_Exception; cbv beta iota.
    - split; [|intros e H; discriminate H].
      split; [intros _ e H; discriminate H|].
      intros _. eexists. split; reflexivity.
    - destruct (is_CalledProcessError e) eqn:Hcls; cbv beta iota.
      + split; [|intros e' [= <-] H; congruence].
        split; [intros _ e' [= <-]; exact Hcls|].
        intros _. eexists. split; reflexivity.
      + split; [|intros e' [= <-] _; reflexivity].
        split; [|intros H; specialize (H e eq_refl); congruence].
        intros [r [Hr Hs]].
        apply (f_equal TextProps.success_flag) in Hr.
        unfold TextProps.success_flag in Hr. rewrite Hs in Hr.
        discriminate Hr. }
  destruct Hmain as [Hiff Hfail].
  split; [exact Hiff|]. split; [exact Hfail|]. split.
  - intros e ->. reflexivity.
  - intros code out err Hexit. apply Hiff. intros e. rewrite Hexit.
    unfold run_text, decoded, mbind, res_bind.
    destruct (code =? 0)%Z; [discriminate|]. intros [= <-]. reflexivity.
Qed.

(** Tesseract was there when the pipeline was built and is gone now. *)
Definition missing_binary : document :=
  {| doc_suffix := ".png"; doc_exists := Ret true; doc_is_file := Ret true;
     doc_stat := Ret 8%N;
     doc_read := ReadBytes [Byte.x89; Byte.x50; Byte.x4e; Byte.x47;
                            Byte.x0d; Byte.x0a; Byte.x1a; Byte.x0a];
     doc_fitz := Raise (Exn RuntimeError (lit "cannot open broken document"));
     doc_tesseract :=
       NotStarted (Exn FileNotFoundError
                     (lit "No such file or directory: 'tesseract'")) |}.

Lemma process_image_success_iff_witness :
  _process_image TextProps.full_pipeline missing_binary
  = Ret (failure (lit "OCR processing failed: "
                  ++ lit "No such file or directory: 'tesseract'")).
Proof.
  destruct (process_image_success_iff TextProps.full_pipeline missing_binary
              eq_refl) as [_ [Hfail _]].
  apply (Hfail (Exn FileNotFoundError
                  (lit "No such file or directory: 'tesseract'")));
    reflexivity.
Defined.

(** *** The PDF page loop *)

Lemma pages_loop_all_blank (self : Pipeline) (pages : list pdf_page) :
  tesseract_available self = false ->
  Forall PdfProps.blank_layer pages ->
  forall page_num text_parts,
    pages_loop self page_num pages text_parts = Ret text_parts.
Proof.
  intros Htess Hall. induction Hall as [|page rest [text [Ht Hb]] _ IH];
    intros page_num text_parts; simpl; [reflexivity|].
  rewrite Ht. unfold mbind, res_bind. rewrite Hb, Htess. apply IH.
Qed.

(** X9.  A scanned PDF on a machine without Tesseract is not an error:
    when every page has a blank text layer the PyMuPDF extractor reports
    success with [text == ""], [text_length == 0] and the page count. *)
Theorem scanned_pdf_without_ocr (self : Pipeline) (d : document)
    (pages : list pdf_page)
    (Htess : tesseract_available self = false)
    (Hfitz : doc_fitz d = Ret pages)
    (Hblank : Forall PdfProps.blank_layer pages) :
  exists r, _process_pdf_pymupdf self d = Ret r
    /\ r !! "success" = Some (PyBool true)
    /\ r !! "text" = Some (PyStr [])
    /\ r !! "text_length" = Some (PyInt 0)
    /\ r !! "pages" = Some (PyInt (Z.of_nat (length pages)))
    /\ r !! "error" = None.
Proof.
  unfold _process_pdf_pymupdf. rewrite Hfitz.
  unfold mbind, res_bind, try_except.
  rewrite (pages_loop_all_blank self pages Htess Hblank).
  eexists. split; [reflexivity|]. repeat split.
Qed.

(** Two scanned pages. *)
Definition scanned_pdf : document :=
  {| doc_suffix := ".pdf"; doc_exists := Ret true; doc_is_file := Ret true;
     doc_stat := Ret 8%N;
     doc_read := ReadBytes [Byte.x25; Byte.x50; Byte.x44; Byte.x46;
                            Byte.x2d; Byte.x31; Byte.x2e; Byte.x34];
     doc_fitz := Ret
       [ {| page_text := Ret [];
            page_raster := Ret (Exited 0 (Decoded (lit "Invoice")) (Decoded []));
            page_unlink := Ret tt |};
         {| page_text := Ret nl;
            page_raster := Ret (Exited 0 (Decoded (lit "Total")) (Decoded []));
            page_unlink := Ret tt |} ];
     doc_tesseract := Exited 1 (Decoded []) (Decoded []) |}.

Lemma scanned_pdf_without_ocr_witness :
  exists r, _process_pdf_pymupdf PipelineProps.without_ocr scanned_pdf = Ret r
    /\ r !! "success" = Some (PyBool true)
    /\ r !! "text" = Some (PyStr [])
    /\ r !! "pages" = Some (PyInt 2).
Proof.
  destruct (scanned_pdf_without_ocr PipelineProps.without_ocr scanned_pdf _
              eq_refl eq_refl) as [r [Hr [Hs [Ht [_ [Hp _]]]]]].
  - repeat constructor; eexists; split; reflexivity.
  - exists r. repeat split; assumption.
Defined.

Lemma pages_loop_bad_page (self : Pipeline) (pages : list pdf_page)
    (page : pdf_page) (e : exn) :
  In page pages -> page_text page = Raise e ->
  forall page_num text_parts,
    exists e', pages_loop self page_num pages text_parts = Raise e'.
Proof.
  intros Hin Hbad. induction pages as [|first rest IH]; [destruct Hin|].
  intros page_num text_parts. simpl.
  destruct Hin as [->|Hin].
  - rewrite Hbad. exists e. reflexivity.
  - specialize (IH Hin).
    destruct (page_text first) as [text|e1]; unfold mbind, res_bind;
      [|exists e1; reflexivity].
    destruct (truthy (strip text)); [apply IH|].
    destruct (tesseract_available self); [|apply IH].
    destruct (page_raster first) as [tesseract|e2]; [|exists e2; reflexivity].
    destruct (try_finally (_ocr_image tesseract) (page_unlink first))
      as [ocr_text|e3]; [|exists e3; reflexivity].
    destruct (truthy (strip ocr_text)); apply IH.
Qed.

(** X10.  One page whose text cannot be read fails the whole PDF: the
    PyMuPDF extractor then returns a failure whose error starts with
    ['PyMuPDF processing failed: '], with no [text], whatever the other
    pages hold. *)
Theorem unreadable_page_fails_pdf (self : Pipeline) (d : document)
    (pages : list pdf_page) (page : pdf_page) (e : exn)
    (Hfitz : doc_fitz d = Ret pages)
    (Hin : In page pages) (Hbad : page_text page = Raise e) :
  exists r msg, _process_pdf_pymupdf self d = Ret r
    /\ r !! "success" = Some (PyBool false)
    /\ r !! "error" = Some (PyStr (lit "PyMuPDF processing failed: " ++ msg))
    /\ r !! "text" = None.
Proof.
  unfold _process_pdf_pymupdf. rewrite Hfitz.
  unfold mbind, res_bind, try_except.
  destruct (pages_loop_bad_page self pages page e Hin Hbad 0 []) as [e' ->].
  simpl. eexists. exists (exn_msg e'). split; [reflexivity|]. repeat split.
Qed.

(** A readable first page followed by a damaged one. *)
Definition damaged_pdf : document :=
  {| doc_suffix := ".pdf"; doc_exists := Ret true; doc_is_file := Ret true;
     doc_stat := Ret 8%N;
     doc_read := ReadBytes [Byte.x25; Byte.x50; Byte.x44; Byte.x46;
                            Byte.x2d; Byte.x31; Byte.x2e; Byte.x34];
     doc_fitz := Ret
       [ {| page_text := Ret (lit "Chapter 1");
            page_raster := Ret (Exited 0 (Decoded (lit "Chapter 1")) (Decoded []));
            page_unlink := Ret tt |};
         {| page_text := Raise (Exn RuntimeError (lit "bad xref"));
            page_raster := Raise (Exn RuntimeError (lit "bad xref"));
            page_unlink := Ret tt |} ];
     doc_tesseract := Exited 1 (Decoded []) (Decoded []) |}.

Lemma unreadable_page_fails_pdf_witness :
  exists r msg, _process_pdf_pymupdf TextProps.full_pipeline damaged_pdf = Ret r
    /\ r !! "success" = Some (PyBool false)
    /\ r !! "error" = Some (PyStr (lit "PyMuPDF processing failed: " ++ msg))
    /\ r !! "text" = None.
Proof.
  apply (unreadable_page_fails_pdf TextProps.full_pipeline damaged_pdf _
           {| page_text := Raise (Exn RuntimeError (lit "bad xref"));
              page_raster := Raise (Exn RuntimeError (lit "bad xref"));
              page_unlink := Ret tt |}
           (Exn RuntimeError (lit "bad xref")) eq_refl).
  - right. left. reflexivity.
  - reflexivity.
Defined.

End IngestionMore.

(* ===================================================================== *)
(** ** [OllamaAdapter.test_connection] and [list_models] *)
(* ===================================================================== *)

Module OllamaProbes.
Import Py Ollama.

(** [self.session.get(...)]: the outcomes of a GET are those of a POST. *)
Definition session_get (r : reply) : res (Z * http_body) := post r.

(** [test_connection]; [tags] is what the backend does with the GET of
    [/api/tags]. *)
Definition test_connection (self : OllamaAdapter) (tags : reply) : res bool :=
  try_except
    (response ← session_get tags;
     _ ← raise_for_status response.1;
     mret true)
    is_Exception
    (fun _ => mret false).

Definition no_models : pyval := PyDict {[ lit "models" := PyList [] ]}.

(** [list_models] *)
Definition list_models (self : OllamaAdapter) (tags : reply) : res pyval :=
  try_except
    (response ← session_get tags;
     _ ← raise_for_status response.1;
     result ← response_json response.2;
     mret result.1)
    is_Exception
    (fun _ => mret no_models).

End OllamaProbes.

(* ===================================================================== *)
(** ** Requests that are never answered *)
(* ===================================================================== *)

Module Waiting.
Import Py Ollama.

(** [generate] posts with [self.session.post(url, json=..., headers=...)]:
    the call carries no [timeout], and [requests] takes none from the
    session (the attribute [__init__] sets on it is not read).  So besides
    the outcomes of [reply] a request can stay without any: the call to
    [post] neither returns nor raises. *)
Inductive wire :=
| Answered (r : reply)
| Silent.

(** What the network does with the [n]-th request of a call. *)
Abbreviation network := (request -> nat -> wire).

(** How a call goes: it ends, returning or raising, or it never leaves
    [session.post]. *)
Inductive ending :=
| Ends (outcome : res (option dict))
| Hangs.

(** The [for attempt in range(3)] loop of [generate] over such a
    network. *)
Fixpoint attempts_loop (self : OllamaAdapter) (net : network)
    (req : request) (attempts : list nat) (trace : list event)
    : ending * list event :=
  match attempts with
  | [] => (Ends (Ret None), trace)
  | attempt :: rest =>
      let trace := trace ++ [Post attempt] in
      match net req attempt with
      | Silent => (Hangs, trace)
      | Answered r =>
          match attempt_once (req_model req) r with
          | Ret result => (Ends (Ret (Some result)), trace)
          | Raise e =>
              if is_requests_ConnectionError e then
                if (attempt =? 2)%nat then
                  (Ends (Raise (Exn ConnectionError
                                  (lit "Could not connect to Ollama at "
                                   ++ base_url self
                                   ++ lit ". Please ensure Ollama is running and accessible."))),
                   trace)
                else
                  let delay := _exponential_backoff attempt in
                  attempts_loop self net req rest (trace ++ [Sleep delay])
              else if is_RequestException e then
                if (attempt =? 2)%nat then
                  (Ends (Raise (Exn ConnectionError
                                  (lit "Request to Ollama failed: "
                                   ++ exn_msg e))),
                   trace)
                else
                  let delay := _exponential_backoff attempt in
                  attempts_loop self net req rest (trace ++ [Sleep delay])
              else if is_ValueError e then
                if (attempt =? 2)%nat then
                  (Ends (Raise (Exn ValueError
                                  (lit "Invalid response from Ollama: "
                                   ++ exn_msg e))),
                   trace)
                else
                  let delay := _exponential_backoff attempt in
                  attempts_loop self net req rest (trace ++ [Sleep delay])
              else (Ends (Raise e), trace)
          end
      end
  end.

(** [generate(prompt, max_tokens, temperature, model)] over such a
    network. *)
Definition generate (self : OllamaAdapter) (net : network)
    (prompt : pystr) (max_tokens : Z) (temperature : Q)
    (model_override : option pystr) : ending * list event :=
  let model_name :=
    match model_override with
    | Some m => if truthy m then m else model self
    | None => model self
    end in
  let payload :=
    {| req_url := base_url self ++ lit "/api/generate";
       req_model := model_name; req_prompt := prompt;
       req_num_predict := max_tokens; req_temperature := temperature |} in
  attempts_loop self net payload (seq 0 3) [].

End Waiting.

(* ===================================================================== *)
(** ** Further properties of the generation client *)
(* ===================================================================== *)

Module GenerateMore.
Import Py Ollama OllamaProbes GenerateProps.

(** X11.  The retry delay is between 1 and 30 seconds, never decreases
    with the attempt number, doubles up to the fifth attempt (1, 2, 4, 8,
    16) and is 30 from the sixth on. *)
Theorem exponential_backoff_bounds (attempt : nat) :
  (1 <= _exponential_backoff attempt <= 30)%Z
  /\ (forall later, attempt <= later ->
        (_exponential_backoff attempt <= _exponential_backoff later)%Z)
  /\ (attempt <= 4 -> _exponential_backoff attempt = (2 ^ Z.of_nat attempt)%Z)
  /\ (5 <= attempt -> _exponential_backoff attempt = 30%Z).
Proof.
  unfold _exponential_backoff.
  assert (Hpos : forall n : nat, (1 <= 2 ^ Z.of_nat n)%Z).
  { intros n. change 1%Z with (2 ^ 0)%Z. apply Z.pow_le_mono_r; lia. }
  split; [pose proof (Hpos attempt); lia|]. split; [|split].
  - intros later Hle.
    assert ((2 ^ Z.of_nat attempt <= 2 ^ Z.of_nat later)%Z)
      by (apply Z.pow_le_mono_r; lia).
    lia.
  - intros Hle.
    assert ((2 ^ Z.of_nat attempt <= 2 ^ 4)%Z)
      by (apply Z.pow_le_mono_r; lia).
    change (2 ^ 4)%Z with 16%Z in *. lia.
  - intros Hge.
    assert ((2 ^ 5 <= 2 ^ Z.of_nat attempt)%Z)
      by (apply Z.pow_le_mono_r; lia).
    change (2 ^ 5)%Z with 32%Z in *. lia.
Qed.

(** The outcome of a call is a result dictionary or an exception. *)
Definition settled (outcome : res (option dict)) : Prop :=
  (exists result, outcome = Ret (Some result)) \/ (exists e, outcome = Raise e).

(** One turn of the loop: the request is never answered; or it is
    answered and the call ends with a result or an exception; or the call
    sleeps and goes on. *)
Lemma waiting_turn (self : OllamaAdapter) (net : Waiting.network)
    (req : request) (attempt : nat) (rest : list nat) (trace : list event) :
  (net req attempt = Waiting.Silent
   /\ Waiting.attempts_loop self net req (attempt :: rest) trace
      = (Waiting.Hangs, trace ++ [Post attempt]))
  \/ (exists r outcome,
        net req attempt = Waiting.Answered r
        /\ settled outcome
        /\ Waiting.attempts_loop self net req (attempt :: rest) trace
           = (Waiting.Ends outcome, trace ++ [Post attempt]))
  \/ (attempt <> 2
      /\ Waiting.attempts_loop self net req (attempt :: rest) trace
         = Waiting.attempts_loop self net req rest
             ((trace ++ [Post attempt])
              ++ [Sleep (_exponential_backoff attempt)])).
Proof.
  simpl.
  destruct (net req attempt) as [r|]; [|left; split; reflexivity].
  right.
  assert (Hraised : forall e' : exn,
            exists r0 outcome,
              Waiting.Answered r = Waiting.Answered r0
              /\ settled outcome
              /\ (Waiting.Ends (Raise e'), trace ++ [Post attempt])
                 = (Waiting.Ends outcome, trace ++ [Post attempt])).
  { intros e'. exists r, (Raise e'). split; [reflexivity|].
    split; [right; eexists; reflexivity|reflexivity]. }
  destruct (attempt_once (req_model req) r) as [result|e].
  - left. exists r. eexists. split; [reflexivity|].
    split; [left; eexists; reflexivity|reflexivity].
  - destruct (Nat.eqb_spec attempt 2) as [Heq|Hne];
      destruct (is_requests_ConnectionError e);
      try (left; apply Hraised);
      try (right; split; [exact Hne|reflexivity]);
      destruct (is_RequestException e);
      try (left; apply Hraised);
      try (right; split; [exact Hne|reflexivity]);
      destruct (is_ValueError e);
      try (left; apply Hraised);
      try (right; split; [exact Hne|reflexivity]).
Qed.

(** Over a network that answers every request, the loop is the loop of
    [Ollama.attempts_loop] on the answers. *)
Lemma waiting_loop_answered (self : OllamaAdapter) (net : Waiting.network)
    (server : backend) (req : request) (attempts : list nat) :
  (forall req attempt, net req attempt = Waiting.Answered (server req attempt)) ->
  forall trace,
    Waiting.attempts_loop self net req attempts trace
    = (Waiting.Ends (attempts_loop self server req attempts trace).1,
       (attempts_loop self server req attempts trace).2).
Proof.
  intros Hnet. induction attempts as [|attempt rest IH]; intros trace; simpl;
    [reflexivity|].
  rewrite Hnet.
  destruct (attempt_once (req_model req) (server req attempt)) as [result|e];
    [reflexivity|].
  destruct (is_requests_ConnectionError e);
    [destruct (attempt =? 2)%nat; [reflexivity|apply IH]|].
  destruct (is_RequestException e);
    [destruct (attempt =? 2)%nat; [reflexivity|apply IH]|].
  destruct (is_ValueError e);
    [destruct (attempt =? 2)%nat; [reflexivity|apply IH]|reflexivity].
Qed.

(** The request every attempt of a call sends. *)
Definition sent_request (self : OllamaAdapter) (prompt : pystr)
    (max_tokens : Z) (temperature : Q) (model_override : option pystr)
    : request :=
  {| req_url := base_url self ++ lit "/api/generate";
     req_model := match model_override with
                  | Some m => if truthy m then m else model self
                  | None => model self
                  end;
     req_prompt := prompt; req_num_predict := max_tokens;
     req_temperature := temperature |}.

(** How a call went: the last thing it did was to send a request; it hangs
    when that request is never answered, and otherwise ends with a result
    or an exception. *)
Definition call_shape (net : Waiting.network) (req : request)
    (run : Waiting.ending * list event) : Prop :=
  exists attempt,
    last run.2 = Some (Post attempt)
    /\ match run.1 with
       | Waiting.Ends outcome =>
           settled outcome /\ exists r, net req attempt = Waiting.Answered r
       | Waiting.Hangs => net req attempt = Waiting.Silent
       end.

(** X12.  One call of [generate] sends at most three requests, sleeping
    1 s after a first handled failure and 2 s after a second, never after
    its last request, so at most 3 s in all.  It ends right after its
    first, second or third request, with a result dictionary or an
    exception, never with [None]; or it does not end at all: the requests
    carry no timeout, so a request the backend never answers blocks the
    call for ever, and that is the only way for it not to end.  Over a
    backend that answers every request the call is the one of
    [Ollama.generate]. *)
Theorem generate_trace_shapes (self : OllamaAdapter) (net : Waiting.network)
    (prompt : pystr) (max_tokens : Z) (temperature : Q)
    (model_override : option pystr) :
  let run := Waiting.generate self net prompt max_tokens temperature
               model_override in
  (run.2 = [Post 0]
   \/ run.2 = [Post 0; Sleep 1; Post 1]
   \/ run.2 = [Post 0; Sleep 1; Post 1; Sleep 2; Post 2])
  /\ (foldr Z.add 0 (sleeps run.2) <= 3)%Z
  /\ call_shape net
       (sent_request self prompt max_tokens temperature model_override) run
  /\ ((forall req, net req 0 = Waiting.Silent) ->
      run = (Waiting.Hangs, [Post 0]))
  /\ (forall server,
        (forall req attempt,
           net req attempt = Waiting.Answered (server req attempt)) ->
        let answered := generate self server prompt max_tokens temperature
                          model_override in
        run = (Waiting.Ends answered.1, answered.2)
        /\ settled answered.1).
Proof.
  cbv zeta.
  set (req := sent_request self prompt max_tokens temperature model_override).
  change (Waiting.generate self net prompt max_tokens temperature
            model_override)
    with (Waiting.attempts_loop self net req [0; 1; 2] []).
  set (run := Waiting.attempts_loop self net req [0; 1; 2] []).
  assert (Hshape :
    (run.2 = [Post 0] \/ run.2 = [Post 0; Sleep 1; Post 1]
     \/ run.2 = [Post 0; Sleep 1; Post 1; Sleep 2; Post 2])
    /\ call_shape net req run).
  { unfold run.
    destruct (waiting_turn self net req 0 [1; 2] [])
      as [[Hsilent ->]|[[r [outcome [Hr [Hs ->]]]]|[_ ->]]].
    - split; [left; reflexivity|].
      exists 0. split; [reflexivity|exact Hsilent].
    - split; [left; reflexivity|].
      exists 0. split; [reflexivity|]. split; [exact Hs|exists r; exact Hr].
    - destruct (waiting_turn self net req 1 [2]
                  (([] ++ [Post 0]) ++ [Sleep (_exponential_backoff 0)]))
        as [[Hsilent ->]|[[r [outcome [Hr [Hs ->]]]]|[_ ->]]].
      + split; [right; left; reflexivity|].
        exists 1. split; [reflexivity|exact Hsilent].
      + split; [right; left; reflexivity|].
        exists 1. split; [reflexivity|].
        split; [exact Hs|exists r; exact Hr].
      + destruct (waiting_turn self net req 2 []
                    (((([] ++ [Post 0]) ++ [Sleep (_exponential_backoff 0)])
                      ++ [Post 1]) ++ [Sleep (_exponential_backoff 1)]))
          as [[Hsilent ->]|[[r [outcome [Hr [Hs ->]]]]|[Hne _]]].
        * split; [right; right; reflexivity|].
          exists 2. split; [reflexivity|exact Hsilent].
        * split; [right; right; reflexivity|].
          exists 2. split; [reflexivity|].
          split; [exact Hs|exists r; exact Hr].
        * destruct (Hne eq_refl). }
  destruct Hshape as [Htrace Hcall].
  split; [exact Htrace|]. split; [|split; [|split]].
  - destruct Htrace as [-> |[-> | ->]]; vm_compute; discriminate.
  - exact Hcall.
  - intros Hsilent. unfold run. simpl. rewrite Hsilent. reflexivity.
  - intros server Hnet.
    change (generate self server prompt max_tokens temperature model_override)
      with (attempts_loop self server req [0; 1; 2] []).
    assert (Hrun : run = (Waiting.Ends (attempts_loop self server req
                                          [0; 1; 2] []).1,
                          (attempts_loop self server req [0; 1; 2] []).2))
      by (unfold run; apply waiting_loop_answered, Hnet).
    split; [exact Hrun|].
    destruct Hcall as [attempt [_ Hcase]]. rewrite Hrun in Hcase.
    exact (proj1 Hcase).
Qed.

(** A backend that answers the first request with status 500 and never
    answers the second: the call sleeps one second, sends the second
    request and stays there. *)
Example generate_hangs_on_second_request :
  Waiting.generate local_adapter
    (fun _ n => match n with
                | 0 => Waiting.Answered internal_error
                | _ => Waiting.Silent
                end)
    (lit "Hello from test") 50 (7 # 10) None
  = (Waiting.Hangs, [Post 0; Sleep 1; Post 1]).
Proof. reflexivity. Qed.

(** X13.  A dictionary that [generate] returns always holds [text],
    [model], [prompt_tokens], [completion_tokens] and [done]; [model] is
    the name the call asked for (the override, or the adapter's model when
    the override is missing or empty), not a name taken from the reply. *)
Theorem generate_result_fields (self : OllamaAdapter) (server : backend)
    (prompt : pystr) (max_tokens : Z) (temperature : Q)
    (model_override : option pystr) (result : dict) (trace : list event)
    (Hrun : generate self server prompt max_tokens temperature model_override
            = (Ret (Some result), trace)) :
  is_Some (result !! "text")
  /\ is_Some (result !! "prompt_tokens")
  /\ is_Some (result !! "completion_tokens")
  /\ is_Some (result !! "done")
  /\ (exists name, result !! "model" = Some (PyStr name)
        /\ (model_override = None -> name = model self)
        /\ (model_override = Some [] -> name = model self)
        /\ (forall m, model_override = Some m -> m <> [] -> name = m)).
Proof.
  unfold generate in Hrun.
  apply loop_returns_inv in Hrun as [[d [attempt [[= <-] [_ Ha]]]]|[H _]];
    [|discriminate H].
  apply attempt_once_inv in Ha as [status [m [shown [text [_ [_ [_ ->]]]]]]].
  split; [eexists; reflexivity|]. split; [eexists; reflexivity|].
  split; [eexists; reflexivity|]. split; [eexists; reflexivity|].
  eexists. split; [reflexivity|]. cbn [req_model]. split; [|split].
  - intros ->. reflexivity.
  - intros ->. reflexivity.
  - intros m' -> Hne. destruct m'; [destruct (Hne eq_refl)|reflexivity].
Qed.

Lemma generate_result_fields_witness :
  exists result trace,
    generate local_adapter recovers_on_third (lit "Hello from test") 50
      (7 # 10) (Some [])
    = (Ret (Some result), trace)
    /\ result !! "model" = Some (PyStr (lit "deepseek-coder")).
Proof.
  eexists. eexists. split; [reflexivity|].
  destruct (generate_result_fields local_adapter recovers_on_third
              (lit "Hello from test") 50 (7 # 10) (Some []) _ _ eq_refl)
    as [_ [_ [_ [_ [name [Hname [_ [Hempty _]]]]]]]].
  rewrite Hname, (Hempty eq_refl). reflexivity.
Defined.

(** *** Bodies that are JSON but not an object *)

Lemma attempt_once_json (model_name : pystr) (status : Z) (value : pyval)
    (shown : pystr) :
  passes status ->
  attempt_once model_name (Http status (Json value shown))
  = (present ← py_contains (lit "response") value;
     if negb present then
       Raise (Exn ValueError (lit "Invalid response format: " ++ shown))
     else
       text ← py_getitem value (lit "response");
       prompt_tokens ← py_get value (lit "prompt_eval_count") (PyInt 0);
       completion_tokens ← py_get value (lit "eval_count") (PyInt 0);
       done_ ← py_get value (lit "done") (PyBool true);
       mret (list_to_map
               [("text", text); ("model", PyStr model_name);
                ("prompt_tokens", prompt_tokens);
                ("completion_tokens", completion_tokens);
                ("done", done_)] : dict)).
Proof.
  intros Hstatus. unfold attempt_once, post.
  unfold mbind at 1, res_bind at 1. cbv beta iota. cbn [fst snd].
  rewrite (raise_for_status_ok status Hstatus).
  reflexivity.
Qed.

(** X14.  A reply that passes the status check with a JSON body that is
    not an object is never accepted.  If the membership test
    ["response" in body] is false (an array or a string without it) the
    attempt raises the [ValueError] that is retried; otherwise (a null, a
    number, a boolean, or an array or string that does contain
    ["response"]) it raises a [TypeError] that no [except] clause handles,
    and a call whose first reply is such a body ends after that single
    request with the [TypeError]. *)
Theorem non_object_body_never_accepted (model_name : pystr) (status : Z)
    (value : pyval) (shown : pystr)
    (Hstatus : passes status)
    (Hvalue : forall m, value <> PyDict m) :
  exists e,
    attempt_once model_name (Http status (Json value shown)) = Raise e
    /\ (py_contains (lit "response") value = Ret false ->
        exn_cls e = ValueError /\ handled e = true)
    /\ (py_contains (lit "response") value <> Ret false ->
        exn_cls e = TypeError /\ handled e = false
        /\ forall self server prompt max_tokens temperature model_override,
             (forall req, server req 0 = Http status (Json value shown)) ->
             exists e',
               generate self server prompt max_tokens temperature
                 model_override
               = (Raise e', [Post 0])
               /\ exn_cls e' = TypeError).
Proof.
  assert (Hescape : forall e0,
            (forall model_name',
               attempt_once model_name' (Http status (Json value shown))
               = Raise e0) ->
            handled e0 = false ->
            forall self server prompt max_tokens temperature model_override,
              (forall req, server req 0 = Http status (Json value shown)) ->
              generate self server prompt max_tokens temperature
                model_override
              = (Raise e0, [Post 0])).
  { intros e0 He0 Hh self server prompt max_tokens temperature model_override
      Hserver.
    unfold generate. change (seq 0 3) with [0; 1; 2].
    simpl attempts_loop. cbv beta. rewrite Hserver, He0.
    unfold handled in Hh.
    destruct (is_requests_ConnectionError e0); [discriminate Hh|].
    destruct (is_RequestException e0); [discriminate Hh|].
    destruct (is_ValueError e0); [discriminate Hh|]. reflexivity. }
  destruct value as [| b | z | q | s0 | l | m];
    try (eexists; split; [rewrite (attempt_once_json _ _ _ _ Hstatus);
                          reflexivity|];
         split; [intros H; discriminate H|];
         intros _; split; [reflexivity|]; split; [reflexivity|];
         intros self server prompt max_tokens temperature model_override Hs;
         eexists; split;
           [apply Hescape;
              [intros; rewrite (attempt_once_json _ _ _ _ Hstatus); reflexivity
              |reflexivity|exact Hs]
           |reflexivity]).
  - rewrite (attempt_once_json _ _ _ _ Hstatus).
    unfold py_contains, mbind, res_bind.
    destruct (is_substring (lit "response") s0) eqn:Hin; simpl negb; cbv iota.
    + eexists. split; [reflexivity|].
      split; [intros H; discriminate H|].
      intros _. split; [reflexivity|]. split; [reflexivity|].
      intros self server prompt max_tokens temperature model_override Hs.
      exists (Exn TypeError (lit "indices must be integers")).
      split; [|reflexivity]. apply Hescape; [|reflexivity|exact Hs].
      intros model_name'. rewrite (attempt_once_json _ _ _ _ Hstatus).
      unfold py_contains, mbind, res_bind. rewrite Hin. reflexivity.
    + eexists. split; [reflexivity|].
      split; [intros _; split; reflexivity|].
      intros H. destruct (H eq_refl).
  - rewrite (attempt_once_json _ _ _ _ Hstatus).
    unfold py_contains, mbind, res_bind.
    destruct (existsb _ l) eqn:Hin; simpl negb; cbv iota.
    + eexists. split; [reflexivity|].
      split; [intros H; discriminate H|].
      intros _. split; [reflexivity|]. split; [reflexivity|].
      intros self server prompt max_tokens temperature model_override Hs.
      exists (Exn TypeError (lit "indices must be integers")).
      split; [|reflexivity]. apply Hescape; [|reflexivity|exact Hs].
      intros model_name'. rewrite (attempt_once_json _ _ _ _ Hstatus).
      unfold py_contains, mbind, res_bind. rewrite Hin. reflexivity.
    + eexists. split; [reflexivity|].
      split; [intros _; split; reflexivity|].
      intros H. destruct (H eq_refl).
  - destruct (Hvalue m eq_refl).
Qed.

Lemma non_object_body_never_accepted_witness :
  exists e,
    generate local_adapter
      (fun _ _ => Http 200 (Json (PyStr (lit "no response")) (lit "no response")))
      (lit "Hello from test") 50 (7 # 10) None
    = (Raise e, [Post 0])
    /\ exn_cls e = TypeError.
Proof.
  destruct (non_object_body_never_accepted (lit "deepseek-coder") 200
              (PyStr (lit "no response")) (lit "no response"))
    as [e [_ [_ Hescape]]].
  - left. reflexivity.
  - intros m H. discriminate H.
  - destruct Hescape as [_ [_ Hgen]]; [intros H; discriminate H|].
    apply Hgen. intros req. reflexivity.
Defined.

(** *** Which error the caller sees *)

Lemma loop_last_attempt (self : OllamaAdapter) (server : backend)
    (req : request) (rest : list nat) (trace : list event) (e : exn) :
  attempt_once (req_model req) (server req 2) = Raise e ->
  attempts_loop self server req (2 :: rest) trace
  = if is_requests_ConnectionError e then
      (Raise (Exn ConnectionError
                (lit "Could not connect to Ollama at " ++ base_url self
                 ++ lit ". Please ensure Ollama is running and accessible.")),
       trace ++ [Post 2])
    else if is_RequestException e then
      (Raise (Exn ConnectionError
                (lit "Request to Ollama failed: " ++ exn_msg e)),
       trace ++ [Post 2])
    else if is_ValueError e then
      (Raise (Exn ValueError
                (lit "Invalid response from Ollama: " ++ exn_msg e)),
       trace ++ [Post 2])
    else (Raise e, trace ++ [Post 2]).
Proof. intros H. simpl. rewrite H. reflexivity. Qed.

(** X15.  After three handled failures the class of the error [generate]
    raises is decided by the third failure alone: a [requests] exception
    (unreachable host, timeout, an HTTP error status, the library's own
    JSON decoding error) gives [ConnectionError], anything else that is
    handled (a standard JSON decoding error, a body without [response])
    gives [ValueError].  An unreachable host is reported with the
    adapter's base URL. *)
Theorem terminal_error_class (self : OllamaAdapter) (server : backend)
    (prompt : pystr) (max_tokens : Z) (temperature : Q)
    (model_override : option pystr) (last : exn)
    (Hfirst : forall req, retried (req_model req) (server req 0))
    (Hsecond : forall req, retried (req_model req) (server req 1))
    (Hthird : forall req,
        attempt_once (req_model req) (server req 2) = Raise last)
    (Hhandled : handled last = true) :
  exists e trace,
    generate self server prompt max_tokens temperature model_override
    = (Raise e, trace)
    /\ (is_RequestException last = true -> exn_cls e = ConnectionError)
    /\ (is_RequestException last = false -> exn_cls e = ValueError)
    /\ (is_requests_ConnectionError last = true ->
        exn_msg e = lit "Could not connect to Ollama at " ++ base_url self
                    ++ lit ". Please ensure Ollama is running and accessible.")
    /\ (is_requests_ConnectionError last = false ->
        is_RequestException last = true ->
        exn_msg e = lit "Request to Ollama failed: " ++ exn_msg last).
Proof.
  unfold generate. change (seq 0 3) with [0; 1; 2].
  rewrite loop_retries by (auto; lia).
  rewrite loop_retries by (auto; lia).
  rewrite (loop_last_attempt _ _ _ _ _ last) by apply Hthird.
  unfold handled in Hhandled.
  assert (Hsub : is_requests_ConnectionError last = true ->
                 is_RequestException last = true).
  { unfold is_requests_ConnectionError, is_RequestException.
    intros H. apply bool_decide_eq_true_1 in H. rewrite H. reflexivity. }
  destruct (is_requests_ConnectionError last) eqn:Hc.
  - eexists. eexists. split; [reflexivity|].
    rewrite (Hsub eq_refl). repeat split; try reflexivity; discriminate.
  - destruct (is_RequestException last) eqn:Hr.
    + eexists. eexists. split; [reflexivity|].
      repeat split; try reflexivity; discriminate.
    + destruct (is_ValueError last); [|discriminate Hhandled].
      eexists. eexists. split; [reflexivity|].
      repeat split; try reflexivity; discriminate.
Qed.

Lemma terminal_error_class_witness :
  exists e trace,
    generate local_adapter always_500 (lit "Hello from test") 50 (7 # 10) None
    = (Raise e, trace)
    /\ exn_cls e = ConnectionError.
Proof.
  destruct (terminal_error_class local_adapter always_500
              (lit "Hello from test") 50 (7 # 10) None
              (Exn RequestsHTTPError (lit "500 Error")))
    as [e [trace [Hrun [Hconn _]]]].
  - intros req. apply internal_error_retried.
  - intros req. apply internal_error_retried.
  - intros req. reflexivity.
  - reflexivity.
  - exists e, trace. split; [exact Hrun|]. apply Hconn. reflexivity.
Defined.

(** *** The probes *)

Lemma test_connection_returns (self : OllamaAdapter) (tags : reply) :
  exists answer, test_connection self tags = Ret answer.
Proof.
  unfold test_connection, session_get.
  destruct tags as [msg|msg|msg|status body]; simpl;
    try (eexists; reflexivity).
  unfold mbind, res_bind.
  destruct (raise_for_status status); simpl; eexists; reflexivity.
Qed.

(** X16.  [test_connection] never raises; it answers [True] exactly when
    the backend replies at all and with a status outside 400..599,
    whatever the body. *)
Theorem test_connection_true_iff (self : OllamaAdapter) (tags : reply) :
  exists answer, test_connection self tags = Ret answer
    /\ (answer = true
        <-> exists status body, tags = Http status body /\ passes status).
Proof.
  unfold test_connection, session_get.
  destruct tags as [msg|msg|msg|status body]; simpl.
  1-3: exists false; split; [reflexivity|];
       split; [discriminate | intros [status [body [H _]]]; discriminate H].
  unfold mbind, res_bind.
  destruct (raise_for_status status) as [u|e] eqn:Hs; simpl.
  - exists true. split; [reflexivity|]. split; [|reflexivity].
    intros _. exists status, body. split; [reflexivity|].
    exact (raise_for_status_inv status u Hs).
  - exists false. split; [reflexivity|]. split; [discriminate|].
    intros [status' [body' [[= <- _] Hp]]].
    rewrite (raise_for_status_ok _ Hp) in Hs. discriminate Hs.
Qed.

(** X17.  [list_models] never raises.  It returns the parsed body as it
    is (an object or not) when the backend replies with a status outside
    400..599 and a JSON body, and [{"models": []}] in every other case. *)
Theorem list_models_fallback (self : OllamaAdapter) (tags : reply) :
  exists models, list_models self tags = Ret models
    /\ ((exists status value shown,
            tags = Http status (Json value shown) /\ passes status
            /\ models = value)
        \/ ((forall status value shown,
                tags = Http status (Json value shown) -> ~ passes status)
            /\ models = no_models)).
Proof.
  unfold list_models, session_get.
  destruct tags as [msg|msg|msg|status body]; simpl.
  1-3: exists no_models; split; [reflexivity|]; right;
       split; [intros status value shown H; discriminate H | reflexivity].
  unfold mbind, res_bind.
  destruct (raise_for_status status) as [u|e] eqn:Hs; simpl.
  - pose proof (raise_for_status_inv status u Hs) as Hp.
    destruct body as [[|]|value shown]; simpl.
    + exists no_models. split; [reflexivity|]. right.
      split; [intros ? ? ? H; discriminate H | reflexivity].
    + exists no_models. split; [reflexivity|]. right.
      split; [intros ? ? ? H; discriminate H | reflexivity].
    + exists value. split; [reflexivity|]. left.
      exists status, value, shown. repeat split. exact Hp.
  - exists no_models. split; [reflexivity|]. right. split; [|reflexivity].
    intros status' value shown [= <- _] Hp.
    rewrite (raise_for_status_ok _ Hp) in Hs. discriminate Hs.
Qed.

End GenerateMore.

(* ===================================================================== *)
(** ** The endpoints of [curator_service.py] *)
(* ===================================================================== *)

Module CuratorService.
Import Py Ollama OllamaProbes Curator.

(** [validate_request_data]: the verdict and the error message. *)
Definition validate_request_data (data : pyval) : bool * pystr :=
  match data with
  | PyDict m =>
      match m !! lit "prompt" with
      | None => (false, lit "Missing required field 'prompt'")
      | Some (PyStr prompt) =>
          if (Z.of_nat (length (strip prompt)) =? 0)%Z then
            (false, lit "Field 'prompt' cannot be empty")
          else if (10000 <? Z.of_nat (length prompt))%Z then
            (false, lit "Field 'prompt' too long (max 10,000 characters)")
          else
            match m !! lit "instruction" with
            | None | Some (PyStr _) => (true, [])
            | Some _ => (false, lit "Field 'instruction' must be a string")
            end
      | Some _ => (false, lit "Field 'prompt' must be a string")
      end
  | _ => (false, lit "Request data must be JSON object")
  end.

(** [v.strip()] *)
Definition py_strip (v : pyval) : res pystr :=
  match v with
  | PyStr s => Ret (strip s)
  | _ => Raise (Exn AttributeError (lit "object has no attribute 'strip'"))
  end.

(** [len(v)] *)
Definition py_len (v : pyval) : res Z :=
  match v with
  | PyStr s => Ret (Z.of_nat (length s))
  | PyList l => Ret (Z.of_nat (length l))
  | PyDict m => Ret (Z.of_nat (size m))
  | _ => Raise (Exn TypeError (lit "object has no len()"))
  end.

Definition error_body (message : pystr) : dict :=
  list_to_map [("error", PyStr message)].

(** [curate_endpoint]: the JSON body and the status of the response.
    [get_json] is what [request.get_json(force=True)] does with the
    request: the parsed value, or the exception Flask raises for a body
    that is not JSON. *)
Definition curate_endpoint (cfg : config) (server : backend)
    (get_json : res pyval) : res (dict * Z) :=
  try_except (A := dict * Z)
    (data ← get_json;
     match data with
     | PyNone => Ret (error_body (lit "Invalid JSON data"), 400%Z)
     | _ =>
         let verdict := validate_request_data data in
         if negb verdict.1 then Ret (error_body verdict.2, 400%Z)
         else
           prompt_field ← py_getitem data (lit "prompt");
           prompt ← py_strip prompt_field;
           instruction_field ← py_get data (lit "instruction") (PyStr []);
           instruction ← py_strip instruction_field;
           result ← (curate_prompt cfg server prompt instruction).1;
           Ret (result, 200%Z)
     end)
    is_Exception
    (fun e =>
       Ret ((list_to_map [("error", PyStr (lit "Internal server error"));
                          ("details", PyStr (exn_msg e))] : dict), 500%Z)).

(** [health_check]; [first] and [second] are what the backend does with
    the two GETs of [/api/tags] that [test_connection] and [list_models]
    send. *)
Definition health_check (cfg : config) (first second : reply)
    : res (dict * Z) :=
  try_except (A := dict * Z)
    (ollama_healthy ← test_connection (curator_adapter cfg) first;
     models_info ← list_models (curator_adapter cfg) second;
     models ← py_get models_info (lit "models") (PyList []);
     available ← py_len models;
     Ret ((list_to_map
             [("status",
               PyStr (if ollama_healthy : bool
                      then lit "healthy" else lit "degraded"));
              ("curator_model", PyStr (CURATOR_MODEL cfg));
              ("ollama_host", PyStr (OLLAMA_HOST cfg));
              ("ollama_connected", PyBool ollama_healthy);
              ("available_models", PyInt available);
              ("service", PyStr (lit "curator-service"))] : dict),
          if ollama_healthy : bool then 200%Z else 503%Z))
    is_Exception
    (fun e =>
       Ret ((list_to_map [("status", PyStr (lit "unhealthy"));
                          ("error", PyStr (exn_msg e));
                          ("service", PyStr (lit "curator-service"))] : dict),
            503%Z)).

End CuratorService.

Module CuratorServiceProps.
Import Py Ollama OllamaProbes Curator CuratorService.

(** X18.  [validate_request_data] accepts exactly a JSON object whose
    [prompt] is a string that is not blank and has at most 10000
    characters (counted before stripping), and whose [instruction], when
    present, is a string; an accepted request has the empty message, a
    rejected one a non-empty message. *)
Theorem validate_request_data_accepts_iff (data : pyval) :
  ((validate_request_data data).1 = true
   <-> exists m prompt,
         data = PyDict m
         /\ m !! lit "prompt" = Some (PyStr prompt)
         /\ strip prompt <> []
         /\ (Z.of_nat (length prompt) <= 10000)%Z
         /\ (m !! lit "instruction" = None
             \/ exists instruction,
                  m !! lit "instruction" = Some (PyStr instruction)))
  /\ ((validate_request_data data).1 = true
      <-> (validate_request_data data).2 = []).
Proof.
  unfold validate_request_data.
  destruct data as [| b | z | q | s | l | m];
    try (split; (split; [discriminate|]);
         [intros [m [prompt [H _]]]; discriminate H | discriminate]).
  destruct (m !! lit "prompt") as [[| b | z | q | prompt | l | m']|] eqn:Hp;
    try (split; (split; [discriminate|]);
         [intros [m0 [prompt0 [[= <-] [H _]]]]; rewrite Hp in H; discriminate H
         | discriminate]).
  destruct (Z.eqb_spec (Z.of_nat (length (strip prompt))) 0) as [Hblank|Hblank].
  { split; (split; [discriminate|]); [|discriminate].
    intros [m0 [prompt0 [[= <-] [H [Hne _]]]]]. rewrite Hp in H.
    injection H as <-. destruct (strip prompt); [destruct (Hne eq_refl)|].
    simpl in Hblank. lia. }
  assert (Hne : strip prompt <> [])
    by (intros H; rewrite H in Hblank; destruct (Hblank eq_refl)).
  destruct (Z.ltb_spec 10000 (Z.of_nat (length prompt))) as [Hlong|Hfits].
  { split; (split; [discriminate|]); [|discriminate].
    intros [m0 [prompt0 [[= <-] [H [_ [Hle _]]]]]]. rewrite Hp in H.
    injection H as <-. lia. }
  destruct (m !! lit "instruction") as [[| b | z | q | i | l | m']|] eqn:Hi;
    try (split; (split; [discriminate|]); [|discriminate];
         intros [m0 [prompt0 [[= <-] [_ [_ [_ [H|[i0 H]]]]]]]];
         rewrite Hi in H; discriminate H).
  - split; (split; [intros _|reflexivity]); [|reflexivity].
    exists m, prompt. repeat split; try assumption.
    right. exists i. exact Hi.
  - split; (split; [intros _|reflexivity]); [|reflexivity].
    exists m, prompt. repeat split; try assumption. left. exact Hi.
Qed.

(** A request that passed validation is an object with a string under
    [prompt] that is not blank, and a string or nothing under
    [instruction]. *)
Lemma accepted_request (data : pyval) :
  (validate_request_data data).1 = true ->
  exists m prompt instruction,
    data = PyDict m
    /\ m !! lit "prompt" = Some (PyStr prompt)
    /\ default (PyStr []) (m !! lit "instruction") = PyStr instruction
    /\ strip prompt <> [].
Proof.
  unfold validate_request_data.
  destruct data as [| b | z | q | s | l | m]; try discriminate.
  destruct (m !! lit "prompt") as [[| b | z | q | prompt | l | m']|] eqn:Hp;
    try discriminate.
  destruct (Z.eqb_spec (Z.of_nat (length (strip prompt))) 0) as [Hblank|Hblank];
    [discriminate|].
  destruct (10000 <? Z.of_nat (length prompt))%Z; [discriminate|].
  assert (Hne : strip prompt <> [])
    by (intros H; rewrite H in Hblank; destruct (Hblank eq_refl)).
  destruct (m !! lit "instruction") as [[| b | z | q | i | l | m']|] eqn:Hi;
    try discriminate; intros _.
  - exists m, prompt, i. rewrite Hi.
    split; [reflexivity|]. split; [exact Hp|]. split; [reflexivity|exact Hne].
  - exists m, prompt, []. rewrite Hi.
    split; [reflexivity|]. split; [exact Hp|]. split; [reflexivity|exact Hne].
Qed.

(** A rejected request comes with a message. *)
Lemma rejected_message (data : pyval) :
  (validate_request_data data).1 = false ->
  (validate_request_data data).2 <> [].
Proof.
  unfold validate_request_data.
  destruct data as [| b | z | q | s | l | m]; try discriminate.
  destruct (m !! lit "prompt") as [[| b | z | q | prompt | l | m']|];
    try discriminate.
  destruct (Z.of_nat (length (strip prompt)) =? 0)%Z; [discriminate|].
  destruct (10000 <? Z.of_nat (length prompt))%Z; [discriminate|].
  destruct (m !! lit "instruction") as [[| b | z | q | i | l | m']|];
    discriminate.
Qed.

Definition internal_error_body (e : exn) : res (dict * Z) :=
  Ret ((list_to_map [("error", PyStr (lit "Internal server error"));
                     ("details", PyStr (exn_msg e))] : dict), 500%Z).

(** The endpoint on a parsed body other than [null]. *)
Lemma curate_endpoint_parsed (cfg : config) (server : backend) (data : pyval) :
  data <> PyNone ->
  curate_endpoint cfg server (Ret data)
  = try_except (A := dict * Z)
      (if negb (validate_request_data data).1
       then Ret (error_body (validate_request_data data).2, 400%Z)
       else
         prompt ← (prompt_field ← py_getitem data (lit "prompt");
                   py_strip prompt_field);
         instruction ← (instruction_field
                          ← py_get data (lit "instruction") (PyStr []);
                        py_strip instruction_field);
         result ← (curate_prompt cfg server prompt instruction).1;
         Ret (result, 200%Z))
      is_Exception internal_error_body.
Proof.
  intros Hnone. unfold curate_endpoint.
  unfold mbind at 1, res_bind at 1. cbv beta iota zeta.
  destruct data; try destruct (Hnone eq_refl);
    (destruct (negb _); [reflexivity|]);
    unfold mbind, res_bind;
    (destruct (py_getitem _ _); [|reflexivity]);
    (destruct (py_strip _); [|reflexivity]); reflexivity.
Qed.

(** The endpoint on an accepted request: [curate_prompt] on the stripped
    entries of the body. *)
Lemma curate_endpoint_accepted (cfg : config) (server : backend)
    (m : gmap pystr pyval) (prompt instruction : pystr) :
  (validate_request_data (PyDict m)).1 = true ->
  m !! lit "prompt" = Some (PyStr prompt) ->
  default (PyStr []) (m !! lit "instruction") = PyStr instruction ->
  curate_endpoint cfg server (Ret (PyDict m))
  = (result ← (curate_prompt cfg server (strip prompt)
                 (strip instruction)).1;
     Ret (result, 200%Z)).
Proof.
  intros Hvalid Hp Hi.
  rewrite curate_endpoint_parsed by discriminate.
  rewrite Hvalid. simpl negb. cbv iota.
  unfold py_getitem, py_get. rewrite Hp, Hi.
  unfold mbind, res_bind, py_strip.
  destruct (CuratorProps.curate_prompt_total cfg server (strip prompt)
              (strip instruction)) as [body [-> _]].
  reflexivity.
Qed.

(** X19.  For every request body that parses as JSON, [curate_endpoint]
    answers 200 or 400 and never 500: 400 with a non-empty [error] exactly
    when validation rejects the body (the message of
    [validate_request_data], or ['Invalid JSON data'] for [null]), and
    otherwise 200 with what [curate_prompt] returns for the body's
    [prompt] entry, stripped, and its [instruction] entry, stripped, or
    the empty instruction when the body has none; also when the generation
    backend is down (the body then says [success: false] and holds the
    stripped prompt as [refined]).  Only a body that is not JSON is
    answered with 500. *)
Theorem curate_endpoint_statuses (cfg : config) (server : backend)
    (data : pyval) :
  (exists body status,
     curate_endpoint cfg server (Ret data) = Ret (body, status)
     /\ (((validate_request_data data).1 = false /\ status = 400%Z
          /\ exists message, body = error_body message
               /\ message <> []
               /\ (data = PyNone -> message = lit "Invalid JSON data")
               /\ (data <> PyNone ->
                   message = (validate_request_data data).2))
         \/ ((validate_request_data data).1 = true /\ status = 200%Z
             /\ exists m prompt instruction,
                  data = PyDict m
                  /\ m !! lit "prompt" = Some (PyStr prompt)
                  /\ default (PyStr []) (m !! lit "instruction")
                     = PyStr instruction
                  /\ strip prompt <> []
                  /\ (curate_prompt cfg server (strip prompt)
                        (strip instruction)).1 = Ret body
                  /\ (body !! "success" = Some (PyBool true)
                      \/ (body !! "success" = Some (PyBool false)
                          /\ body !! "refined"
                             = Some (PyStr (strip prompt)))))))
  /\ (forall e, exists body,
        curate_endpoint cfg server (Raise e) = Ret (body, 500%Z)
        /\ body !! "error" = Some (PyStr (lit "Internal server error"))).
Proof.
  split; [|intros e; eexists; split; reflexivity].
  assert (Hnull : data = PyNone \/ data <> PyNone)
    by (destruct data; (left; reflexivity) || (right; discriminate)).
  destruct Hnull as [->|Hnone].
  { eexists; eexists; split; [reflexivity|]; left.
    split; [reflexivity|]. split; [reflexivity|].
    eexists. split; [reflexivity|]. split; [discriminate|].
    split; [reflexivity|]. intros H. destruct (H eq_refl). }
  destruct (validate_request_data data).1 eqn:Hvalid.
  - destruct (accepted_request data Hvalid)
      as [m [prompt [instruction [-> [Hp [Hi Hne]]]]]].
    destruct (CuratorProps.curate_prompt_total cfg server (strip prompt)
                (strip instruction)) as [body [Hbody Hcases]].
    exists body, 200%Z. split.
    + rewrite (curate_endpoint_accepted cfg server m prompt instruction
                 Hvalid Hp Hi).
      rewrite Hbody. reflexivity.
    + right. split; [reflexivity|]. split; [reflexivity|].
      exists m, prompt, instruction.
      split; [reflexivity|]. split; [exact Hp|]. split; [exact Hi|].
      split; [exact Hne|]. split; [exact Hbody|].
      destruct Hcases as [Hs|[Hs [Hr _]]];
        [left; exact Hs|right; split; assumption].
  - rewrite (curate_endpoint_parsed cfg server data Hnone).
    rewrite Hvalid. simpl negb. cbv iota.
    eexists; eexists; split; [reflexivity|]; left.
    split; [reflexivity|]. split; [reflexivity|].
    eexists. split; [reflexivity|].
    split; [exact (rejected_message data Hvalid)|].
    split; [intros H; destruct (Hnone H)|reflexivity].
Qed.

(** The number [health_check] reports as [available_models]. *)
Definition counted (cfg : config) (second : reply) : res Z :=
  models_info ← list_models (curator_adapter cfg) second;
  models ← py_get models_info (lit "models") (PyList []);
  py_len models.

(** A reachable backend whose [/api/tags] body is a JSON array. *)
Definition tags_array : reply := Http 200 (Json (PyList []) (lit "[]")).

(** X20.  [health_check] never raises and answers 200 or 503.  It answers
    200, with status [healthy], exactly when the backend passes
    [test_connection] and the model list can be counted; a reachable
    backend whose tag list is not an object with a sized [models] entry is
    reported as [unhealthy] with 503, and an unreachable one as [degraded]
    with 503. *)
Theorem health_check_statuses (cfg : config) (first second : reply) :
  exists body status,
    health_check cfg first second = Ret (body, status)
    /\ (status = 200%Z \/ status = 503%Z)
    /\ (status = 200%Z
        <-> test_connection (curator_adapter cfg) first = Ret true
            /\ exists n, counted cfg second = Ret n)
    /\ (status = 200%Z -> body !! "status" = Some (PyStr (lit "healthy")))
    /\ (test_connection (curator_adapter cfg) first = Ret false ->
        forall n, counted cfg second = Ret n ->
        body !! "status" = Some (PyStr (lit "degraded"))
        /\ body !! "available_models" = Some (PyInt n))
    /\ ((forall n, counted cfg second <> Ret n) ->
        body !! "status" = Some (PyStr (lit "unhealthy"))).
Proof.
  destruct (GenerateMore.test_connection_returns (curator_adapter cfg) first)
    as [answer Htest].
  unfold health_check, counted. rewrite Htest.
  unfold mbind at 1, res_bind at 1. cbv beta iota.
  destruct (list_models (curator_adapter cfg) second) as [models_info|e1];
    unfold mbind, res_bind, try_except; cbv beta iota.
  2: { eexists; eexists; split; [reflexivity|].
       split; [right; reflexivity|].
       split; [split; [discriminate | intros [_ [n H]]; discriminate H]|].
       split; [discriminate|].
       split; [intros _ n H; discriminate H | intros _; reflexivity]. }
  destruct (py_get models_info (lit "models") (PyList [])) as [models|e2];
    cbv beta iota.
  2: { eexists; eexists; split; [reflexivity|].
       split; [right; reflexivity|].
       split; [split; [discriminate | intros [_ [n H]]; discriminate H]|].
       split; [discriminate|].
       split; [intros _ n H; discriminate H | intros _; reflexivity]. }
  destruct (py_len models) as [n|e3]; cbv beta iota.
  2: { eexists; eexists; split; [reflexivity|].
       split; [right; reflexivity|].
       split; [split; [discriminate | intros [_ [n H]]; discriminate H]|].
       split; [discriminate|].
       split; [intros _ n H; discriminate H | intros _; reflexivity]. }
  destruct answer.
  - eexists; eexists; split; [reflexivity|].
    split; [left; reflexivity|].
    split; [split; [intros _; split; [reflexivity|exists n; reflexivity]
                   |reflexivity]|].
    split; [intros _; reflexivity|].
    split; [discriminate | intros H; destruct (H n eq_refl)].
  - eexists; eexists; split; [reflexivity|].
    split; [right; reflexivity|].
    split; [split; [discriminate | intros [H _]; discriminate H]|].
    split; [discriminate|].
    split; [intros _ n' [= <-]; split; reflexivity
           | intros H; destruct (H n eq_refl)].
Qed.

(** A reachable backend with a malformed tag list is reported unhealthy. *)
Example health_check_tags_array :
  exists body,
    health_check CuratorProps.local_config tags_array tags_array
    = Ret (body, 503%Z)
    /\ body !! "status" = Some (PyStr (lit "unhealthy")).
Proof. eexists. split; reflexivity. Qed.

End CuratorServiceProps.

(* ===================================================================== *)
(** ** Callers in [backend/main.py] *)
(* ===================================================================== *)

Module Backend.
Import Py Ollama Ingestion.

(** Truth value of a Python value. *)
Definition py_truthy (v : pyval) : bool :=
  match v with
  | PyNone => false
  | PyBool b => b
  | PyInt z => negb (z =? 0)%Z
  | PyFloat q => negb (Qeq_bool q 0)
  | PyStr s => truthy s
  | PyList l => match l with [] => false | _ :: _ => true end
  | PyDict m => negb (bool_decide (size m = 0))
  end.

(** [curate_prompt] of [backend/main.py] (the same function is in
    [web_ui.py] and [streamlit_app.py]): the client of the curator
    service.  [service] is what the curator service does with the POST of
    [/api/curate]; the value returned is the prompt to use. *)
Definition curate_prompt (service : reply) (prompt instruction : pystr)
    : res pyval :=
  try_except
    (response ← post service;
     if (response.1 =? 200)%Z then
       result ← response_json response.2;
       success ← py_get result.1 (lit "success") PyNone;
       if py_truthy success
       then py_get result.1 (lit "refined") (PyStr prompt)
       else Ret (PyStr prompt)
     else Ret (PyStr prompt))
    is_Exception
    (fun _ => Ret (PyStr prompt)).

(** What an endpoint of the API answers: a JSON body, or an
    [HTTPException] with its status and detail. *)
Inductive answer :=
| Respond (body : gmap string pyval)
| HttpError (status : Z) (detail : pystr).

Definition allowed_types : list pystr :=
  [lit "application/pdf"; lit "image/jpeg"; lit "image/png"; lit "image/gif";
   lit "text/plain"].

(** An uploaded file: the declared content type (absent when the client
    sent none), the file name and the bytes. *)
Record upload := {
  up_content_type : option pystr;
  up_filename : pystr;
  up_content : list Byte.byte;
}.

(** What the body of an endpoint's [try] can raise: an exception of the
    pipeline or the file system, or an [HTTPException]; both derive from
    [Exception]. *)
Inductive raised :=
| Builtin (e : exn)
| HTTPException (status : Z) (detail : pystr).

(** [upload_document].  [timestamp] is the formatted time of the call,
    [written] what saving the bytes under the upload directory does,
    [saved] the saved file as the pipeline finds it, and [render] gives
    [str(e)] of an [HTTPException] from its status and detail (the web
    framework's choice). *)
Definition upload_document (self : Pipeline) (file : upload)
    (timestamp : pystr) (written : res unit) (saved : document)
    (start_time now : Q) (render : Z -> pystr -> pystr) : answer :=
  let attempt : raised + gmap string pyval :=
    let declared :=
      match up_content_type file with
      | Some kind => kind
      | None => lit "None"
      end in
    if negb (match up_content_type file with
             | Some kind => bool_decide (kind ∈ allowed_types)
             | None => false
             end)
    then inl (HTTPException 400 (lit "File type " ++ declared
                                 ++ lit " not supported"))
    else
      let safe_filename := timestamp ++ lit "_" ++ up_filename file in
      match
        (_ ← written;
         result ← process_document self saved start_time now;
         mret (list_to_map
                 [("success", PyBool true);
                  ("filename", PyStr safe_filename);
                  ("extracted_text", default (PyStr []) (result !! "text"));
                  ("confidence", default (PyInt 0) (result !! "confidence"));
                  ("processing_time",
                   default (PyInt 0) (result !! "processing_time"));
                  ("file_size",
                   PyInt (Z.of_nat (length (up_content file))))]
               : gmap string pyval))
      with
      | Ret body => inr body
      | Raise e => inl (Builtin e)
      end in
  match attempt with
  | inr body => Respond body
  | inl (Builtin e) => HttpError 500 (exn_msg e)
  | inl (HTTPException status detail) => HttpError 500 (render status detail)
  end.

End Backend.

Module BackendProps.
Import Py Ollama Ingestion Curator CuratorService.

(** X21.  The client [curate_prompt] never raises.  When the curator
    service answers with status 200 and a JSON object whose [success]
    entry is true in Python's sense, it returns that object's [refined]
    entry (whatever its type), or the prompt when there is none; in every
    other case it returns the prompt it was given. *)
Theorem client_returns_prompt_or_refined (service : reply)
    (prompt instruction : pystr) :
  exists chosen,
    Backend.curate_prompt service prompt instruction = Ret chosen
    /\ (chosen = PyStr prompt
        \/ exists m shown success,
             service = Http 200 (Json (PyDict m) shown)
             /\ m !! lit "success" = Some success
             /\ Backend.py_truthy success = true
             /\ m !! lit "refined" = Some chosen)
    /\ (forall m shown success,
          service = Http 200 (Json (PyDict m) shown) ->
          m !! lit "success" = Some success ->
          Backend.py_truthy success = true ->
          chosen = default (PyStr prompt) (m !! lit "refined"))
    /\ ((forall m shown success,
           service = Http 200 (Json (PyDict m) shown) ->
           m !! lit "success" = Some success ->
           Backend.py_truthy success = false) ->
        chosen = PyStr prompt).
Proof.
  (* the cases in which the prompt comes back because the service did not
     answer with a truthy [success] *)
  assert (Hkept : forall r : reply,
            (forall m shown success,
               r = Http 200 (Json (PyDict m) shown) ->
               m !! lit "success" = Some success ->
               Backend.py_truthy success = false) ->
            (PyStr prompt = PyStr prompt
             \/ exists m shown success,
                  r = Http 200 (Json (PyDict m) shown)
                  /\ m !! lit "success" = Some success
                  /\ Backend.py_truthy success = true
                  /\ m !! lit "refined" = Some (PyStr prompt))
            /\ (forall m shown success,
                  r = Http 200 (Json (PyDict m) shown) ->
                  m !! lit "success" = Some success ->
                  Backend.py_truthy success = true ->
                  PyStr prompt = default (PyStr prompt) (m !! lit "refined"))
            /\ ((forall m shown success,
                   r = Http 200 (Json (PyDict m) shown) ->
                   m !! lit "success" = Some success ->
                   Backend.py_truthy success = false) ->
                PyStr prompt = PyStr prompt)).
  { intros r Hfalsy. split; [left; reflexivity|]. split; [|reflexivity].
    intros m shown success Hr Hs Ht.
    rewrite (Hfalsy m shown success Hr Hs) in Ht. discriminate Ht. }
  unfold Backend.curate_prompt.
  destruct service as [msg|msg|msg|status body]; simpl post;
    unfold mbind at 1, res_bind at 1; cbv beta iota;
    try (eexists; split; [reflexivity|]; apply Hkept;
         intros m shown success H; discriminate H).
  cbn [fst snd].
  destruct (Z.eqb_spec status 200) as [->|Hne];
    [|eexists; split; [reflexivity|]; apply Hkept;
      intros m shown success [= H _]; destruct (Hne H)].
  destruct body as [[|]|value shown]; simpl response_json;
    unfold mbind at 1, res_bind at 1; cbv beta iota;
    try (eexists; split; [reflexivity|]; apply Hkept;
         intros m shown' success H; discriminate H).
  cbn [fst snd].
  destruct value as [| b | z | q | s | l | m]; simpl py_get;
    unfold mbind, res_bind; cbv beta iota;
    try (eexists; split; [reflexivity|]; apply Hkept;
         intros m' shown' success H; discriminate H).
  destruct (m !! lit "success") as [success|] eqn:Hs; simpl default;
    [|eexists; split; [reflexivity|]; apply Hkept;
      intros m' shown' success' [= <- _] H; rewrite Hs in H; discriminate H].
  destruct (Backend.py_truthy success) eqn:Ht;
    [|eexists; split; [reflexivity|]; apply Hkept;
      intros m' shown' success' [= <- _] H; rewrite Hs in H;
      injection H as <-; exact Ht].
  exists (default (PyStr prompt) (m !! lit "refined")).
  split; [reflexivity|]. split; [|split].
  - destruct (m !! lit "refined") as [refined|] eqn:Hr; simpl default;
      [|left; reflexivity].
    right. exists m, shown, success. repeat split; assumption.
  - intros m' shown' success' [= <- _] _ _. reflexivity.
  - intros Hfalsy. rewrite (Hfalsy m shown success eq_refl Hs) in Ht.
    discriminate Ht.
Qed.

(** *** From the client through the curator service *)

Lemma lit_inj (a b : string) : lit a = lit b -> a = b.
Proof.
  revert b. induction a as [|c a IH]; intros [|c' b]; try discriminate;
    [reflexivity|].
  unfold lit. simpl. intros [= Hc Hrest].
  apply (f_equal ascii_of_N) in Hc. rewrite !ascii_N_embedding in Hc.
  rewrite Hc, (IH b Hrest). reflexivity.
Qed.

#[local] Instance lit_injective : Inj (=) (=) lit.
Proof. intros a b. apply lit_inj. Qed.

Lemma lookup_json_key (body : gmap string pyval) (key : string) :
  (kmap lit body : gmap pystr pyval) !! lit key = body !! key.
Proof. apply (lookup_kmap lit). Qed.

(** The JSON the client posts. *)
Definition request_json (prompt instruction : pystr) : pyval :=
  PyDict (<[lit "prompt" := PyStr prompt]>
            {[ lit "instruction" := PyStr instruction ]}).

(** What the client receives for what the endpoint answers: the body as
    JSON under the endpoint's status; an exception leaving the view would
    be the framework's own error page. *)
Definition over_http (answered : res (dict * Z)) : reply :=
  match answered with
  | Ret (body, status) => Http status (Json (PyDict (kmap lit body)) [])
  | Raise _ => Http 500 (NotJson true)
  end.

(** The client's call, served by [curate_endpoint]. *)
Definition curate_through_service (cfg : config) (server : backend)
    (prompt instruction : pystr) : res pyval :=
  Backend.curate_prompt
    (over_http (curate_endpoint cfg server
                  (Ret (request_json prompt instruction))))
    prompt instruction.

Lemma curated_shape (cfg : config) (server : backend)
    (prompt instruction : pystr) :
  exists body, (curate_prompt cfg server prompt instruction).1 = Ret body
    /\ ((body !! "success" = Some (PyBool true)
         /\ exists refined, body !! "refined" = Some (PyStr refined)
              /\ strip refined = refined)
        \/ (body !! "success" = Some (PyBool false))).
Proof.
  unfold curate_prompt. cbv zeta. cbn [fst].
  destruct (generate (curator_adapter cfg) server
              (curation_prompt prompt instruction) 2048 (3 # 10) None).1
    as [result|e]; unfold mbind, res_bind, try_except.
  - destruct (text_stripped result) as [refined|e] eqn:Htext.
    + eexists; split; [reflexivity|]. left. split; [reflexivity|].
      eexists. split; [reflexivity|].
      destruct (is_substring (lit "REFINED PROMPT:") refined).
      * apply IngestionMore.strip_idempotent.
      * unfold text_stripped in Htext.
        destruct result as [d|]; [|discriminate Htext].
        destruct (d !! "text") as [[| | | | s | |]|]; try discriminate Htext.
        injection Htext as <-. apply IngestionMore.strip_idempotent.
    + eexists; split; [reflexivity|]. right; reflexivity.
  - eexists; split; [reflexivity|]. right; reflexivity.
Qed.

Lemma request_accepted (cfg : config) (server : backend)
    (prompt instruction : pystr) :
  (validate_request_data (request_json prompt instruction)).1 = true ->
  curate_endpoint cfg server (Ret (request_json prompt instruction))
  = (result ← (curate_prompt cfg server (strip prompt) (strip instruction)).1;
     Ret (result, 200%Z)).
Proof.
  intros Hvalid.
  rewrite CuratorServiceProps.curate_endpoint_parsed by discriminate.
  rewrite Hvalid. simpl negb. cbv iota.
  unfold request_json, py_getitem, py_get.
  rewrite lookup_insert_eq.
  rewrite lookup_insert_ne by (intros H; apply lit_inj in H; discriminate H).
  rewrite lookup_singleton_eq.
  unfold mbind, res_bind, py_strip. simpl default.
  destruct (curated_shape cfg server (strip prompt) (strip instruction))
    as [body [-> _]].
  reflexivity.
Qed.

Lemma curate_prompt_fallback (cfg : config) (server : backend)
    (prompt instruction : pystr) (e : exn) :
  (generate (curator_adapter cfg) server
     (curation_prompt prompt instruction) 2048 (3 # 10) None).1 = Raise e ->
  (curate_prompt cfg server prompt instruction).1
  = Ret (fallback_result cfg prompt e).
Proof.
  intros Hfail. unfold curate_prompt. cbv zeta. cbn [fst]. rewrite Hfail.
  reflexivity.
Qed.

(** X22.  Served by [curate_endpoint], the client's [curate_prompt] always
    returns a string: either exactly the prompt it was given (not the
    stripped one the service worked on), or the refined text of a
    curation that succeeded, which has no surrounding white space.  When
    the generation call behind the service raises, it is the prompt it
    was given. *)
Theorem curate_through_service_returns (cfg : config) (server : backend)
    (prompt instruction : pystr) :
  (exists text,
     curate_through_service cfg server prompt instruction = Ret (PyStr text)
     /\ (text = prompt
         \/ exists body,
              (curate_prompt cfg server (strip prompt) (strip instruction)).1
              = Ret body
              /\ body !! "success" = Some (PyBool true)
              /\ body !! "refined" = Some (PyStr text)
              /\ strip text = text))
  /\ (forall e,
        (generate (curator_adapter cfg) server
           (curation_prompt (strip prompt) (strip instruction))
           2048 (3 # 10) None).1 = Raise e ->
        curate_through_service cfg server prompt instruction
        = Ret (PyStr prompt)).
Proof.
  unfold curate_through_service.
  destruct (validate_request_data (request_json prompt instruction)).1
    eqn:Hvalid.
  - rewrite (request_accepted cfg server prompt instruction Hvalid).
    destruct (curated_shape cfg server (strip prompt) (strip instruction))
      as [body [Hbody Hshape]].
    assert (Hclient : forall flag,
              body !! "success" = Some (PyBool flag) ->
              Backend.curate_prompt
                (over_http (result ← Ret body; Ret (result, 200%Z)))
                prompt instruction
              = if flag
                then Ret (default (PyStr prompt) (body !! "refined"))
                else Ret (PyStr prompt)).
    { intros flag Hflag. unfold Backend.curate_prompt, over_http.
      unfold mbind, res_bind, post, response_json, py_get. cbv beta iota.
      cbn [fst snd]. rewrite !lookup_json_key, Hflag. simpl default.
      destruct flag; reflexivity. }
    split.
    + rewrite Hbody.
      destruct Hshape as [[Hs [refined [Hr Hstripped]]]|Hs].
      * rewrite (Hclient true Hs), Hr. simpl default.
        exists refined. split; [reflexivity|]. right.
        exists body. repeat split; assumption.
      * rewrite (Hclient false Hs).
        exists prompt. split; [reflexivity|left; reflexivity].
    + intros e Hfail. rewrite Hbody.
      pose proof (curate_prompt_fallback cfg server (strip prompt)
                    (strip instruction) e Hfail) as Hfallback.
      rewrite Hbody in Hfallback.
      assert (Hs : body !! "success" = Some (PyBool false)).
      { apply (f_equal TextProps.success_flag) in Hfallback.
        exact Hfallback. }
      rewrite (Hclient false Hs). reflexivity.
  - assert (Hrejected :
              exists body,
                curate_endpoint cfg server
                  (Ret (request_json prompt instruction))
                = Ret (body, 400%Z)).
    { rewrite CuratorServiceProps.curate_endpoint_parsed by discriminate.
      rewrite Hvalid. eexists. reflexivity. }
    destruct Hrejected as [body ->].
    split; [exists prompt; split; [reflexivity|left; reflexivity]|].
    intros e _. reflexivity.
Qed.

(** *** The upload endpoint *)

(** An extractor result is a success, or the bare failure dictionary. *)
Definition success_or_bare_failure (r : dict) : Prop :=
  r !! "success" = Some (PyBool true) \/ exists error, r = failure error.

Lemma try_encodings_form (d : document) (encodings : list string) (r : dict) :
  try_encodings d encodings = Ret r -> success_or_bare_failure r.
Proof.
  induction encodings as [|enc rest IH]; simpl.
  - intros [= <-]. right. eexists; reflexivity.
  - destruct (open_read d enc) as [text|e]; unfold mbind, res_bind, try_except.
    + intros [= <-]. left; reflexivity.
    + destruct (is_UnicodeDecodeError e); [exact IH | discriminate].
Qed.

Lemma registered_form (content_type : string)
    (processor : Pipeline -> document -> res dict) :
  supported_types !! content_type = Some processor ->
  forall self d r, processor self d = Ret r -> success_or_bare_failure r.
Proof.
  intros H. apply elem_of_list_to_map_2 in H. unfold supported_items in H.
  assert (Hpdf : forall self d r,
            _process_pdf self d = Ret r -> success_or_bare_failure r).
  { intros self d r.
    unfold _process_pdf, _process_pdf_pymupdf, _process_pdf_fallback.
    destruct (pymupdf_available self);
      [|intros [= <-]; right; eexists; reflexivity].
    destruct (doc_fitz d) as [doc|e]; unfold mbind, res_bind, try_except;
      simpl; [|intros [= <-]; right; eexists; reflexivity].
    destruct (pages_loop self 0 doc []) as [parts|e]; simpl;
      intros [= <-]; [left; reflexivity | right; eexists; reflexivity]. }
  assert (Himage : forall self d r,
            _process_image self d = Ret r -> success_or_bare_failure r).
  { intros self d r. unfold _process_image.
    destruct (tesseract_available self); simpl;
      [|intros [= <-]; right; eexists; reflexivity].
    destruct (_ocr_image (doc_tesseract d)) as [text|e];
      unfold mbind, res_bind, try_except; simpl;
      intros [= <-]; [left; reflexivity | right; eexists; reflexivity]. }
  assert (Htext : forall self d r,
            _process_text self d = Ret r -> success_or_bare_failure r).
  { intros self d r. unfold _process_text.
    destruct (open_read d "utf-8") as [text|e];
      unfold mbind, res_bind, try_except.
    - intros [= <-]. left; reflexivity.
    - destruct (is_UnicodeDecodeError e); [|discriminate].
      apply try_encodings_form. }
  repeat (apply elem_of_cons in H as [H|H];
          [injection H as _ ->; assumption|]).
  apply elem_of_nil in H. destruct H.
Qed.

(** Every result of [process_document] carries the elapsed time, and a
    failure carries neither text nor confidence. *)
Lemma process_document_failure_shape (self : Pipeline) (d : document)
    (start_time now : Q) :
  exists r, process_document self d start_time now = Ret r
    /\ r !! "processing_time" = Some (PyFloat (now - start_time))
    /\ (r !! "success" = Some (PyBool false) ->
        r !! "text" = None /\ r !! "confidence" = None).
Proof.
  unfold process_document.
  destruct (supported_types !! _detect_content_type d) as [processor|] eqn:Hkind.
  - pose proof (registered_form _ _ Hkind self d) as Hform.
    destruct (processor self d) as [r0|e]; unfold mbind, res_bind, try_except.
    + destruct (doc_stat d) as [size|e]; simpl.
      * eexists; split; [reflexivity|].
        split; [rewrite !lookup_insert_ne by discriminate;
                apply lookup_insert_eq|].
        rewrite !lookup_insert_ne by discriminate.
        destruct (Hform r0 eq_refl) as [Hs|[error ->]].
        -- intros H. rewrite Hs in H. discriminate H.
        -- intros _. split; reflexivity.
      * eexists; split; [reflexivity|]. repeat split.
    + simpl. eexists; split; [reflexivity|]. repeat split.
  - unfold try_except. eexists; split; [reflexivity|]. repeat split.
Qed.

(** The framework's rendering used in the examples: [status: detail]. *)
Definition status_and_detail (status : Z) (detail : pystr) : pystr :=
  str_of_N (Z.to_N status) ++ lit ": " ++ detail.

(** A Word file uploaded under the declared type [text/plain]. *)
Definition mislabelled_upload : Backend.upload :=
  {| Backend.up_content_type := Some (lit "text/plain");
     Backend.up_filename := lit "notes.DOCX";
     Backend.up_content := [Byte.x50; Byte.x4b; Byte.x03; Byte.x04] |}.

(** X23.  [upload_document] answers a declared content type outside the
    five allowed ones (or none at all) with status 500, not 400, since
    the 400 it raises is caught by its own handler; nothing is saved or
    processed then.  Once the declared type is allowed and the bytes are
    saved it always answers [success: True], with the size of the upload
    and the pipeline's elapsed time; when the pipeline's result is a
    failure (for instance because the file name's suffix is not a
    supported one) the answer still says [success: True], with
    [extracted_text == ""] and [confidence == 0]. *)
Theorem upload_document_answers (self : Pipeline) (file : Backend.upload)
    (timestamp : pystr) (written : res unit) (saved : document)
    (start_time now : Q) (render : Z -> pystr -> pystr) :
  let declared_allowed :=
    exists kind, Backend.up_content_type file = Some kind
                 /\ kind ∈ Backend.allowed_types in
  let answered :=
    Backend.upload_document self file timestamp written saved start_time now
      render in
  (~ declared_allowed ->
   exists detail, answered = Backend.HttpError 500 (render 400%Z detail)
     /\ forall written' saved',
          Backend.upload_document self file timestamp written' saved'
            start_time now render = answered)
  /\ (declared_allowed -> forall e, written = Raise e ->
      answered = Backend.HttpError 500 (exn_msg e))
  /\ (declared_allowed -> written = Ret tt ->
      exists body result,
        answered = Backend.Respond body
        /\ process_document self saved start_time now = Ret result
        /\ body !! "success" = Some (PyBool true)
        /\ body !! "file_size"
           = Some (PyInt (Z.of_nat (length (Backend.up_content file))))
        /\ body !! "processing_time" = Some (PyFloat (now - start_time))
        /\ body !! "extracted_text" = Some (default (PyStr []) (result !! "text"))
        /\ (result !! "success" = Some (PyBool false) ->
            body !! "extracted_text" = Some (PyStr [])
            /\ body !! "confidence" = Some (PyInt 0))).
Proof.
  cbv zeta. unfold Backend.upload_document.
  destruct (Backend.up_content_type file) as [kind|] eqn:Hdeclared.
  2: { split; [|split].
       - intros _. simpl negb. cbv iota. eexists. split; reflexivity.
       - intros [kind [H _]]. discriminate H.
       - intros [kind [H _]]. discriminate H. }
  destruct (decide (kind ∈ Backend.allowed_types)) as [Hin|Hout].
  - rewrite (bool_decide_eq_true_2 _ Hin). simpl negb. cbv iota.
    split; [intros H; destruct H; exists kind; split; [reflexivity|exact Hin]|].
    split.
    + intros _ e ->. reflexivity.
    + intros _ ->. unfold mbind at 1, res_bind at 1. cbv beta iota.
      destruct (process_document_failure_shape self saved start_time now)
        as [result [Hrun [Htime Hfailure]]].
      rewrite Hrun. unfold mbind, res_bind, mret, res_ret. cbv beta iota.
      eexists. exists result. split; [reflexivity|]. split; [reflexivity|].
      split; [reflexivity|]. split; [reflexivity|].
      split; [rewrite <- Htime; destruct (result !! "processing_time") eqn:Hp;
              [reflexivity|discriminate Htime]|].
      split; [reflexivity|].
      intros Hfailed. destruct (Hfailure Hfailed) as [Ht Hc].
      split.
      * transitivity (Some (default (PyStr []) (result !! "text")));
          [reflexivity|rewrite Ht; reflexivity].
      * transitivity (Some (default (PyInt 0) (result !! "confidence")));
          [reflexivity|rewrite Hc; reflexivity].
  - rewrite (bool_decide_eq_false_2 _ Hout). simpl negb. cbv iota.
    split; [intros _; eexists; split; reflexivity|].
    split; intros [kind' [[= <-] Hin]]; destruct (Hout Hin).
Qed.

End BackendProps.

(* ===================================================================== *)
(** ** Further properties of [curate_prompt] and of the adapter's URL *)
(* ===================================================================== *)

Module CuratorMore.
Import Py Ollama Curator.

(** *** Occurrences of a separator *)

Lemma starts_with_inv (sep hay : pystr) :
  starts_with sep hay = true -> exists rest, hay = sep ++ rest.
Proof.
  revert hay. induction sep as [|a sep IH]; intros hay; simpl.
  - intros _. exists hay. reflexivity.
  - destruct hay as [|b hay]; [discriminate|].
    intros H. apply andb_true_iff in H as [Hab Hrest].
    apply N.eqb_eq in Hab. subst b.
    destruct (IH hay Hrest) as [rest ->]. exists rest. reflexivity.
Qed.

Lemma is_substring_inv (sep hay : pystr) :
  is_substring sep hay = true -> exists before after, hay = before ++ sep ++ after.
Proof.
  induction hay as [|c hay IH]; rewrite PdfProps.is_substring_unfold;
    intros H; apply orb_true_iff in H as [H|H].
  - destruct (starts_with_inv _ _ H) as [rest ->]. exists [], rest. reflexivity.
  - discriminate H.
  - destruct (starts_with_inv _ _ H) as [rest ->]. exists [], rest. reflexivity.
  - destruct (IH H) as [before [after ->]].
    exists (c :: before), after. reflexivity.
Qed.

Lemma is_substring_none (sep hay : pystr) :
  (forall before rest, hay = before ++ rest -> starts_with sep rest = false) ->
  is_substring sep hay = false.
Proof.
  induction hay as [|c hay IH]; intros H; rewrite PdfProps.is_substring_unfold.
  - rewrite (H [] [] eq_refl). reflexivity.
  - rewrite (H [] (c :: hay) eq_refl). simpl. apply IH.
    intros before rest ->. apply (H (c :: before) rest). reflexivity.
Qed.

(** A stripped string is a piece of the string it was stripped from. *)
Lemma strip_infix (s : pystr) : exists before after, s = before ++ strip s ++ after.
Proof.
  unfold strip, rstrip.
  destruct (IngestionMore.lstrip_suffix s) as [before Hleft].
  destruct (IngestionMore.lstrip_suffix (rev (lstrip s))) as [trail Hright].
  exists before, (rev trail).
  apply (f_equal (@rev N)) in Hright.
  rewrite rev_involutive, rev_app_distr in Hright.
  rewrite <- Hright. exact Hleft.
Qed.

Lemma strip_keeps_absence (sep s : pystr) :
  is_substring sep s = false -> is_substring sep (strip s) = false.
Proof.
  intros Hs. destruct (is_substring sep (strip s)) eqn:H; [|reflexivity].
  destruct (is_substring_inv _ _ H) as [a [b Hsplit]].
  destruct (strip_infix s) as [before [after Hs']].
  rewrite Hsplit in Hs'.
  rewrite Hs', <- !app_assoc, (app_assoc before a) in Hs.
  rewrite PdfProps.is_substring_app in Hs. discriminate Hs.
Qed.

(** No occurrence of [sep] in [rev cur ++ s] starts inside [rev cur]. *)
Definition clean (sep cur s : pystr) : Prop :=
  forall before rest,
    rev cur = before ++ rest -> rest <> [] -> starts_with sep (rest ++ s) = false.

Lemma split_aux_nonempty (sep : pystr) (s : pystr) :
  forall skip cur, split_aux sep skip cur s <> [].
Proof.
  induction s as [|c s IH]; intros skip cur; simpl; [discriminate|].
  destruct skip; [|apply IH].
  destruct (starts_with sep (c :: s)); [discriminate|apply IH].
Qed.

Lemma last_cons (piece : pystr) (pieces : list pystr) :
  pieces <> [] -> List.last (piece :: pieces) [] = List.last pieces [].
Proof. destruct pieces; [intros H; destruct (H eq_refl)|reflexivity]. Qed.

(** The last piece of a split holds no separator. *)
Lemma split_aux_last (sep : pystr) (s : pystr) :
  sep <> [] ->
  forall skip cur,
    (skip <> 0 -> cur = []) -> clean sep cur s ->
    is_substring sep (List.last (split_aux sep skip cur s) []) = false.
Proof.
  intros Hsep. induction s as [|c s IH]; intros skip cur Hskip Hclean.
  - simpl. apply is_substring_none. intros before rest Hsplit.
    destruct rest as [|r rest].
    + destruct sep; [destruct (Hsep eq_refl)|reflexivity].
    + rewrite <- (app_nil_r (r :: rest)).
      apply (Hclean before (r :: rest) Hsplit). discriminate.
  - simpl. destruct skip as [|skip].
    + destruct (starts_with sep (c :: s)) eqn:Hhere.
      * rewrite last_cons by apply split_aux_nonempty.
        apply IH; [reflexivity|].
        intros before rest Hsplit Hne. destruct before; destruct rest;
          try discriminate Hsplit. destruct (Hne eq_refl).
      * apply IH; [intros H; destruct (H eq_refl)|].
        intros before rest Hsplit Hne. simpl in Hsplit.
        destruct (exists_last Hne) as [rest' [x ->]].
        rewrite app_assoc in Hsplit.
        apply app_inj_tail in Hsplit as [Hcur ->].
        rewrite <- app_assoc. simpl.
        destruct rest' as [|r rest']; [exact Hhere|].
        apply (Hclean before (r :: rest') Hcur). discriminate.
    + rewrite (Hskip ltac:(discriminate)). apply IH; [reflexivity|].
      intros before rest Hsplit Hne. destruct before; destruct rest;
        try discriminate Hsplit. destruct (Hne eq_refl).
Qed.

Lemma split_last_clean (sep s : pystr) :
  sep <> [] -> is_substring sep (List.last (split sep s) []) = false.
Proof.
  intros Hsep. unfold split.
  apply (split_aux_last sep s Hsep 0 []); [intros H; destruct (H eq_refl)|].
  intros before rest Hsplit Hne. destruct before; destruct rest;
    try discriminate Hsplit. destruct (Hne eq_refl).
Qed.

(** A backend that echoes its instructions before the answer. *)
Definition chatty : backend := fun _ _ =>
  Http 200
    (Json (PyDict {[ lit "response" :=
                       PyStr (lit "Sure! REFINED PROMPT: Explain recursion. ") ]})
       (lit "{...}")).

(** X24.  Every result of [curate_prompt] holds the prompt's length as
    [original_length] and a string under [refined] whose length is
    [refined_length].  In a success the refined text has no white space
    at either end and never contains the marker [REFINED PROMPT:]; in a
    fallback it is the prompt itself. *)
Theorem curated_result_invariants (cfg : config) (server : backend)
    (prompt instruction : pystr) (body : dict)
    (Hrun : (curate_prompt cfg server prompt instruction).1 = Ret body) :
  body !! "original_length" = Some (PyInt (Z.of_nat (length prompt)))
  /\ exists refined,
       body !! "refined" = Some (PyStr refined)
       /\ body !! "refined_length" = Some (PyInt (Z.of_nat (length refined)))
       /\ (body !! "success" = Some (PyBool true) ->
           strip refined = refined
           /\ is_substring (lit "REFINED PROMPT:") refined = false)
       /\ (body !! "success" = Some (PyBool false) -> refined = prompt).
Proof.
  revert Hrun. unfold curate_prompt. cbv zeta. cbn [fst].
  destruct (generate (curator_adapter cfg) server
              (curation_prompt prompt instruction) 2048 (3 # 10) None).1
    as [result|e]; unfold mbind, res_bind, try_except.
  - destruct (text_stripped result) as [text|e] eqn:Htext.
    + intros [= <-]. split; [reflexivity|].
      eexists. split; [reflexivity|]. split; [reflexivity|].
      split; [|intros H; discriminate H]. intros _.
      destruct (is_substring (lit "REFINED PROMPT:") text) eqn:Hmarker.
      * split; [apply IngestionMore.strip_idempotent|].
        apply strip_keeps_absence, split_last_clean. discriminate.
      * split; [|exact Hmarker].
        unfold text_stripped in Htext.
        destruct result as [d|]; [|discriminate Htext].
        destruct (d !! "text") as [[| | | | s | |]|]; try discriminate Htext.
        injection Htext as <-. apply IngestionMore.strip_idempotent.
    + intros [= <-]. split; [reflexivity|].
      exists prompt. split; [reflexivity|]. split; [reflexivity|].
      split; [intros H; discriminate H|reflexivity].
  - intros [= <-]. split; [reflexivity|].
    exists prompt. split; [reflexivity|]. split; [reflexivity|].
    split; [intros H; discriminate H|reflexivity].
Qed.

(** What [curate_prompt] returns behind [chatty]. *)
Definition chatty_body : dict :=
  list_to_map
    [("refined", PyStr (lit "Explain recursion."));
     ("original_length", PyInt 17); ("refined_length", PyInt 18);
     ("curator_model", PyStr (lit "mistral-7b")); ("success", PyBool true)].

Lemma chatty_curated :
  (curate_prompt CuratorProps.local_config chatty
     (lit "Explain recursion") []).1 = Ret chatty_body.
Proof. vm_compute. reflexivity. Qed.

Lemma curated_result_invariants_witness :
  chatty_body !! "original_length"
  = Some (PyInt (Z.of_nat (length (lit "Explain recursion"))))
  /\ exists refined,
       chatty_body !! "refined" = Some (PyStr refined)
       /\ chatty_body !! "refined_length"
          = Some (PyInt (Z.of_nat (length refined)))
       /\ (chatty_body !! "success" = Some (PyBool true) ->
           strip refined = refined
           /\ is_substring (lit "REFINED PROMPT:") refined = false)
       /\ (chatty_body !! "success" = Some (PyBool false) ->
           refined = lit "Explain recursion").
Proof.
  exact (curated_result_invariants CuratorProps.local_config chatty
           (lit "Explain recursion") [] chatty_body chatty_curated).
Defined.

(** *** The adapter's base URL *)

Lemma rstrip_slash_spec (s : pystr) :
  exists slashes,
    s = rstrip_slash s ++ repeat 47%N slashes
    /\ (forall init c, rstrip_slash s = init ++ [c] -> c <> 47%N).
Proof.
  unfold rstrip_slash.
  set (go := fix go (r : pystr) : pystr :=
               match r with
               | [] => []
               | c :: r' => if (c =? 47)%N then go r' else r
               end).
  assert (Hgo : forall r, exists k,
            r = repeat 47%N k ++ go r
            /\ (forall c rest, go r = c :: rest -> c <> 47%N)).
  { induction r as [|c r [k [Hr Hhead]]].
    - exists 0. split; [reflexivity|discriminate].
    - simpl. destruct (N.eqb_spec c 47) as [->|Hne].
      + exists (S k). split; [simpl; rewrite <- Hr; reflexivity|exact Hhead].
      + exists 0. split; [reflexivity|]. intros c' rest [= <- _]. exact Hne. }
  destruct (Hgo (rev s)) as [k [Hr Hhead]].
  exists k. split.
  - apply (f_equal (@rev N)) in Hr.
    rewrite rev_involutive, rev_app_distr, rev_repeat in Hr. exact Hr.
  - intros init c H. apply (f_equal (@rev N)) in H.
    rewrite rev_involutive, rev_app_distr in H. simpl in H.
    exact (Hhead c (rev init) H).
Qed.

(** X25.  The base URL the curator's adapter keeps is [OLLAMA_HOST]
    without its trailing slashes: it never ends with a slash, and the
    host is that URL followed by slashes only (so a host without a
    trailing slash is kept as it is). *)
Theorem adapter_base_url_has_no_trailing_slash (cfg : config) :
  (forall init c, base_url (curator_adapter cfg) = init ++ [c] -> c <> 47%N)
  /\ (exists slashes,
        OLLAMA_HOST cfg
        = base_url (curator_adapter cfg) ++ repeat 47%N slashes)
  /\ ((forall init c, OLLAMA_HOST cfg = init ++ [c] -> c <> 47%N) ->
      base_url (curator_adapter cfg) = OLLAMA_HOST cfg).
Proof.
  unfold curator_adapter. cbn [base_url].
  destruct (rstrip_slash_spec (OLLAMA_HOST cfg)) as [k [Hsplit Hend]].
  split; [exact Hend|]. split; [exists k; exact Hsplit|].
  intros Hclean. destruct k as [|k].
  - simpl in Hsplit. rewrite app_nil_r in Hsplit. symmetry. exact Hsplit.
  - exfalso. apply (Hclean (rstrip_slash (OLLAMA_HOST cfg) ++ repeat 47%N k) 47%N);
      [|reflexivity].
    rewrite Hsplit at 1. rewrite <- app_assoc. f_equal.
    change [47%N] with (repeat 47%N 1). rewrite <- repeat_app.
    f_equal. lia.
Qed.

End CuratorMore.

(* ===================================================================== *)
(** ** The capability probes of [IngestionPipeline.__init__] *)
(* ===================================================================== *)

Module ProbeProps.
Import Py Ingestion.

(** X26.  A pipeline that [__init__] builds has [tesseract_available]
    exactly when [tesseract --version] exits with status 0 (a non-zero
    exit or a missing binary makes it unavailable) and [pymupdf_available]
    exactly when [import fitz] succeeds; building the pipeline raises
    only when a probe raises something else than the exceptions it
    expects. *)
Theorem new_pipeline_flags (probe : proc_outcome) (import_fitz : res unit) :
  (forall self, new_pipeline probe import_fitz = Ret self ->
     (tesseract_available self = true <-> exists out, probe = Completed out)
     /\ (pymupdf_available self = true <-> import_fitz = Ret tt))
  /\ (forall e, new_pipeline probe import_fitz = Raise e ->
        (probe = SpawnFailed e
         /\ is_CalledProcessError e = false
         /\ exn_cls e <> FileNotFoundError)
        \/ (import_fitz = Raise e /\ exn_cls e <> ImportError)).
Proof.
  unfold new_pipeline, _check_tesseract, _check_pymupdf.
  destruct probe as [out|code|e0]; simpl run;
    unfold mbind, res_bind, try_except, mret, res_ret; cbv beta iota.
  - destruct import_fitz as [[]|e1]; cbv beta iota.
    + split; [|discriminate]. intros self [= <-]. simpl.
      split; (split; [intros _|reflexivity]); [exists out|]; reflexivity.
    + destruct (bool_decide_reflect (exn_cls e1 = ImportError)) as [Hc|Hc].
      * split; [|discriminate]. intros self [= <-]. simpl.
        split; [split; [intros _; exists out|]; reflexivity|].
        split; discriminate.
      * split; [discriminate|]. intros e [= <-]. right. split; [reflexivity|exact Hc].
  - simpl. destruct import_fitz as [[]|e1]; cbv beta iota.
    + split; [|discriminate]. intros self [= <-]. simpl.
      split; [split; [discriminate|intros [out H]; discriminate H]|].
      split; reflexivity.
    + destruct (bool_decide_reflect (exn_cls e1 = ImportError)) as [Hc|Hc].
      * split; [|discriminate]. intros self [= <-]. simpl.
        split; [split; [discriminate|intros [out H]; discriminate H]|].
        split; discriminate.
      * split; [discriminate|]. intros e [= <-]. right. split; [reflexivity|exact Hc].
  - destruct (is_CalledProcessError e0) eqn:Hcalled; simpl orb; cbv iota.
    2: destruct (bool_decide_reflect (exn_cls e0 = FileNotFoundError))
         as [Hmissing|Hmissing]; cbv iota.
    3: { split; [discriminate|]. intros e [= <-]. left.
         repeat split; assumption. }
    all: destruct import_fitz as [[]|e1]; cbv beta iota;
      [split; [|discriminate]; intros self [= <-]; simpl;
       split; [split; [discriminate|intros [out H]; discriminate H]|];
       split; reflexivity|];
      destruct (bool_decide_reflect (exn_cls e1 = ImportError)) as [Hc|Hc];
      [split; [|discriminate]; intros self [= <-]; simpl;
       split; [split; [discriminate|intros [out H]; discriminate H]|];
       split; discriminate
      |split; [discriminate|]; intros e [= <-]; right;
       split; [reflexivity|exact Hc]].
Qed.

(** A Word file uploaded as [text/plain] is answered with
    [success: True] and no text. *)
Example upload_mislabelled :
  exists body,
    Backend.upload_document TextProps.full_pipeline
      BackendProps.mislabelled_upload (lit "20250101_120000") (Ret tt)
      IngestionMore.word_file 0 1 BackendProps.status_and_detail
    = Backend.Respond body
    /\ body !! "success" = Some (PyBool true)
    /\ body !! "extracted_text" = Some (PyStr [])
    /\ body !! "confidence" = Some (PyInt 0).
Proof. eexists. split; [reflexivity|]. repeat split. Qed.

End ProbeProps.
